(** * bloom: [git bloom-import-upstream]

    A shallow embedding of [src/bloom/import_upstream.py] and the properties
    of its release-version reconciliation and repository-state detection.

    The program is Python 2 (it calls [str.count] on the output of
    [check_output]), so a [str] is a byte string: it is modelled as [string].
    Shell commands, prints and the calls made to the version-control client
    are recorded in a trace, exceptions are values of [exn], and every
    function of the source that touches the repository is a function of the
    monad [M] below. *)

From Stdlib Require Import Ascii NArith.
From stdpp Require Import base tactics option list strings gmap fin_maps.

(** ** Python byte strings *)

Module Py.

(** [s.startswith(p)] *)
Fixpoint startswith (p s : string) : bool :=
  match p, s with
  | EmptyString, _ => true
  | String a p', String b s' => if Ascii.eqb a b then startswith p' s' else false
  | String _ _, EmptyString => false
  end.

(** [s.endswith(c)] for a one-character suffix *)
Fixpoint endswith_char (c : ascii) (s : string) : bool :=
  match s with
  | EmptyString => false
  | String a EmptyString => Ascii.eqb a c
  | String _ s' => endswith_char c s'
  end.

(** The scan shared by [str.count] and [str.replace] for a non-empty
    pattern: occurrences are found from left to right and do not overlap;
    [skip] is the number of characters of the last occurrence still to be
    passed over. *)
Fixpoint count_from (sub : string) (skip : nat) (s : string) : nat :=
  match s with
  | EmptyString => 0
  | String _ s' =>
      match skip with
      | S k => count_from sub k s'
      | O => if startswith sub s
             then S (count_from sub (String.length sub - 1) s')
             else count_from sub 0 s'
      end
  end.

(** [s.count(sub)]; for the empty pattern Python answers [len(s) + 1]. *)
Definition count (sub s : string) : nat :=
  match sub with
  | EmptyString => S (String.length s)
  | _ => count_from sub 0 s
  end.

(** [sub in s] *)
Fixpoint contains (sub s : string) : bool :=
  startswith sub s ||
  match s with
  | EmptyString => false
  | String _ s' => contains sub s'
  end.

Fixpoint replace_from (old new : string) (skip : nat) (s : string) : string :=
  match s with
  | EmptyString => EmptyString
  | String c s' =>
      match skip with
      | S k => replace_from old new k s'
      | O => if startswith old s
             then new +:+ replace_from old new (String.length old - 1) s'
             else String c (replace_from old new 0 s')
      end
  end.

Fixpoint interleave (new s : string) : string :=
  match s with
  | EmptyString => new
  | String c s' => new +:+ String c (interleave new s')
  end.

(** [s.replace(old, new)]; for the empty pattern Python puts [new] before
    every character and at the end. *)
Definition replace (old new s : string) : string :=
  match old with
  | EmptyString => interleave new s
  | _ => replace_from old new 0 s
  end.

(** Python 2 [string.whitespace] *)
Definition isspace (c : ascii) : bool := Ascii.is_space c.

Fixpoint lstrip (s : string) : string :=
  match s with
  | EmptyString => EmptyString
  | String c s' => if isspace c then lstrip s' else s
  end.

Fixpoint rstrip (s : string) : string :=
  match s with
  | EmptyString => EmptyString
  | String c s' =>
      match rstrip s' with
      | EmptyString => if isspace c then EmptyString else String c EmptyString
      | r => String c r
      end
  end.

(** [s.strip()] *)
Definition strip (s : string) : string := rstrip (lstrip s).

(** [sep.join(l)] *)
Fixpoint join (sep : string) (l : list string) : string :=
  match l with
  | [] => ""
  | [x] => x
  | x :: l' => x +:+ sep +:+ join sep l'
  end.

(** Applying [f] to every character. *)
Fixpoint map (f : ascii -> ascii) (s : string) : string :=
  match s with
  | EmptyString => EmptyString
  | String c s' => String (f c) (map f s')
  end.

(** Truth value of a string: [''] is false. *)
Definition truthy (s : string) : bool :=
  match s with EmptyString => false | _ => true end.

(** [s] occurs in [t] *)
Definition occurs (sub s : string) : Prop :=
  exists pre post, s = pre +:+ sub +:+ post.

(** [c in s] for a character *)
Fixpoint has_char (c : ascii) (s : string) : bool :=
  match s with
  | EmptyString => false
  | String a s' => Ascii.eqb a c || has_char c s'
  end.

(** [s[n:]] *)
Fixpoint drop (n : nat) (s : string) : string :=
  match n, s with
  | S k, String _ s' => drop k s'
  | _, _ => s
  end.

(** [s.split(sep)] for a one-character separator *)
Fixpoint split_char (sep : ascii) (s : string) : list string :=
  match s with
  | EmptyString => [EmptyString]
  | String c s' =>
      if Ascii.eqb c sep then EmptyString :: split_char sep s'
      else match split_char sep s' with
           | x :: l => String c x :: l
           | [] => [String c EmptyString]
           end
  end.

(** The newline and the double quote, which the literals below are built
    from. *)
Definition nl : string := String (ascii_of_nat 10) EmptyString.
Definition dq : string := String (ascii_of_nat 34) EmptyString.

(** [s[-1]], when there is one *)
Fixpoint last_char (s : string) : option ascii :=
  match s with
  | EmptyString => None
  | String c EmptyString => Some c
  | String _ s' => last_char s'
  end.

(** No white space at either end. *)
Definition stripped (s : string) : Prop :=
  match s with
  | String c _ => isspace c = false
  | EmptyString => True
  end
  /\ match last_char s with
     | Some c => isspace c = false
     | None => True
     end.

(** [os.path.join(a, b)] on POSIX *)
Definition path_join (a b : string) : string :=
  if startswith "/" b then b
  else if negb (truthy a) || endswith_char "/" a then a +:+ b
  else a +:+ "/" +:+ b.

End Py.

(** ** [distutils.version.StrictVersion] (Python 2 standard library)

    [parse] follows the class's regular expression
    [^(\d+) \. (\d+) (\. (\d+))? ([ab](\d+))?$]; [cmp] is its [__cmp__],
    which both [<] and [==] go through. *)

Module StrictVersion.

Record t := Make {
  version : N * N * N;
  prerelease : option (ascii * N)
}.

Definition is_digit (c : ascii) : bool :=
  match Ascii.is_nat c with Some _ => true | None => false end.

(** The longest prefix of digits, and what follows it. *)
Fixpoint digits (s : string) : string * string :=
  match s with
  | EmptyString => (EmptyString, EmptyString)
  | String c s' =>
      if is_digit c
      then let (d, r) := digits s' in (String c d, r)
      else (EmptyString, s)
  end.

Fixpoint atoi_acc (acc : N) (s : string) : N :=
  match s with
  | EmptyString => acc
  | String c s' =>
      atoi_acc (acc * 10 + N.of_nat (default 0 (Ascii.is_nat c))) s'
  end.

(** [string.atoi] on a string of digits *)
Definition atoi (s : string) : N := atoi_acc 0 s.

(** The optional group [(\. (\d+))?] *)
Definition patch_group (s : string) : option string * string :=
  match s with
  | String "." s' =>
      match digits s' with
      | (EmptyString, _) => (None, s)
      | (p, r) => (Some p, r)
      end
  | _ => (None, s)
  end.

(** The optional group [([ab](\d+))?] *)
Definition prerelease_group (s : string) : option (ascii * string) * string :=
  match s with
  | String c s' =>
      if Ascii.eqb c "a" || Ascii.eqb c "b"
      then match digits s' with
           | (EmptyString, _) => (None, s)
           | (n, r) => (Some (c, n), r)
           end
      else (None, s)
  | EmptyString => (None, s)
  end.

(** [$] matches at the end of the string and before a final newline. *)
Definition at_end (s : string) : bool :=
  match s with
  | EmptyString => true
  | String "010" EmptyString => true
  | _ => false
  end.

(** [StrictVersion.parse]; [None] stands for the [ValueError] of a string
    that does not match. *)
Definition parse (vstring : string) : option t :=
  match digits vstring with
  | (String _ _ as major, String "." r1) =>
      match digits r1 with
      | (String _ _ as minor, r2) =>
          let (patch, r3) := patch_group r2 in
          let (pre, r4) := prerelease_group r3 in
          if at_end r4 then
            Some {| version :=
                      (atoi major, atoi minor,
                       match patch with Some p => atoi p | None => 0%N end);
                    prerelease :=
                      match pre with
                      | Some (c, n) => Some (c, atoi n)
                      | None => None
                      end |}
          else None
      | _ => None
      end
  | _ => None
  end.

(** Python 2 [cmp] on integers, characters and tuples *)
Definition cmp_then (c d : comparison) : comparison :=
  match c with Eq => d | _ => c end.

Definition cmp_version (v w : N * N * N) : comparison :=
  let '(a1, b1, c1) := v in
  let '(a2, b2, c2) := w in
  cmp_then (a1 ?= a2)%N (cmp_then (b1 ?= b2)%N (c1 ?= c2)%N).

Definition cmp_prerelease (p q : ascii * N) : comparison :=
  cmp_then (N_of_ascii p.1 ?= N_of_ascii q.1)%N (p.2 ?= q.2)%N.

(** [StrictVersion.__cmp__] *)
Definition cmp (self other : t) : comparison :=
  match cmp_version (version self) (version other) with
  | Eq =>
      match prerelease self, prerelease other with
      | None, None => Eq
      | Some _, None => Lt
      | None, Some _ => Gt
      | Some p, Some q => cmp_prerelease p q
      end
  | c => c
  end.

(** A string of digits only. *)
Fixpoint all_digits (s : string) : bool :=
  match s with
  | EmptyString => true
  | String c s' => is_digit c && all_digits s'
  end.

(** A component of a version: one digit or more. *)
Definition number (s : string) : bool :=
  match s with
  | EmptyString => false
  | String _ _ => all_digits s
  end.

(** [self < other] *)
Definition lt (self other : t) : bool :=
  match cmp self other with Lt => true | _ => false end.

(** [self == other] *)
Definition eq (self other : t) : bool :=
  match cmp self other with Eq => true | _ => false end.

End StrictVersion.

(** ** The release repository

    What the program's own git commands read and write: the local branches
    with the commit each points to, [HEAD], the index and the files of the
    working directory (paths relative to it).  Everything else the run
    depends on (tags, remotes, the scratch directory, the programs that are
    installed) is the component [ext], which only the collaborators of the
    program look at. *)

Inductive commit :=
| RootCommit (tree : gmap string string) (message : string)
| ChildCommit (parent : commit) (tree : gmap string string) (message : string).

Definition commit_parent (c : commit) : option commit :=
  match c with RootCommit _ _ => None | ChildCommit p _ _ => Some p end.
Definition commit_tree (c : commit) : gmap string string :=
  match c with RootCommit t _ | ChildCommit _ t _ => t end.
Definition commit_message (c : commit) : string :=
  match c with RootCommit _ m | ChildCommit _ _ m => m end.

(** The commit made on top of [parent], if any. *)
Definition new_commit (parent : option commit) (tree : gmap string string)
    (message : string) : commit :=
  match parent with
  | None => RootCommit tree message
  | Some p => ChildCommit p tree message
  end.

Inductive head :=
| OnBranch (name : string)     (* a symbolic ref to [refs/heads/name] *)
| Detached (c : commit).

Record world {Ext : Type} := World {
  cwd : string;
  branches : gmap string commit;
  HEAD : head;
  index : gmap string string;
  worktree : gmap string string;
  ext : Ext
}.
Arguments world : clear implicits.

(** ** Exceptions, events and the monad of the program *)

Inductive exn :=
| SystemExit (code : Z)
| CalledProcessError (returncode : Z) (cmd : string)
| AttributeError (attr : string)
| ValueError (msg : string)
| IOError (path : string)
| Exception (msg : string).

Inductive result (A : Type) :=
| Return (a : A)
| Raise (e : exn).
Arguments Return {A} a.
Arguments Raise {A} e.

Inductive event :=
| EvPrint (line : string)                   (* [print(line)] *)
| EvWarning (msg : string)                  (* [bloom.util.warning] *)
| EvError (msg : string)                    (* [bloom.util.error] *)
| EvBailout (reason : string)               (* [bloom.util.bailout] *)
| EvShell (cmd : string)                    (* a command given to the shell *)
| EvCall (fn : string) (args : list string) (* a call of a collaborator *).

Definition is_warning (e : event) : bool :=
  match e with EvWarning _ => true | _ => false end.

(** The warnings of a trace, in the order they were given. *)
Definition warnings (tr : list event) : list event := List.filter is_warning tr.

Record state {Ext : Type} := State {
  st_world : world Ext;
  st_trace : list event
}.
Arguments state : clear implicits.

Definition M (Ext A : Type) : Type := state Ext -> result A * state Ext.

Definition ret {Ext A} (a : A) : M Ext A := fun st => (Return a, st).

Definition raise {Ext A} (e : exn) : M Ext A := fun st => (Raise e, st).

Definition bind {Ext A B} (m : M Ext A) (k : A -> M Ext B) : M Ext B :=
  fun st =>
    match m st with
    | (Return a, st') => k a st'
    | (Raise e, st') => (Raise e, st')
    end.

Declare Scope py_scope.
Delimit Scope py_scope with py.
Notation "x <- m ;; k" := (bind m (fun x => k))
  (at level 100, m at next level, right associativity) : py_scope.
Notation "m ;; k" := (bind m (fun _ => k))
  (at level 100, right associativity) : py_scope.

(** [try: body / except: handler]; the handler answers [None] for an
    exception its [except] clause does not name. *)
Definition try_except {Ext A} (body : M Ext A) (handler : exn -> option (M Ext A))
  : M Ext A :=
  fun st =>
    match body st with
    | (Return a, st') => (Return a, st')
    | (Raise e, st') =>
        match handler e with
        | Some h => h st'
        | None => (Raise e, st')
        end
    end.

(** [try: body / finally: cleanup]: the cleanup runs on every way out of
    the body, and an exception of the cleanup replaces the body's outcome. *)
Definition try_finally {Ext A} (body : M Ext A) (cleanup : M Ext unit) : M Ext A :=
  fun st =>
    let (r, st1) := body st in
    match cleanup st1 with
    | (Return _, st2) => (r, st2)
    | (Raise e, st2) => (Raise e, st2)
    end.

Definition emit {Ext} (e : event) : M Ext unit :=
  fun st => (Return tt, {| st_world := st_world st; st_trace := st_trace st ++ [e] |}).

Definition lift {Ext A} (r : result A) : M Ext A := fun st => (r, st).

(** A read of the world *)
Definition ask {Ext A} (f : world Ext -> A) : M Ext A :=
  fun st => (Return (f (st_world st)), st).

(** An action on the world *)
Definition act {Ext A} (f : world Ext -> result A * world Ext) : M Ext A :=
  fun st =>
    let (r, w) := f (st_world st) in
    (r, {| st_world := w; st_trace := st_trace st |}).

(** [print] *)
Definition print {Ext} (line : string) : M Ext unit := emit (EvPrint line).

(** ** The git commands of the program

    The meaning given to the commands the program itself runs: the exit
    status, the standard output and the repository afterwards. *)

Section Git.
Context {Ext : Type}.
Implicit Types w : world Ext.

Definition set_branches w (b : gmap string commit) : world Ext :=
  World Ext (cwd w) b (HEAD w) (index w) (worktree w) (ext w).
Definition set_HEAD w (h : head) : world Ext :=
  World Ext (cwd w) (branches w) h (index w) (worktree w) (ext w).
Definition set_index w (i : gmap string string) : world Ext :=
  World Ext (cwd w) (branches w) (HEAD w) i (worktree w) (ext w).
Definition set_worktree w (t : gmap string string) : world Ext :=
  World Ext (cwd w) (branches w) (HEAD w) (index w) t (ext w).

Definition on_branch (h : head) (name : string) : bool :=
  match h with
  | OnBranch b => String.eqb b name
  | Detached _ => false
  end.

(** The branch [HEAD] is on, when that branch has a commit. *)
Definition current_branch_of w : option string :=
  match HEAD w with
  | OnBranch b => if bool_decide (is_Some (branches w !! b)) then Some b else None
  | Detached _ => None
  end.

Definition branch_line (h : head) (name : string) : string :=
  (if on_branch h name then "* " else "  ") +:+ name +:+ Py.nl.

Fixpoint concat (l : list string) : string :=
  match l with
  | [] => ""
  | x :: l' => x +:+ concat l'
  end.

Definition branch_names w : list string := (map_to_list (branches w)).*1.

(** The output of [git branch]: one line for each local branch, the
    current one starred. *)
Definition branch_listing w : string :=
  (match HEAD w with
   | Detached _ => "* (no branch)" +:+ Py.nl
   | OnBranch _ => ""
   end) +:+ concat (branch_line (HEAD w) <$> branch_names w).

Definition ok w : (Z * string) * world Ext := ((0%Z, ""), w).
Definition failed (code : Z) w : (Z * string) * world Ext := ((code, ""), w).

(** [git branch -m old new] *)
Definition git_branch_m (old new : string) w : (Z * string) * world Ext :=
  match branches w !! old, branches w !! new with
  | Some c, None =>
      ok (set_HEAD (set_branches w (<[new := c]> (delete old (branches w))))
            (if on_branch (HEAD w) old then OnBranch new else HEAD w))
  | _, _ => failed 128 w
  end.

(** Files of the working directory that the index does not know. *)
Definition untracked w : gmap string string :=
  filter (fun kv => kv.1 ∉ dom (index w)) (worktree w).

(** Switching to a local branch: [HEAD], the index and the working
    directory follow; untracked files stay. *)
Definition switch_to (b : string) w : option (world Ext) :=
  match branches w !! b with
  | Some c =>
      Some (World Ext (cwd w) (branches w) (OnBranch b) (commit_tree c)
              (commit_tree c ∪ untracked w) (ext w))
  | None => None
  end.

(** [git checkout b] *)
Definition git_checkout (b : string) w : (Z * string) * world Ext :=
  match switch_to b w with
  | Some w' => ok w'
  | None => failed 1 w
  end.

(** [git mv a b] *)
Definition git_mv (a b : string) w : (Z * string) * world Ext :=
  match index w !! a, worktree w !! a, worktree w !! b with
  | Some x, Some y, None =>
      ok (set_worktree (set_index w (<[b := x]> (delete a (index w))))
            (<[b := y]> (delete a (worktree w))))
  | _, _, _ => failed 128 w
  end.

(** [git add f] *)
Definition git_add (f : string) w : (Z * string) * world Ext :=
  match worktree w !! f with
  | Some x => ok (set_index w (<[f := x]> (index w)))
  | None => failed 128 w
  end.

(** [git commit -m message], with or without [--allow-empty] *)
Definition git_commit (allow_empty : bool) (message : string) w
  : (Z * string) * world Ext :=
  let parent :=
    match HEAD w with
    | OnBranch b => branches w !! b
    | Detached c => Some c
    end in
  let parent_tree :=
    match parent with Some c => commit_tree c | None => ∅ end in
  if negb allow_empty && bool_decide (parent_tree = index w)
  then failed 1 w
  else
    let c := new_commit parent (index w) message in
    match HEAD w with
    | OnBranch b => ok (set_branches w (<[b := c]> (branches w)))
    | Detached _ => ok (set_HEAD w (Detached c))
    end.

(** [git symbolic-ref HEAD refs/heads/b] *)
Definition git_symbolic_ref_HEAD (b : string) w : (Z * string) * world Ext :=
  ok (set_HEAD w (OnBranch b)).

(** [rm -f .git/index] *)
Definition rm_index w : (Z * string) * world Ext := ok (set_index w ∅).

(** [git clean -dfx]: every file the index does not know is removed. *)
Definition git_clean_dfx w : (Z * string) * world Ext :=
  ok (set_worktree w (filter (fun kv => kv.1 ∈ dom (index w)) (worktree w))).

Definition cmd_commit_rename : string :=
  "git commit -m " +:+ Py.dq +:+ "rename catkin.conf to bloom.conf" +:+ Py.dq.

Definition cmd_commit_initial : string :=
  "git commit --allow-empty -m " +:+ Py.dq +:+ "Initial upstream branch" +:+ Py.dq.

(** The commands that are given a meaning here; [None] for any other. *)
Definition git_model (cmd : string) w : option ((Z * string) * world Ext) :=
  if String.eqb cmd "git branch" then Some ((0%Z, branch_listing w), w)
  else if String.eqb cmd "git branch -m catkin bloom"
    then Some (git_branch_m "catkin" "bloom" w)
  else if String.eqb cmd "git checkout bloom" then Some (git_checkout "bloom" w)
  else if String.eqb cmd "git mv catkin.conf bloom.conf"
    then Some (git_mv "catkin.conf" "bloom.conf" w)
  else if String.eqb cmd "git add bloom.conf" then Some (git_add "bloom.conf" w)
  else if String.eqb cmd cmd_commit_rename
    then Some (git_commit false "rename catkin.conf to bloom.conf" w)
  else if String.eqb cmd "git symbolic-ref HEAD refs/heads/upstream"
    then Some (git_symbolic_ref_HEAD "upstream" w)
  else if String.eqb cmd "rm -f .git/index" then Some (rm_index w)
  else if String.eqb cmd "git clean -dfx" then Some (git_clean_dfx w)
  else if String.eqb cmd cmd_commit_initial
    then Some (git_commit true "Initial upstream branch" w)
  else None.

(** The path of a file of the working directory, relative to it. *)
Definition in_worktree w (path : string) : option string :=
  if Py.startswith "/" path then
    let root := Py.path_join (cwd w) "" in
    if Py.startswith root path
    then Some (Py.drop (String.length root) path)
    else None
  else Some path.

End Git.

(** No local branch has [sub] in its name. *)
Definition no_branch_contains {Ext} (sub : string) (w : world Ext) : Prop :=
  forall b, is_Some (branches w !! b) -> ~ Py.occurs sub b.

(** A word: not empty, and no blank, star or newline in it. *)
Definition word (sub : string) : Prop :=
  sub <> "" /\ Py.has_char " " sub = false /\ Py.has_char "*" sub = false
  /\ Py.has_char "010" sub = false.

(** ** The collaborators of the program

    [bloom.util], [vcstools] and the programs behind the shell are not part
    of this module; what the program asks of them is a parameter of the
    model.  A collaborator that acts on the system is a function of the
    world; [process] answers every shell command that [git_model] leaves
    open (the reads of [git config], [git-import-orig], [git import-orig]). *)

(** What [parse_stack_xml] answers: the name and the version of the
    manifest. *)
Record stack := Stack {
  name : string;
  version : string
}.

Record system {Ext : Type} := System {
  ansi : string -> string;
  track_all_git_branches : list string -> world Ext -> result unit * world Ext;
  assert_is_not_gbp_repo : string -> world Ext -> result unit * world Ext;
  create_temporary_directory : world Ext -> result string * world Ext;
  os_makedirs : string -> world Ext -> result unit * world Ext;
  exists_outside : string -> world Ext -> bool;
  vcs_checkout :
    string -> string -> string -> string -> world Ext -> result bool * world Ext;
  vcs_export_repository :
    string -> string -> string -> string -> world Ext -> result bool * world Ext;
  vcs_detect_presence : world Ext -> bool;
  parse_stack_xml : string -> world Ext -> result stack;
  get_last_git_tag : world Ext -> result string;
  segment_version : string -> result (list string);
  get_versions_from_upstream_tag : string -> result (list string);
  process : string -> world Ext -> (Z * string) * world Ext
}.
Arguments system : clear implicits.

(** ** The program *)

Section Program.
Context {Ext : Type}.
Variable sys : system Ext.
Local Open Scope py_scope.

(** An attribute of the manifest object; it has the two of [stack]. *)
Definition getattr (s : stack) (attr : string) : result string :=
  if String.eqb attr "name" then Return (name s)
  else if String.eqb attr "version" then Return (version s)
  else Raise (AttributeError attr).

(** [a, b, c = l] *)
Definition unpack3 (l : list string) : result (string * string * string) :=
  match l with
  | [a; b; c] => Return (a, b, c)
  | _ => Raise (ValueError "wrong number of values to unpack")
  end.

(** A collaborator's call, recorded with its arguments. *)
Definition call {A} (fn : string) (args : list string)
    (f : world Ext -> result A * world Ext) : M Ext A :=
  emit (EvCall fn args) ;; act f.

(** The shell: the git commands of the model, any other command by
    [process]. *)
Definition shell (cmd : string) (w : world Ext) : (Z * string) * world Ext :=
  match git_model cmd w with
  | Some r => r
  | None => process sys cmd w
  end.

Definition run (cmd : string) : M Ext (Z * string) :=
  emit (EvShell cmd) ;; act (fun w => let (r, w') := shell cmd w in (Return r, w')).

(** [subprocess.check_output(cmd, shell=True, cwd=cwd)].  The one caller that
    passes a directory passes [os.getcwd()], so the command runs in the
    working directory either way. *)
Definition check_output (cmd : string) (cwd : option string) : M Ext string :=
  r <- run cmd ;;
  if (r.1 =? 0)%Z then ret r.2 else raise (CalledProcessError r.1 cmd).

(** [subprocess.check_call(cmd, shell=True)] *)
Definition check_call (cmd : string) : M Ext Z :=
  r <- run cmd ;;
  if (r.1 =? 0)%Z then ret 0%Z else raise (CalledProcessError r.1 cmd).

(** Modelled from the spec: [bloom.util.execute_command] is not in this
    module; a command that fails surfaces at the call site as a fatal
    error. *)
Definition execute_command (cmd : string) (cwd : option string) : M Ext unit :=
  r <- run cmd ;;
  if (r.1 =? 0)%Z then ret tt else raise (CalledProcessError r.1 cmd).

(** Modelled from the spec: [bloom.util.bailout] is not in this module; it
    prints its message and terminates the run. *)
Definition bailout {A} (reason : string) : M Ext A :=
  emit (EvBailout reason) ;; raise (SystemExit 1).

(** Modelled from the spec: [bloom.util.warning] is not in this module; the
    message is printed to the operator and the run goes on. *)
Definition warning (msg : string) : M Ext unit := emit (EvWarning msg).

(** Modelled from the spec: [bloom.util.error] is not in this module; it
    prints its message. *)
Definition error (msg : string) : M Ext unit := emit (EvError msg).

(** Modelled from the spec: [bloom.util.get_current_git_branch] is not in
    this module; it answers the current branch name of the repository, and
    [None] when no branch is checked out. *)
Definition get_current_git_branch : M Ext (option string) := ask current_branch_of.

(** [os.getcwd()] *)
Definition os_getcwd : M Ext string := ask cwd.

(** [os.path.exists(path)] *)
Definition os_path_exists (path : string) : M Ext bool :=
  ask (fun w =>
         match in_worktree w path with
         | Some f => bool_decide (is_Some (worktree w !! f))
         | None => exists_outside sys path w
         end).

(** [open(path, 'r').read()] for a file of the working directory *)
Definition read_file (path : string) : M Ext string :=
  fun st =>
    match in_worktree (st_world st) path with
    | Some f =>
        match worktree (st_world st) !! f with
        | Some content => (Return content, st)
        | None => (Raise (IOError path), st)
        end
    | None => (Raise (IOError path), st)
    end.

(** [open(path, 'w+').write(content)] for a file of the working directory *)
Definition write_file (path content : string) : M Ext unit :=
  act (fun w =>
         match in_worktree w path with
         | Some f => (Return tt, set_worktree w (<[f := content]> (worktree w)))
         | None => (Raise (IOError path), w)
         end).

(** [bloom_repo.update(version)] of the [vcstools] git client on the
    release repository: the local branch is checked out, and the answer
    says whether it was. *)
Definition bloom_repo_update (version : string) : M Ext bool :=
  call "VcsClient.update" [version]
    (fun w =>
       match switch_to version w with
       | Some w' => (Return true, w')
       | None => (Return false, w)
       end).

Definition usage : M Ext unit :=
  print ("usage: git bloom-import-upstream" +:+ Py.nl +:+ Py.nl
         +:+ "Must be in a valid git bloom release repository." +:+ Py.nl).

Definition convert_catkin_to_bloom (cwd : string) : M Ext unit :=
  (* Rename the branch to bloom from catkin *)
  execute_command "git branch -m catkin bloom" (Some cwd) ;;
  (* Change to the bloom branch *)
  execute_command "git checkout bloom" (Some cwd) ;;
  (* Rename the config cwd *)
  e <- os_path_exists (Py.path_join cwd "catkin.conf") ;;
  (if e : bool then execute_command "git mv catkin.conf bloom.conf" (Some cwd)
   else ret tt) ;;
  (* Replace the `[catkin]` entry in the config file with `[bloom]` *)
  let bloom_path := Py.path_join cwd "bloom.conf" in
  e <- os_path_exists bloom_path ;;
  if e : bool then
    conf_file <- read_file bloom_path ;;
    let conf_file := Py.replace "[catkin]" "[bloom]" conf_file in
    write_file bloom_path conf_file ;;
    (* Stage the config file changes *)
    execute_command "git add bloom.conf" (Some cwd) ;;
    (* Commit the change *)
    let cmd := cmd_commit_rename in
    execute_command cmd (Some cwd)
  else ret tt.

Definition not_a_bloom_message : string :=
  "This does not appear to be a bloom release repo. "
  +:+ "Please initialize it first using: git "
  +:+ "bloom-set-upstream <UPSTREAM_VCS_URL> <VCS_TYPE>".

Definition not_a_bloom_release_repo : M Ext unit := bailout not_a_bloom_message.

Definition check_for_bloom (cwd : option string) : M Ext unit :=
  let cmd := "git branch" in
  out <- check_output cmd cwd ;;
  if Py.count "bloom" out =? 0 then
    (* There is not bloom branch, check for the legacy catkin branch *)
    out <- check_output cmd cwd ;;
    if Py.count "catkin" out =? 0 then
      (* Neither was found *)
      not_a_bloom_release_repo
    else
      (* Found catkin branch, migrate it to bloom *)
      print "catkin branch detected, up converting to the bloom branch" ;;
      convert_catkin_to_bloom (default "" cwd)
  else ret tt.

Definition except_CalledProcessError {A} (h : M Ext A) (e : exn) : option (M Ext A) :=
  match e with
  | CalledProcessError _ _ => Some h
  | _ => None
  end.

Definition parse_bloom_conf (cwd : option string)
  : M Ext (string * string * string) :=
  let cmd := "git config -f bloom.conf bloom.upstream" in
  out <- check_output cmd cwd ;;
  let upstream_repo := Py.strip out in
  let cmd := "git config -f bloom.conf bloom.upstreamtype" in
  out <- check_output cmd cwd ;;
  let upstream_type := Py.strip out in
  upstream_branch <-
    try_except
      (let cmd := "git config -f bloom.conf bloom.upstreambranch" in
       out <- check_output cmd cwd ;;
       ret (Py.strip out))
      (except_CalledProcessError (ret "")) ;;
  ret (upstream_repo, upstream_type, upstream_branch).

Definition get_tarball_name (pkg_name full_version : string) : string :=
  let pkg_name := Py.replace "_" "-" pkg_name in
  pkg_name +:+ "-" +:+ full_version.

Definition create_initial_upstream_branch (cwd : option string) : M Ext unit :=
  execute_command "git symbolic-ref HEAD refs/heads/upstream" cwd ;;
  execute_command "rm -f .git/index" cwd ;;
  execute_command "git clean -dfx" cwd ;;
  execute_command cmd_commit_initial cwd.

(** [OSError] cannot come from a command given to the shell, so the
    handler is the one of [CalledProcessError]. *)
Definition detect_git_import_orig : M Ext bool :=
  try_except
    (check_call "git-import-orig --help" ;; ret true)
    (except_CalledProcessError (ret false)).

Definition no_branch_set : string := "(No branch set)".

Definition summarize_repo_info (upstream_repo upstream_type upstream_branch : string)
  : M Ext unit :=
  let msg := "upstream repo: " +:+ ansi sys "boldon" +:+ upstream_repo
             +:+ ansi sys "reset" in
  print msg ;;
  let msg := "upstream type: " +:+ ansi sys "boldon" +:+ upstream_type
             +:+ ansi sys "reset" in
  print msg ;;
  let upstream_branch :=
    if Py.truthy upstream_branch then upstream_branch else no_branch_set in
  let msg := "upstream branch: " +:+ ansi sys "boldon" +:+ upstream_branch
             +:+ ansi sys "reset" in
  print msg.

(** *** The steps of [import_upstream] *)

(** Track the branches, check for a bloom branch and for bloom.conf
    (lines 172-182) *)
Definition ensure_bloom_repo : M Ext unit :=
  (* Ensure the bloom and upstream branches are tracked *)
  call "track_all_git_branches" ["bloom"; "upstream"]
    (track_all_git_branches sys ["bloom"; "upstream"]) ;;
  (* Check for a bloom branch *)
  cwd <- os_getcwd ;;
  check_for_bloom (Some cwd) ;;
  (* Check for bloom.conf *)
  bloom_repo_update "bloom" ;;
  e <- os_path_exists "bloom.conf" ;;
  if negb e then
    (* The repository has not been bloom initialized *)
    not_a_bloom_release_repo
  else ret tt.

(** Checkout upstream (lines 193-199); the answer is [tmp_dir] and
    [upstream_dir]. *)
Definition checkout_upstream (upstream_repo upstream_type upstream_branch : string)
  : M Ext (string * string) :=
  tmp_dir <- call "create_temporary_directory" [] (create_temporary_directory sys) ;;
  let upstream_dir := Py.path_join tmp_dir "upstream" in
  call "os.makedirs" [upstream_dir] (os_makedirs sys upstream_dir) ;;
  let branch :=
    if negb (String.eqb upstream_branch no_branch_set) then upstream_branch else "" in
  call "VcsClient.checkout" [upstream_type; upstream_dir; upstream_repo; branch]
    (vcs_checkout sys upstream_type upstream_dir upstream_repo branch) ;;
  ret (tmp_dir, upstream_dir).

(** Parse the stack.xml (lines 201-205) *)
Definition parse_the_stack_xml (upstream_dir : string) : M Ext stack :=
  e <- os_path_exists (Py.path_join upstream_dir "stack.xml") ;;
  if e : bool then
    call "parse_stack_xml" [Py.path_join upstream_dir "stack.xml"]
      (fun w => (parse_stack_xml sys (Py.path_join upstream_dir "stack.xml") w, w))
  else bailout ("No stack.xml at " +:+ upstream_dir).

(** Export the repository to a tar ball (lines 213-217); the answer is
    [tarball_path]. *)
Definition export_tarball (upstream_type upstream_dir tmp_dir : string) (stack : stack)
  : M Ext string :=
  let tarball_prefix := get_tarball_name (name stack) (version stack) in
  print ("Exporting version " +:+ version stack) ;;
  let tarball_path := Py.path_join tmp_dir tarball_prefix in
  call "VcsClient.export_repository"
    [upstream_type; upstream_dir; version stack; tarball_path]
    (vcs_export_repository sys upstream_type upstream_dir (version stack) tarball_path) ;;
  ret tarball_path.

(** [StrictVersion(vstring)] *)
Definition StrictVersion_new (vstring : string) : M Ext StrictVersion.t :=
  match StrictVersion.parse vstring with
  | Some v => ret v
  | None => raise (ValueError ("invalid version number '" +:+ vstring +:+ "'"))
  end.

Definition tag_line (last_tag : string) : string :=
  "The latest upstream tag in the release repo is "
  +:+ ansi sys "boldon" +:+ last_tag +:+ ansi sys "reset".

Definition regression_message (version last_tag_version : string) : string :=
  "Version discrepancy:" +:+ Py.nl
  +:+ "The upstream version, " +:+ version
  +:+ ", should be greater than the previous" +:+ Py.nl
  +:+ "release version, " +:+ last_tag_version +:+ "." +:+ Py.nl
  +:+ Py.nl
  +:+ "Upstream should rerelease or you should fix the release repo." +:+ Py.nl.

Definition staleness_message (version : string) : string :=
  "Version discrepancy:" +:+ Py.nl
  +:+ "The upstream version, " +:+ version
  +:+ ", is equal to a previous version." +:+ Py.nl.

(** Get the gbp version elements from either the last tag or the default
    (lines 219-244); the answer is [gbp_major, gbp_minor, gbp_patch]. *)
Definition gbp_version_elements (stack : stack)
  : M Ext (string * string * string) :=
  last_tag <- call "get_last_git_tag" []
                (fun w => (get_last_git_tag sys w, w)) ;;
  if String.eqb last_tag "" then
    l <- lift (segment_version sys (version stack)) ;;
    lift (unpack3 l)
  else
    l <- lift (get_versions_from_upstream_tag sys last_tag) ;;
    gbp <- lift (unpack3 l) ;;
    let '(gbp_major, gbp_minor, gbp_patch) := gbp in
    print (tag_line last_tag) ;;
    (* Ensure the new version is greater than the last tag *)
    full_version_strict <- StrictVersion_new (version stack) ;;
    let last_tag_version := Py.join "." [gbp_major; gbp_minor; gbp_patch] in
    last_tag_version_strict <- StrictVersion_new last_tag_version ;;
    (if StrictVersion.lt full_version_strict last_tag_version_strict then
       warning (regression_message (version stack) last_tag_version)
     else ret tt) ;;
    (if StrictVersion.eq full_version_strict last_tag_version_strict then
       verison <- lift (getattr stack "verison") ;;
       warning (staleness_message verison)
     else ret tt) ;;
    ret (gbp_major, gbp_minor, gbp_patch).

(** Look for upstream branch (lines 246-251) *)
Definition look_for_upstream_branch : M Ext unit :=
  output <- check_output "git branch" None ;;
  if Py.count "upstream" output =? 0 then
    print (ansi sys "boldon" +:+ "No upstream branch" +:+ ansi sys "reset"
           +:+ "... creating an initial upstream branch.") ;;
    create_initial_upstream_branch None
  else ret tt.

Definition import_orig_cmd (tarball_path : string) : string :=
  "git import-orig " +:+ (tarball_path +:+ ".tar.gz").

(** Detect git-import-orig and import the tarball (lines 256-267) *)
Definition import_the_tarball (tarball_path : string) : M Ext unit :=
  d <- detect_git_import_orig ;;
  (if negb d then
     bailout ("git-import-orig not detected, did you install "
              +:+ "git-buildpackage?")
   else ret tt) ;;
  let cmd := import_orig_cmd tarball_path in
  try_except
    (code <- check_call cmd ;;
     if negb (code =? 0)%Z then bailout ("git-import-orig failed '" +:+ cmd +:+ "'")
     else ret tt)
    (except_CalledProcessError (bailout ("git-import-orig failed '" +:+ cmd +:+ "'"))).

Definition import_upstream : M Ext unit :=
  ensure_bloom_repo ;;
  (* Parse the bloom config file *)
  conf <- parse_bloom_conf None ;;
  let '(upstream_repo, upstream_type, upstream_branch) := conf in
  (* Summarize the config contents *)
  summarize_repo_info upstream_repo upstream_type upstream_branch ;;
  (* If git make some checks *)
  (if String.eqb upstream_type "git" then
     print "Verifying a couple of things about the upstream git repo" ;;
     (* Ensure the upstream repo is not setup as a gbp *)
     call "assert_is_not_gbp_repo" [upstream_repo]
       (assert_is_not_gbp_repo sys upstream_repo)
   else ret tt) ;;
  dirs <- checkout_upstream upstream_repo upstream_type upstream_branch ;;
  let '(tmp_dir, upstream_dir) := dirs in
  stack <- parse_the_stack_xml upstream_dir ;;
  (* Summarize the stack.xml contents *)
  print ("Upstream's stack.xml has version " +:+ ansi sys "boldon"
         +:+ version stack +:+ ansi sys "reset") ;;
  print ("Upstream's name is " +:+ ansi sys "boldon" +:+ name stack
         +:+ ansi sys "reset") ;;
  tarball_path <- export_tarball upstream_type upstream_dir tmp_dir stack ;;
  gbp_version_elements stack ;;
  look_for_upstream_branch ;;
  (* Go to the master branch *)
  bloom_repo_update "master" ;;
  import_the_tarball tarball_path.

(** Truth value of [current_branch], which is [None] or a string. *)
Definition truthy_opt (o : option string) : bool :=
  match o with Some s => Py.truthy s | None => false end.

(** The answer of [main] is [Some 1] for [return 1] and [None] at the end
    of the function. *)
Definition main : M Ext (option Z) :=
  (* Check that the current directory is a servicable git/bloom repo *)
  present <- ask (vcs_detect_presence sys) ;;
  if negb present then
    error ("Not in a git repository." +:+ Py.nl) ;;
    usage ;;
    ret (Some 1%Z)
  else
    (* Get the current git branch *)
    current_branch <- get_current_git_branch ;;
    try_finally
      (import_upstream ;;
       (* Done! *)
       print "I'm happy.  You should be too.")
      ((* Restore the original branch if it exists still *)
       local_branches <- check_output "git branch" None ;;
       if truthy_opt current_branch
          && Py.contains (default "" current_branch) local_branches
       then bloom_repo_update (default "" current_branch) ;; ret tt
       else ret tt) ;;
    ret None.

End Program.

(** ** The migrated repository *)

(** What the migration of a legacy repository leaves behind, [c] being the
    commit of the branch [catkin] and [conf] the text of its [catkin.conf]:
    the branch is named [bloom] and checked out, the file is [bloom.conf]
    with every [[catkin]] replaced by [[bloom]], and the change is committed
    on top of [c]. *)
Definition migrated {Ext : Type} (w : world Ext) (c : commit) (conf : string)
  : world Ext :=
  let conf' := Py.replace "[catkin]" "[bloom]" conf in
  let staged := <["bloom.conf" := conf']> (delete "catkin.conf" (commit_tree c)) in
  {| cwd := cwd w;
     branches :=
       <["bloom" := ChildCommit c staged "rename catkin.conf to bloom.conf"]>
         (delete "catkin" (branches w));
     HEAD := OnBranch "bloom";
     index := staged;
     worktree :=
       <["bloom.conf" := conf']>
         (delete "catkin.conf" (commit_tree c ∪ untracked w));
     ext := ext w |}.

(** The commands of a migration, after the two listings. *)
Definition migration_commands : list event :=
  [EvPrint "catkin branch detected, up converting to the bloom branch";
   EvShell "git branch -m catkin bloom";
   EvShell "git checkout bloom";
   EvShell "git mv catkin.conf bloom.conf";
   EvShell "git add bloom.conf";
   EvShell cmd_commit_rename].

(** ** The initial upstream branch *)

(** The commands of [create_initial_upstream_branch]. *)
Definition initializer_commands : list event :=
  [EvShell "git symbolic-ref HEAD refs/heads/upstream";
   EvShell "rm -f .git/index";
   EvShell "git clean -dfx";
   EvShell cmd_commit_initial].

(** What the initializer leaves behind: exactly one new branch, [upstream],
    whose commit has no parent and an empty tree; [HEAD] on it; no file in
    the index or in the working directory. *)
Definition initialised {Ext : Type} (w w' : world Ext) : Prop :=
  branches w' = <["upstream" := RootCommit ∅ "Initial upstream branch"]> (branches w)
  /\ dom (branches w') = {["upstream"]} ∪ dom (branches w)
  /\ size (branches w') = S (size (branches w))
  /\ HEAD w' = OnBranch "upstream"
  /\ index w' = ∅
  /\ worktree w' = ∅.

(** ** What a step adds to the trace *)

(** Every event that [m] adds to the trace satisfies [P]. *)
Definition emits {Ext A : Type} (P : event -> Prop) (m : M Ext A) : Prop :=
  forall st, exists evs,
    st_trace (m st).2 = st_trace st ++ evs /\ Forall P evs.

(** [m] keeps the property [I] of the world. *)
Definition keeps {Ext A : Type} (I : world Ext -> Prop) (m : M Ext A) : Prop :=
  forall st, I (st_world st) -> I (st_world (m st).2).

(** The branch [bloom] exists. *)
Definition has_bloom {Ext : Type} (w : world Ext) : Prop :=
  is_Some (branches w !! "bloom").

(** The call of the checkout of the upstream client. *)
Definition checkout_call (args : list string) : event :=
  EvCall "VcsClient.checkout" args.

Definition not_checkout (e : event) : Prop :=
  forall args, e <> checkout_call args.

(** A property of events that only constrains the calls of the checkout. *)
Definition passes (P : event -> Prop) : Prop :=
  forall e, not_checkout e -> P e.

(** The checkout is called with the configured repository and type, and
    with the configured branch unless that is the text [(No branch set)]. *)
Definition hands_over (upstream_repo upstream_type upstream_branch : string)
    (e : event) : Prop :=
  forall args, e = checkout_call args ->
    exists upstream_dir,
      args = [upstream_type; upstream_dir; upstream_repo;
              if negb (String.eqb upstream_branch no_branch_set)
              then upstream_branch else ""].

(** ** The import command in the trace *)

(** An event that is not the import of an archive. *)
Definition not_import (e : event) : Prop :=
  forall p, e <> EvShell (import_orig_cmd p).

(** A property of events that only constrains the import commands. *)
Definition passes_import (P : event -> Prop) : Prop :=
  forall e, not_import e -> P e.

(** The only archive imported is the one at [tarball_path]. *)
Definition imports_exactly (tarball_path : string) (e : event) : Prop :=
  forall p, e = EvShell (import_orig_cmd p) -> p = tarball_path.

(** The export of the repository at [version] to [tarball_path]. *)
Definition export_call (upstream_type upstream_dir version tarball_path : string)
  : event :=
  EvCall "VcsClient.export_repository"
    [upstream_type; upstream_dir; version; tarball_path].

(** Every archive that [m] imports was exported by [m] before any import,
    to a path named after the manifest, at the version of the manifest. *)
Definition imports_what_it_exported {Ext A : Type} (m : M Ext A) : Prop :=
  forall st, exists evs,
    st_trace (m st).2 = st_trace st ++ evs
    /\ forall p, In (EvShell (import_orig_cmd p)) evs ->
         exists upstream_type upstream_dir tmp_dir stack before after,
           p = Py.path_join tmp_dir (get_tarball_name (name stack) (version stack))
           /\ evs = before
                    ++ export_call upstream_type upstream_dir (version stack) p
                    :: after
           /\ Forall not_import before.

(** ** A concrete system

    One instance of the collaborators, on which the runs of the examples are
    evaluated: the end-to-end scenario of the specification, with the last
    release tag, the manifest and the configuration as data. *)

Module Scenario.

Record fixture := Fixture {
  last_tag : string;               (* the most recent release tag, [""] for none *)
  manifest : option stack;         (* the [stack.xml] of the upstream tree *)
  config : list (string * string); (* the keys of [bloom.conf] *)
  import_orig_installed : bool
}.

(** Modelled from the spec: [bloom.util.segment_version] is not in this
    module; it derives major, minor and patch by segmenting a version
    string, and a string that has not three segments is a fatal error. *)
Definition split_version (full_version : string) : result (list string) :=
  let version_list := Py.split_char "." full_version in
  if length version_list =? 3 then Return version_list
  else Raise (SystemExit 1).

(** Modelled from the spec: [bloom.util.get_versions_from_upstream_tag] is
    not in this module; the tag encodes major, minor and patch, here as
    [upstream/<major>.<minor>.<patch>]. *)
Definition versions_of_tag (tag : string) : result (list string) :=
  match Py.split_char "/" tag with
  | [_; tag_version] => split_version tag_version
  | _ => Raise (SystemExit 1)
  end.

Fixpoint assoc (k : string) (l : list (string * string)) : option string :=
  match l with
  | [] => None
  | (k', v) :: l' => if String.eqb k k' then Some v else assoc k l'
  end.

Definition config_prefix : string := "git config -f bloom.conf ".

(** The commands outside the git model: [git config] prints the value of a
    key and fails for a key that is not set; [git-import-orig] is there or
    not; the import itself leaves the repository of the example as it is. *)
Definition other_process (cmd : string) (w : world fixture)
  : (Z * string) * world fixture :=
  if Py.startswith config_prefix cmd then
    match assoc (Py.drop (String.length config_prefix) cmd) (config (ext w)) with
    | Some v => ((0%Z, v +:+ Py.nl), w)
    | None => ((1%Z, ""), w)
    end
  else if String.eqb cmd "git-import-orig --help" then
    ((if import_orig_installed (ext w) then 0%Z else 127%Z, ""), w)
  else if Py.startswith "git import-orig " cmd then ((0%Z, ""), w)
  else ((127%Z, ""), w).

Definition sys : system fixture := {|
  ansi := fun _ => "";
  track_all_git_branches := fun _ w => (Return tt, w);
  assert_is_not_gbp_repo := fun _ w => (Return tt, w);
  create_temporary_directory := fun w => (Return "/tmp/bloom", w);
  os_makedirs := fun _ w => (Return tt, w);
  exists_outside := fun path w =>
    String.eqb path "/tmp/bloom/upstream/stack.xml"
    && bool_decide (is_Some (manifest (ext w)));
  vcs_checkout := fun _ _ _ _ w => (Return true, w);
  vcs_export_repository := fun _ _ _ _ w => (Return true, w);
  vcs_detect_presence := fun _ => true;
  parse_stack_xml := fun _ w =>
    match manifest (ext w) with
    | Some s => Return s
    | None => Raise (Exception "no manifest")
    end;
  get_last_git_tag := fun w => Return (last_tag (ext w));
  segment_version := split_version;
  get_versions_from_upstream_tag := versions_of_tag;
  process := other_process
|}.

Definition bloom_conf : string :=
  "[bloom]" +:+ Py.nl +:+ "    upstream = https://example/repo" +:+ Py.nl
  +:+ "    upstreamtype = git" +:+ Py.nl.

Definition bloom_tip : commit :=
  RootCommit {[ "bloom.conf" := bloom_conf ]} "bloom config".

Definition master_tip : commit :=
  RootCommit {[ "debian/control" := "Source: foo-pkg" ]} "packaging".

(** The configuration of the end-to-end scenario: no branch is set. *)
Definition example_config : list (string * string) :=
  [("bloom.upstream", "https://example/repo"); ("bloom.upstreamtype", "git")].

Definition foo_pkg : stack := {| name := "foo_pkg"; version := "1.2.3" |}.

Definition fixture_with (tag : string) : fixture := {|
  last_tag := tag;
  manifest := Some foo_pkg;
  config := example_config;
  import_orig_installed := true
|}.

(** The same configuration with a branch set. *)
Definition fixture_with_branch (branch : string) : fixture :=
  {| last_tag := "";
     manifest := Some foo_pkg;
     config := example_config ++ [("bloom.upstreambranch", branch)];
     import_orig_installed := true |}.

(** A release repository with the given local branches, [master] checked
    out. *)
Definition repo (bs : gmap string commit) (x : fixture) : world fixture := {|
  cwd := "/home/release/foo";
  branches := bs;
  HEAD := OnBranch "master";
  index := commit_tree master_tip;
  worktree := commit_tree master_tip;
  ext := x
|}.

Definition start (w : world fixture) : state fixture :=
  {| st_world := w; st_trace := [] |}.

(** An initialised release repository: [bloom], [master] and [upstream]. *)
Definition release_branches : gmap string commit :=
  {[ "bloom" := bloom_tip; "master" := master_tip;
     "upstream" := RootCommit ∅ "Initial upstream branch" ]}.

(** The same before the first import: no [upstream] branch yet. *)
Definition fresh_branches : gmap string commit :=
  {[ "bloom" := bloom_tip; "master" := master_tip ]}.

(** The same collaborators in a directory that is not a git repository. *)
Definition outside : system fixture := {|
  ansi := ansi sys;
  track_all_git_branches := track_all_git_branches sys;
  assert_is_not_gbp_repo := assert_is_not_gbp_repo sys;
  create_temporary_directory := create_temporary_directory sys;
  os_makedirs := os_makedirs sys;
  exists_outside := exists_outside sys;
  vcs_checkout := vcs_checkout sys;
  vcs_export_repository := vcs_export_repository sys;
  vcs_detect_presence := fun _ => false;
  parse_stack_xml := parse_stack_xml sys;
  get_last_git_tag := get_last_git_tag sys;
  segment_version := segment_version sys;
  get_versions_from_upstream_tag := get_versions_from_upstream_tag sys;
  process := process sys
|}.

(** A repository in which no branch is checked out. *)
Definition detached (w : world fixture) : world fixture := {|
  cwd := cwd w;
  branches := branches w;
  HEAD := Detached master_tip;
  index := index w;
  worktree := worktree w;
  ext := ext w
|}.

(** A branch with [catkin] in its name, but no branch named [catkin]. *)
Definition catkin_old_branches : gmap string commit :=
  {[ "master" := master_tip; "catkin-old" := bloom_tip ]}.

(** A [bloom] branch without a [bloom.conf]. *)
Definition unconfigured_branches : gmap string commit :=
  {[ "bloom" := RootCommit ∅ "empty"; "master" := master_tip ]}.

(** A legacy repository: the branch [catkin] with a [catkin.conf]. *)
Definition catkin_conf : string :=
  "[catkin]" +:+ Py.nl +:+ "    upstream = https://example/repo" +:+ Py.nl
  +:+ "    upstreamtype = git" +:+ Py.nl.

Definition catkin_tip : commit :=
  RootCommit {[ "catkin.conf" := catkin_conf ]} "catkin config".

Definition legacy_branches : gmap string commit :=
  {[ "catkin" := catkin_tip; "master" := master_tip ]}.

(** A repository that was never initialised: only [master]. *)
Definition plain_branches : gmap string commit :=
  {[ "master" := master_tip ]}.

(** No [bloom] and no [catkin] branch, but a branch [bloom-dev]. *)
Definition dev_branches : gmap string commit :=
  {[ "master" := master_tip; "bloom-dev" := bloom_tip ]}.

(** No [upstream] branch, but a branch [upstream-old]. *)
Definition old_branches : gmap string commit :=
  {[ "bloom" := bloom_tip; "master" := master_tip;
     "upstream-old" := RootCommit ∅ "Initial upstream branch" ]}.

End Scenario.

(** * Properties *)

(** ** Strings *)

Module PyFacts.
Import Py.

Lemma app_cons (c : ascii) (s t : string) : String c s +:+ t = String c (s +:+ t).
Proof. reflexivity. Qed.

Lemma app_empty_l (s : string) : "" +:+ s = s.
Proof. reflexivity. Qed.

Lemma app_empty_r (s : string) : s +:+ "" = s.
Proof. induction s as [|c s IH]; [done|]. by rewrite app_cons, IH. Qed.

Lemma app_assoc (s t u : string) : (s +:+ t) +:+ u = s +:+ (t +:+ u).
Proof. induction s as [|c s IH]; [done|]. by rewrite !app_cons, IH. Qed.

Lemma app_length (s t : string) :
  String.length (s +:+ t) = String.length s + String.length t.
Proof. induction s as [|c s IH]; [done|]. rewrite app_cons. simpl. by rewrite IH. Qed.

Lemma startswith_spec (p s : string) :
  startswith p s = true <-> exists post, s = p +:+ post.
Proof.
  revert s. induction p as [|a p IH]; intros s; simpl.
  - split; [intros _; by exists s | done].
  - destruct s as [|b s]; [split; [done | intros [post H]; discriminate]|].
    destruct (Ascii.eqb_spec a b) as [->|Hne].
    + rewrite IH. split; intros [post H]; exists post.
      * by rewrite app_cons, H.
      * rewrite app_cons in H. by injection H.
    + split; [done|]. intros [post H]. rewrite app_cons in H.
      injection H as H1 H2. by destruct Hne.
Qed.

Lemma occurs_here (sub s : string) : startswith sub s = true -> occurs sub s.
Proof.
  intros [post ->]%startswith_spec. exists "", post. by rewrite app_empty_l.
Qed.

Lemma occurs_cons (sub : string) (c : ascii) (s : string) :
  occurs sub (String c s) <-> startswith sub (String c s) = true \/ occurs sub s.
Proof.
  split.
  - intros [[|a pre] [post H]].
    + left. apply startswith_spec. exists post. by rewrite app_empty_l in H.
    + right. rewrite app_cons in H. injection H as _ H. by exists pre, post.
  - intros [H | [pre [post ->]]]; [by apply occurs_here|].
    exists (String c pre), post. by rewrite app_cons.
Qed.

Lemma occurs_empty (sub : string) : occurs sub "" <-> sub = "".
Proof.
  split.
  - intros [[|a pre] [post H]]; [|discriminate].
    rewrite app_empty_l in H. by destruct sub.
  - intros ->. by exists "", "".
Qed.

Lemma contains_spec (sub s : string) : contains sub s = true <-> occurs sub s.
Proof.
  induction s as [|c s IH].
  - simpl. rewrite orb_false_r, occurs_empty. destruct sub; simpl; split; done.
  - cbn [contains]. rewrite orb_true_iff, IH. symmetry. apply occurs_cons.
Qed.

Lemma count_from_absent (sub : string) (skip : nat) (s : string) :
  ~ occurs sub s -> count_from sub skip s = 0.
Proof.
  revert skip. induction s as [|c s IH]; intros skip Hno; [done|].
  rewrite occurs_cons in Hno. cbn [count_from].
  destruct skip as [|k]; [|apply IH; tauto].
  destruct (startswith sub (String c s)); [tauto | apply IH; tauto].
Qed.

Lemma count_from_present (sub s : string) :
  occurs sub s -> sub <> "" -> count_from sub 0 s <> 0.
Proof.
  intros Hocc Hne. induction s as [|c s IH].
  - apply occurs_empty in Hocc. done.
  - cbn [count_from]. apply occurs_cons in Hocc.
    destruct (startswith sub (String c s)); [done|].
    destruct Hocc as [?|?]; [done | by apply IH].
Qed.

(** [s.count(sub) == 0] says exactly that [sub] does not occur in [s]. *)
Lemma count_zero (sub s : string) : count sub s = 0 <-> ~ occurs sub s.
Proof.
  destruct (decide (sub = "")) as [->|Hne].
  - simpl. split; [done|]. intros H. destruct H. by exists "", s.
  - replace (count sub s) with (count_from sub 0 s) by (by destruct sub).
    split.
    + intros H0 Hocc. by apply (count_from_present _ _ Hocc).
    + apply count_from_absent.
Qed.

Lemma replace_char (a b : ascii) (s : string) :
  replace (String a "") (String b "") s
  = map (fun c => if Ascii.eqb c a then b else c) s.
Proof.
  unfold replace. induction s as [|c s IH]; [done|].
  cbn [replace_from map startswith String.length Nat.sub].
  rewrite (Ascii.eqb_sym c a).
  destruct (Ascii.eqb a c); [|by rewrite IH].
  replace (startswith "" s) with true by (by destruct s).
  rewrite app_cons, app_empty_l. by rewrite IH.
Qed.

Lemma occurs_app_l (sub s t : string) : occurs sub s -> occurs sub (s +:+ t).
Proof.
  intros [pre [post ->]]. exists pre, (post +:+ t). by rewrite !app_assoc.
Qed.

Lemma occurs_app_r (sub s t : string) : occurs sub t -> occurs sub (s +:+ t).
Proof.
  intros [pre [post ->]]. exists (s +:+ pre), post. by rewrite !app_assoc.
Qed.

Lemma occurs_refl (s : string) : occurs s s.
Proof. exists "", "". by rewrite app_empty_l, app_empty_r. Qed.

(** A pattern without the character [c] that starts a string does not
    reach beyond the first [c]. *)
Lemma startswith_sep (sub x : string) (c : ascii) (y : string) :
  has_char c sub = false ->
  startswith sub (x +:+ String c y) = true -> startswith sub x = true.
Proof.
  revert x. induction sub as [|b sub IH]; intros x Hc H; [done|].
  simpl in Hc. apply orb_false_iff in Hc as [Hb Hc].
  destruct x as [|a x].
  - rewrite app_empty_l in H. simpl in H. by rewrite Hb in H.
  - rewrite app_cons in H. simpl in H |- *.
    destruct (Ascii.eqb b a); [by apply IH | done].
Qed.

(** An occurrence of such a pattern lies on one side of [c]. *)
Lemma occurs_sep (sub x : string) (c : ascii) (y : string) :
  has_char c sub = false ->
  occurs sub (x +:+ String c y) -> occurs sub x \/ occurs sub y.
Proof.
  intros Hc. induction x as [|a x IH].
  - rewrite app_empty_l. intros [H|H]%occurs_cons; [|by right].
    left. apply occurs_here. by apply (startswith_sep sub "" c y).
  - rewrite app_cons. intros [H|H]%occurs_cons.
    + left. apply occurs_here.
      apply (startswith_sep sub (String a x) c y); [done|]. by rewrite app_cons.
    + destruct (IH H) as [?|?]; [left|by right].
      apply occurs_cons. by right.
Qed.

End PyFacts.

Example strip_newline : Py.strip ("  https://example/repo" +:+ String "010" "") = "https://example/repo".
Proof. reflexivity. Qed.

Example count_bloom : Py.count "bloom" "* master  bloom-dev  bloom" = 2.
Proof. reflexivity. Qed.

Example replace_all : Py.replace "_" "-" "a_b__c" = "a-b--c".
Proof. reflexivity. Qed.

Example replace_empty : Py.replace "" "-" "abc" = "-a-b-c-".
Proof. reflexivity. Qed.

Example join_path : Py.path_join "/tmp/x" "foo-1.0" = "/tmp/x/foo-1.0".
Proof. reflexivity. Qed.

Example strict_1_2_3 :
  StrictVersion.parse "1.2.3"
  = Some (StrictVersion.Make (1, 2, 3)%N None).
Proof. reflexivity. Qed.

Example strict_two_components :
  StrictVersion.parse "0.10"
  = Some (StrictVersion.Make (0, 10, 0)%N None).
Proof. reflexivity. Qed.

Example strict_prerelease :
  StrictVersion.parse "1.0.4b1"
  = Some (StrictVersion.Make (1, 0, 4)%N (Some ("b"%char, 1%N))).
Proof. reflexivity. Qed.

Example strict_invalid : StrictVersion.parse "1.2.x" = None.
Proof. reflexivity. Qed.

Example strict_invalid_one : StrictVersion.parse "1" = None.
Proof. reflexivity. Qed.

(** ** Versions *)

Module StrictVersionFacts.
Import StrictVersion.

Lemma lt_not_eq (a b : t) : lt a b = true -> eq a b = false.
Proof. unfold lt, eq. by destruct (cmp a b). Qed.

Lemma eq_not_lt (a b : t) : eq a b = true -> lt a b = false.
Proof. unfold lt, eq. by destruct (cmp a b). Qed.

Lemma cmp_refl (a : t) : cmp a a = Eq.
Proof.
  destruct a as [[[x y] z] p]. unfold cmp, cmp_version, cmp_prerelease. simpl.
  rewrite !N.compare_refl. simpl. destruct p as [[c n]|]; [|done].
  simpl. by rewrite !N.compare_refl.
Qed.

Lemma eq_refl (a : t) : eq a a = true.
Proof. unfold eq. by rewrite cmp_refl. Qed.

End StrictVersionFacts.

(** ** The listing of [git branch] *)

Section Listing.
Context {Ext : Type}.
Implicit Types w : world Ext.
Import Py PyFacts.

Lemma elem_of_branch_names w (b : string) :
  b ∈ branch_names w <-> is_Some (branches w !! b).
Proof.
  unfold branch_names. rewrite list_elem_of_fmap. split.
  - intros [[k c] [-> H]]. apply elem_of_map_to_list in H. by exists c.
  - intros [c H]. exists (b, c). split; [done|]. by apply elem_of_map_to_list.
Qed.

Lemma branch_line_occurs (h : head) (b : string) : occurs b (branch_line h b).
Proof. unfold branch_line. apply occurs_app_r, occurs_app_l, occurs_refl. Qed.

Lemma concat_lines_occurs (h : head) (names : list string) (b : string) :
  b ∈ names -> occurs b (concat (branch_line h <$> names)).
Proof.
  induction 1 as [b names | b b' names _ IH]; simpl.
  - apply occurs_app_l, branch_line_occurs.
  - by apply occurs_app_r.
Qed.

(** Every local branch is named in the listing. *)
Lemma branch_listing_names w (b : string) :
  is_Some (branches w !! b) -> occurs b (branch_listing w).
Proof.
  intros H. apply occurs_app_r, concat_lines_occurs. by apply elem_of_branch_names.
Qed.

(** A word that occurs in the lines of the listing occurs in the name of a
    branch. *)
Lemma branch_line_word (h : head) (b sub rest : string) :
  word sub -> occurs sub (branch_line h b +:+ rest) ->
  occurs sub b \/ occurs sub rest.
Proof.
  intros (Hne & Hsp & Hst & Hnl) H.
  assert (Hempty : ~ occurs sub "") by (by rewrite occurs_empty).
  unfold branch_line, nl in H. rewrite !app_assoc in H.
  change (ascii_of_nat 10) with "010"%char in H.
  destruct (on_branch h b).
  - change ("* " +:+ b +:+ String "010" "" +:+ rest)
      with ("" +:+ String "*" ("" +:+ String " " (b +:+ String "010" rest))) in H.
    apply (occurs_sep _ _ _ _ Hst) in H as [H|H]; [done|].
    apply (occurs_sep _ _ _ _ Hsp) in H as [H|H]; [done|].
    by apply (occurs_sep _ _ _ _ Hnl) in H.
  - change ("  " +:+ b +:+ String "010" "" +:+ rest)
      with ("" +:+ String " " ("" +:+ String " " (b +:+ String "010" rest))) in H.
    apply (occurs_sep _ _ _ _ Hsp) in H as [H|H]; [done|].
    apply (occurs_sep _ _ _ _ Hsp) in H as [H|H]; [done|].
    by apply (occurs_sep _ _ _ _ Hnl) in H.
Qed.

Lemma concat_lines_word (h : head) (names : list string) (sub : string) :
  word sub -> occurs sub (concat (branch_line h <$> names)) ->
  exists b, b ∈ names /\ occurs sub b.
Proof.
  intros Hw. induction names as [|b names IH]; simpl.
  - intros H%occurs_empty. destruct Hw as [Hne _]. by destruct Hne.
  - intros H. apply (branch_line_word _ _ _ _ Hw) in H as [H|H].
    + exists b. split; [left | done].
    + destruct (IH H) as (b' & ? & ?). exists b'. split; [by right | done].
Qed.

Lemma branch_listing_word w (sub : string) :
  word sub -> contains sub "* (no branch)" = false ->
  occurs sub (branch_listing w) ->
  exists b, is_Some (branches w !! b) /\ occurs sub b.
Proof.
  intros Hw Hnb H. unfold branch_listing in H.
  assert (occurs sub (concat (branch_line (HEAD w) <$> branch_names w))) as H'.
  { destruct (HEAD w); [done|].
    unfold nl in H. rewrite app_assoc in H.
    change (ascii_of_nat 10) with "010"%char in H.
    change ("* (no branch)" +:+ String "010" "" +:+ ?x)
      with ("* (no branch)" +:+ String "010" x) in H.
    destruct Hw as (_ & _ & _ & Hnl).
    apply (occurs_sep _ _ _ _ Hnl) in H as [H|H]; [|done].
    apply contains_spec in H. congruence. }
  destruct (concat_lines_word _ _ _ Hw H') as (b & Hb & Hocc).
  exists b. split; [by apply elem_of_branch_names | done].
Qed.

Lemma word_bloom : word "bloom".
Proof. by repeat split. Qed.

Lemma word_catkin : word "catkin".
Proof. by repeat split. Qed.

Lemma word_upstream : word "upstream".
Proof. by repeat split. Qed.

(** When no branch has the word in its name, the listing has not. *)
Lemma no_branch_contains_listing w (sub : string) :
  word sub -> contains sub "* (no branch)" = false ->
  no_branch_contains sub w -> ~ occurs sub (branch_listing w).
Proof.
  intros Hw Hnb Hno H.
  destruct (branch_listing_word w sub Hw Hnb H) as (b & Hb & Hocc).
  by apply (Hno b).
Qed.

(** The check of [no_branch_contains] by evaluation. *)
Lemma no_branch_contains_check w (sub : string) :
  forallb (fun b => negb (contains sub b)) (branch_names w) = true ->
  no_branch_contains sub w.
Proof.
  intros H b Hb Hocc. rewrite forallb_forall in H.
  apply elem_of_branch_names, list_elem_of_In, H in Hb.
  apply contains_spec in Hocc. by rewrite Hocc in Hb.
Qed.

End Listing.

(** ** The steps of the program *)

Section Steps.
Context {Ext : Type}.
Variable sys : system Ext.
Implicit Types st : state Ext.
Import Py PyFacts.

Lemma filter_dom_empty (m : gmap string string) :
  filter (fun kv => kv.1 ∈ dom (∅ : gmap string string)) m = ∅.
Proof.
  apply map_empty. intros k. apply map_lookup_filter_None. right.
  intros v _ Hk. simpl in Hk. rewrite dom_empty_L in Hk. set_solver.
Qed.

Lemma run_shell (cmd : string) st :
  run sys cmd st
  = (Return (shell sys cmd (st_world st)).1,
     {| st_world := (shell sys cmd (st_world st)).2;
        st_trace := st_trace st ++ [EvShell cmd] |}).
Proof.
  unfold run, bind, emit, act. cbn [st_world st_trace].
  by destruct (shell sys cmd (st_world st)).
Qed.

Lemma execute_command_run (cmd : string) (dir : option string) st :
  execute_command sys cmd dir st
  = (if ((shell sys cmd (st_world st)).1.1 =? 0)%Z then Return tt
     else Raise (CalledProcessError (shell sys cmd (st_world st)).1.1 cmd),
     {| st_world := (shell sys cmd (st_world st)).2;
        st_trace := st_trace st ++ [EvShell cmd] |}).
Proof.
  unfold execute_command, bind. rewrite run_shell. cbn [fst snd].
  by destruct (_ =? _)%Z.
Qed.

Lemma check_output_run (cmd : string) (dir : option string) st :
  check_output sys cmd dir st
  = (if ((shell sys cmd (st_world st)).1.1 =? 0)%Z
     then Return (shell sys cmd (st_world st)).1.2
     else Raise (CalledProcessError (shell sys cmd (st_world st)).1.1 cmd),
     {| st_world := (shell sys cmd (st_world st)).2;
        st_trace := st_trace st ++ [EvShell cmd] |}).
Proof.
  unfold check_output, bind. rewrite run_shell. cbn [fst snd].
  by destruct (_ =? _)%Z.
Qed.

Lemma shell_symbolic_ref (w : world Ext) :
  shell sys "git symbolic-ref HEAD refs/heads/upstream" w
  = ok (set_HEAD w (OnBranch "upstream")).
Proof. reflexivity. Qed.

Lemma shell_rm_index (w : world Ext) :
  shell sys "rm -f .git/index" w = ok (set_index w ∅).
Proof. reflexivity. Qed.

Lemma execute_command_ok (cmd : string) (dir : option string) st (w' : world Ext) :
  shell sys cmd (st_world st) = ok w' ->
  execute_command sys cmd dir st
  = (Return tt, {| st_world := w'; st_trace := st_trace st ++ [EvShell cmd] |}).
Proof. intros H. by rewrite execute_command_run, H. Qed.

Lemma shell_clean (w : world Ext) :
  index w = ∅ -> shell sys "git clean -dfx" w = ok (set_worktree w ∅).
Proof.
  intros H. change (shell sys "git clean -dfx" w) with (git_clean_dfx w).
  unfold git_clean_dfx. by rewrite H, filter_dom_empty.
Qed.

Lemma shell_commit_initial (w : world Ext) (b : string) :
  HEAD w = OnBranch b ->
  shell sys cmd_commit_initial w
  = ok (set_branches w
          (<[b := new_commit (branches w !! b) (index w) "Initial upstream branch"]>
             (branches w))).
Proof.
  intros H.
  change (shell sys cmd_commit_initial w)
    with (git_commit true "Initial upstream branch" w).
  unfold git_commit. by rewrite H.
Qed.

Lemma run_git_branch st :
  run sys "git branch" st
  = (Return (0%Z, branch_listing (st_world st)),
     {| st_world := st_world st;
        st_trace := st_trace st ++ [EvShell "git branch"] |}).
Proof. reflexivity. Qed.

Lemma check_output_git_branch (dir : option string) st :
  check_output sys "git branch" dir st
  = (Return (branch_listing (st_world st)),
     {| st_world := st_world st;
        st_trace := st_trace st ++ [EvShell "git branch"] |}).
Proof. reflexivity. Qed.

Lemma count_absent (sub s : string) : ~ occurs sub s -> (count sub s =? 0) = true.
Proof. intros H. apply Nat.eqb_eq. by apply count_zero. Qed.

Lemma count_present (sub s : string) : occurs sub s -> (count sub s =? 0) = false.
Proof. intros H. apply Nat.eqb_neq. rewrite count_zero. by intros []. Qed.

(** The validator goes on as soon as the listing contains [bloom]. *)
Lemma check_for_bloom_found (dir : option string) st :
  occurs "bloom" (branch_listing (st_world st)) ->
  check_for_bloom sys dir st
  = (Return tt,
     {| st_world := st_world st;
        st_trace := st_trace st ++ [EvShell "git branch"] |}).
Proof.
  intros H. unfold check_for_bloom, bind.
  rewrite check_output_git_branch. cbn [st_world].
  by rewrite count_present.
Qed.

(** It bails out when the listing contains neither [bloom] nor [catkin]. *)
Lemma check_for_bloom_neither (dir : option string) st :
  ~ occurs "bloom" (branch_listing (st_world st)) ->
  ~ occurs "catkin" (branch_listing (st_world st)) ->
  check_for_bloom sys dir st
  = (Raise (SystemExit 1),
     {| st_world := st_world st;
        st_trace := st_trace st
                    ++ [EvShell "git branch"; EvShell "git branch";
                        EvBailout not_a_bloom_message] |}).
Proof.
  intros Hb Hc. unfold check_for_bloom, bind.
  rewrite check_output_git_branch. cbn [st_world].
  rewrite count_absent by done.
  rewrite check_output_git_branch. cbn [st_world st_trace].
  rewrite count_absent by done.
  unfold not_a_bloom_release_repo, bailout, bind, emit, raise.
  cbn [st_world st_trace]. by rewrite <- !(assoc_L (++)).
Qed.

(** The four commands of the initializer, on any repository. *)
Lemma create_initial_upstream_branch_run (dir : option string) st :
  create_initial_upstream_branch sys dir st
  = (Return tt,
     {| st_world :=
          {| cwd := cwd (st_world st);
             branches :=
               <["upstream" :=
                   new_commit (branches (st_world st) !! "upstream") ∅
                     "Initial upstream branch"]> (branches (st_world st));
             HEAD := OnBranch "upstream";
             index := ∅;
             worktree := ∅;
             ext := ext (st_world st) |};
        st_trace := st_trace st ++ initializer_commands |}).
Proof.
  unfold create_initial_upstream_branch, bind.
  rewrite (execute_command_ok _ _ _ _ (shell_symbolic_ref _)).
  rewrite (execute_command_ok _ _ _ _ (shell_rm_index _)).
  erewrite execute_command_ok by (by apply shell_clean).
  erewrite execute_command_ok by (by apply shell_commit_initial).
  cbn [st_world st_trace]. by rewrite <- !(assoc_L (++)).
Qed.

(** The guard of the initializer: nothing runs when the listing contains
    [upstream]. *)
Lemma look_for_upstream_branch_found st :
  occurs "upstream" (branch_listing (st_world st)) ->
  look_for_upstream_branch sys st
  = (Return tt,
     {| st_world := st_world st;
        st_trace := st_trace st ++ [EvShell "git branch"] |}).
Proof.
  intros H. unfold look_for_upstream_branch, bind.
  rewrite check_output_git_branch. cbn [st_world].
  by rewrite count_present.
Qed.

Lemma look_for_upstream_branch_missing st :
  ~ occurs "upstream" (branch_listing (st_world st)) ->
  look_for_upstream_branch sys st
  = create_initial_upstream_branch sys None
      {| st_world := st_world st;
         st_trace :=
           st_trace st
           ++ [EvShell "git branch";
               EvPrint (ansi sys "boldon" +:+ "No upstream branch"
                        +:+ ansi sys "reset"
                        +:+ "... creating an initial upstream branch.")] |}.
Proof.
  intros H. unfold look_for_upstream_branch, bind at 1.
  rewrite check_output_git_branch. cbn [st_world].
  rewrite count_absent by done.
  unfold bind at 1, print, emit. cbn [st_world st_trace].
  by rewrite <- !(assoc_L (++)).
Qed.

End Steps.

(** ** The claims *)

Import Py PyFacts.

(** C4: the archive is named after the package, every underscore of whose
    name becomes a hyphen, followed by a hyphen and the version, and the
    suffix [.tar.gz] in the import command; [foo_pkg] at version [1.2.3]
    gives [foo-pkg-1.2.3.tar.gz]. *)
Theorem C4_tarball_name (pkg_name full_version tmp_dir : string) :
  get_tarball_name pkg_name full_version
  = Py.map (fun c => if Ascii.eqb c "_" then "-"%char else c) pkg_name
    +:+ "-" +:+ full_version
  /\ import_orig_cmd (path_join tmp_dir (get_tarball_name pkg_name full_version))
     = "git import-orig "
       +:+ path_join tmp_dir
             (Py.map (fun c => if Ascii.eqb c "_" then "-"%char else c) pkg_name
              +:+ "-" +:+ full_version)
       +:+ ".tar.gz"
  /\ get_tarball_name "foo_pkg" "1.2.3" +:+ ".tar.gz" = "foo-pkg-1.2.3.tar.gz".
Proof.
  assert (get_tarball_name pkg_name full_version
          = Py.map (fun c => if Ascii.eqb c "_" then "-"%char else c) pkg_name
            +:+ "-" +:+ full_version) as E.
  { unfold get_tarball_name. by rewrite (replace_char "_" "-"). }
  split; [exact E|]. split; [|reflexivity].
  unfold import_orig_cmd. by rewrite E.
Qed.

(** C6, amended: in every repository state in which no local branch has
    [bloom] or [catkin] in its name, the validator fails fatally with the
    initialization hint, and the repository is as it was: the only commands
    run are the two listings of the branches. *)
Theorem C6_validator_rejects {Ext : Type} (sys : system Ext)
    (cwd : option string) (st : state Ext) :
  no_branch_contains "bloom" (st_world st) ->
  no_branch_contains "catkin" (st_world st) ->
  check_for_bloom sys cwd st
  = (Raise (SystemExit 1),
     {| st_world := st_world st;
        st_trace := st_trace st
                    ++ [EvShell "git branch"; EvShell "git branch";
                        EvBailout not_a_bloom_message] |}).
Proof.
  intros Hb Hc. apply check_for_bloom_neither.
  - by apply no_branch_contains_listing; [apply word_bloom | |].
  - by apply no_branch_contains_listing; [apply word_catkin | |].
Qed.

Lemma C6_validator_rejects_witness :
  check_for_bloom Scenario.sys None
    (Scenario.start (Scenario.repo Scenario.plain_branches (Scenario.fixture_with "")))
  = (Raise (SystemExit 1),
     {| st_world := Scenario.repo Scenario.plain_branches (Scenario.fixture_with "");
        st_trace := [EvShell "git branch"; EvShell "git branch";
                     EvBailout not_a_bloom_message] |}).
Proof.
  apply (C6_validator_rejects Scenario.sys None
           (Scenario.start
              (Scenario.repo Scenario.plain_branches (Scenario.fixture_with "")))).
  - apply no_branch_contains_check. vm_compute. reflexivity.
  - apply no_branch_contains_check. vm_compute. reflexivity.
Defined.

(** C6 as stated fails: with the branches [master] and [bloom-dev] there is
    neither a [bloom] nor a [catkin] branch, and the validator does not
    fail. *)
Lemma C6_bloom_dev_counterexample :
  ~ (branches (Scenario.repo Scenario.dev_branches (Scenario.fixture_with ""))
       !! "bloom" = None ->
     branches (Scenario.repo Scenario.dev_branches (Scenario.fixture_with ""))
       !! "catkin" = None ->
     (check_for_bloom Scenario.sys None
        (Scenario.start
           (Scenario.repo Scenario.dev_branches (Scenario.fixture_with "")))).1
     = Raise (SystemExit 1)).
Proof.
  intros H. specialize (H eq_refl eq_refl). vm_compute in H. discriminate.
Qed.

Lemma create_initial_upstream_branch_fresh {Ext : Type} (sys : system Ext)
    (dir : option string) (st : state Ext) :
  branches (st_world st) !! "upstream" = None ->
  exists w',
    create_initial_upstream_branch sys dir st
    = (Return tt,
       {| st_world := w'; st_trace := st_trace st ++ initializer_commands |})
    /\ initialised (st_world st) w'.
Proof.
  intros Hnone. rewrite create_initial_upstream_branch_run, Hnone.
  eexists. split; [reflexivity|].
  unfold initialised. cbn [branches HEAD index worktree new_commit].
  split; [done|]. split; [by rewrite dom_insert_L|].
  split; [by apply map_size_insert_None | done].
Qed.

(** C7, amended: in every repository state in which no local branch has
    [upstream] in its name, the step of the import that looks for the
    upstream branch runs the initializer, which creates exactly one new
    branch named [upstream] holding a single empty initial commit, with no
    files present; run on its own, the initializer does so in every state
    without a branch named [upstream]; and in every state in which the
    [upstream] branch exists the initializer does not run at all. *)
Theorem C7_initial_upstream_branch {Ext : Type} (sys : system Ext) (st : state Ext) :
  (no_branch_contains "upstream" (st_world st) ->
   exists w',
     look_for_upstream_branch sys st
     = (Return tt,
        {| st_world := w';
           st_trace :=
             st_trace st
             ++ [EvShell "git branch";
                 EvPrint (ansi sys "boldon" +:+ "No upstream branch"
                          +:+ ansi sys "reset"
                          +:+ "... creating an initial upstream branch.")]
             ++ initializer_commands |})
     /\ initialised (st_world st) w')
  /\ (branches (st_world st) !! "upstream" = None ->
      exists w',
        create_initial_upstream_branch sys None st
        = (Return tt,
           {| st_world := w'; st_trace := st_trace st ++ initializer_commands |})
        /\ initialised (st_world st) w')
  /\ (is_Some (branches (st_world st) !! "upstream") ->
      look_for_upstream_branch sys st
      = (Return tt,
         {| st_world := st_world st;
            st_trace := st_trace st ++ [EvShell "git branch"] |})).
Proof.
  split; [|split].
  - intros Hno.
    assert (branches (st_world st) !! "upstream" = None) as Hnone.
    { destruct (branches (st_world st) !! "upstream") eqn:E; [|done].
      destruct (Hno "upstream"); [by rewrite E | apply occurs_refl]. }
    rewrite look_for_upstream_branch_missing
      by (by apply no_branch_contains_listing; [apply word_upstream | |]).
    destruct (create_initial_upstream_branch_fresh sys None
                {| st_world := st_world st;
                   st_trace :=
                     st_trace st
                     ++ [EvShell "git branch";
                         EvPrint (ansi sys "boldon" +:+ "No upstream branch"
                                  +:+ ansi sys "reset"
                                  +:+ "... creating an initial upstream branch.")] |}
                Hnone) as (w' & Hrun & Hinit).
    exists w'. split; [|done]. rewrite Hrun. cbn [st_trace].
    by rewrite <- (assoc_L (++)).
  - apply create_initial_upstream_branch_fresh.
  - intros H. by apply look_for_upstream_branch_found, branch_listing_names.
Qed.

Lemma C7_initial_upstream_branch_witness :
  (exists w',
     look_for_upstream_branch Scenario.sys
       (Scenario.start (Scenario.repo Scenario.fresh_branches (Scenario.fixture_with "")))
     = (Return tt,
        {| st_world := w';
           st_trace :=
             [EvShell "git branch";
              EvPrint "No upstream branch... creating an initial upstream branch."]
             ++ initializer_commands |})
     /\ initialised (Scenario.repo Scenario.fresh_branches (Scenario.fixture_with "")) w')
  /\ look_for_upstream_branch Scenario.sys
       (Scenario.start (Scenario.repo Scenario.release_branches (Scenario.fixture_with "")))
     = (Return tt,
        {| st_world := Scenario.repo Scenario.release_branches (Scenario.fixture_with "");
           st_trace := [EvShell "git branch"] |}).
Proof.
  split.
  - apply (C7_initial_upstream_branch Scenario.sys
             (Scenario.start
                (Scenario.repo Scenario.fresh_branches (Scenario.fixture_with "")))).
    apply no_branch_contains_check. vm_compute. reflexivity.
  - apply (C7_initial_upstream_branch Scenario.sys
             (Scenario.start
                (Scenario.repo Scenario.release_branches (Scenario.fixture_with "")))).
    vm_compute. eauto.
Defined.

(** C7 as stated fails: with the branches [bloom], [master] and
    [upstream-old] there is no branch named [upstream], and the step leaves
    the repository without one. *)
Lemma C7_upstream_old_counterexample :
  ~ (branches (Scenario.repo Scenario.old_branches (Scenario.fixture_with ""))
       !! "upstream" = None ->
     is_Some
       (branches
          (st_world
             (look_for_upstream_branch Scenario.sys
                (Scenario.start
                   (Scenario.repo Scenario.old_branches (Scenario.fixture_with "")))).2)
        !! "upstream")).
Proof.
  intros H. specialize (H eq_refl). vm_compute in H. by destruct H.
Qed.

(** C9: the tests are made on the text of the listing.  There is a
    repository state without a branch named [bloom] or [catkin], with a
    branch [bloom-dev], in which the validator returns without error and
    runs nothing but one [git branch] (no migration); and there is a state
    without a branch named [upstream], with a branch [upstream-old], in
    which the step that looks for the upstream branch creates none. *)
Theorem C9_substring_checks :
  (exists w : world Scenario.fixture,
     branches w !! "bloom" = None
     /\ branches w !! "catkin" = None
     /\ is_Some (branches w !! "bloom-dev")
     /\ check_for_bloom Scenario.sys None (Scenario.start w)
        = (Return tt, {| st_world := w; st_trace := [EvShell "git branch"] |}))
  /\ (exists w : world Scenario.fixture,
        branches w !! "upstream" = None
        /\ is_Some (branches w !! "upstream-old")
        /\ look_for_upstream_branch Scenario.sys (Scenario.start w)
           = (Return tt, {| st_world := w; st_trace := [EvShell "git branch"] |})).
Proof.
  split.
  - exists (Scenario.repo Scenario.dev_branches (Scenario.fixture_with "")).
    split; [reflexivity|]. split; [reflexivity|]. split; [by eexists|].
    apply check_for_bloom_found. apply contains_spec. vm_compute. reflexivity.
  - exists (Scenario.repo Scenario.old_branches (Scenario.fixture_with "")).
    split; [reflexivity|]. split; [by eexists|].
    apply look_for_upstream_branch_found. apply contains_spec.
    vm_compute. reflexivity.
Qed.

(** ** The cleanup of [main] *)

Section Cleanup.
Context {Ext : Type}.
Variable sys : system Ext.
Implicit Types st : state Ext.

Lemma switch_to_branches (b : string) (w w' : world Ext) :
  switch_to b w = Some w' -> branches w' = branches w /\ HEAD w' = OnBranch b.
Proof.
  unfold switch_to. destruct (branches w !! b); [|done]. by intros [= <-].
Qed.

Lemma switch_to_None (b : string) (w : world Ext) :
  switch_to b w = None -> branches w !! b = None.
Proof. unfold switch_to. by destruct (branches w !! b). Qed.

(** The update of the release repository keeps the local branches, and
    leaves [HEAD] on the branch asked for when that branch exists. *)
Lemma bloom_repo_update_world (b : string) st :
  branches (st_world (bloom_repo_update b st).2) = branches (st_world st)
  /\ (is_Some (branches (st_world st) !! b) ->
      HEAD (st_world (bloom_repo_update b st).2) = OnBranch b).
Proof.
  unfold bloom_repo_update, call, bind, emit, act. cbn [st_world st_trace].
  destruct (switch_to b (st_world st)) as [w'|] eqn:E; cbn [snd st_world].
  - apply switch_to_branches in E as [-> ->]. done.
  - split; [done|]. apply switch_to_None in E. rewrite E. by intros [].
Qed.

(** The [finally] block of [main], from any state the body ends in. *)
Lemma restore_spec (b : string) st :
  b <> "" ->
  exists st',
    (local_branches <- check_output sys "git branch" None ;;
     if truthy_opt (Some b) && Py.contains (default "" (Some b)) local_branches
     then bloom_repo_update (default "" (Some b)) ;; ret tt
     else ret tt)%py st = (Return tt, st')
    /\ branches (st_world st') = branches (st_world st)
    /\ (is_Some (branches (st_world st) !! b) -> HEAD (st_world st') = OnBranch b).
Proof.
  intros Hb. unfold bind.
  rewrite check_output_git_branch.
  change (default "" (Some b)) with b. cbn [truthy_opt].
  replace (truthy b) with true by (by destruct b).
  destruct (contains b (branch_listing (st_world st))) eqn:E; cbn [andb].
  - pose proof (bloom_repo_update_world b
                  {| st_world := st_world st;
                     st_trace := st_trace st ++ [EvShell "git branch"] |}) as [H1 H2].
    destruct (bloom_repo_update b _) as [[r|e] st1] eqn:Eu.
    + eexists. split; [reflexivity|]. done.
    + exfalso. revert Eu. unfold bloom_repo_update, call, bind, emit, act.
      cbn [st_world st_trace]. by destruct (switch_to b (st_world st)).
  - eexists. split; [reflexivity|]. cbn [st_world]. split; [done|].
    intros H%(branch_listing_names (st_world st)). apply contains_spec in H. congruence.
Qed.

Lemma current_branch_of_Some (w : world Ext) (b : string) :
  current_branch_of w = Some b -> HEAD w = OnBranch b /\ is_Some (branches w !! b).
Proof.
  unfold current_branch_of. destruct (HEAD w) as [b'|]; [|done].
  case_bool_decide; [|done]. by intros [= ->].
Qed.

End Cleanup.

(** C8: on every way out of a run, the normal end as well as a fatal error
    or any other exception of the import, the branch that was checked out
    when the run began is checked out again, provided it is still among the
    local branches at that time. *)
Theorem C8_original_branch_restored {Ext : Type} (sys : system Ext)
    (st : state Ext) (b : string) :
  current_branch_of (st_world st) = Some b ->
  b <> "" ->
  is_Some (branches (st_world (main sys st).2) !! b) ->
  HEAD (st_world (main sys st).2) = OnBranch b.
Proof.
  intros Hcur Hb. apply current_branch_of_Some in Hcur as Hhead.
  assert (forall out, out = main sys st ->
            exists st1 : state Ext,
              branches (st_world out.2) = branches (st_world st1)
              /\ (is_Some (branches (st_world st1) !! b) ->
                  HEAD (st_world out.2) = OnBranch b)) as Hmain.
  { intros out Hout. unfold main in Hout. unfold bind at 1 in Hout.
    unfold ask at 1 in Hout. cbn beta iota in Hout.
    destruct (vcs_detect_presence sys (st_world st)); cbn [negb] in Hout.
    - unfold bind at 1 in Hout.
      unfold get_current_git_branch at 1, ask at 1 in Hout.
      cbn beta iota in Hout. rewrite Hcur in Hout.
      unfold bind at 1, try_finally in Hout.
      destruct ((import_upstream sys;; print "I'm happy.  You should be too.")%py st)
        as [r st1].
      destruct (restore_spec sys b st1 Hb) as (st2 & Hrun & Hbr & Hrest).
      rewrite Hrun in Hout.
      exists st1. destruct r; by subst out.
    - exists st. subst out. split; [done|]. intros _. by destruct Hhead. }
  destruct (Hmain _ eq_refl) as (st1 & Hbr & Hrest).
  rewrite Hbr. exact Hrest.
Qed.

Lemma C8_original_branch_restored_witness :
  (main Scenario.sys
     (Scenario.start
        (Scenario.repo Scenario.release_branches
           (Scenario.fixture_with "upstream/1.2.3")))).1
  = Raise (AttributeError "verison")
  /\ HEAD (st_world
             (main Scenario.sys
                (Scenario.start
                   (Scenario.repo Scenario.release_branches
                      (Scenario.fixture_with "upstream/1.2.3")))).2)
     = OnBranch "master".
Proof.
  split; [vm_compute; reflexivity|].
  apply (C8_original_branch_restored Scenario.sys
           (Scenario.start
              (Scenario.repo Scenario.release_branches
                 (Scenario.fixture_with "upstream/1.2.3"))) "master").
  - vm_compute. reflexivity.
  - discriminate.
  - vm_compute. eauto.
Defined.

(** A run that ends normally leaves the original branch checked out too. *)
Example main_restores_after_success :
  (main Scenario.sys
     (Scenario.start
        (Scenario.repo Scenario.release_branches
           (Scenario.fixture_with "upstream/1.0.0")))).1 = Return None
  /\ HEAD (st_world
             (main Scenario.sys
                (Scenario.start
                   (Scenario.repo Scenario.release_branches
                      (Scenario.fixture_with "upstream/1.0.0")))).2)
     = OnBranch "master".
Proof. split; vm_compute; reflexivity. Qed.

(** ** The reconciliation of the versions *)

Section Reconcile.
Context {Ext : Type}.
Variable sys : system Ext.
Implicit Types st : state Ext.

(** Without a last tag nothing is compared. *)
Lemma gbp_version_elements_bootstrap (stack : stack) st :
  get_last_git_tag sys (st_world st) = Return "" ->
  gbp_version_elements sys stack st
  = (match segment_version sys (version stack) with
     | Return l => unpack3 l
     | Raise e => Raise e
     end,
     {| st_world := st_world st;
        st_trace := st_trace st ++ [EvCall "get_last_git_tag" []] |}).
Proof.
  intros Htag. unfold gbp_version_elements, call, bind, emit, act, lift.
  cbn [st_world st_trace]. rewrite Htag. cbn [String.eqb].
  by destruct (segment_version sys (version stack)).
Qed.

(** With a last tag, up to the two comparisons. *)
Lemma gbp_version_elements_tagged (stack : stack) st
    (last_tag gbp_major gbp_minor gbp_patch : string) (new base : StrictVersion.t) :
  get_last_git_tag sys (st_world st) = Return last_tag ->
  last_tag <> "" ->
  get_versions_from_upstream_tag sys last_tag
  = Return [gbp_major; gbp_minor; gbp_patch] ->
  StrictVersion.parse (version stack) = Some new ->
  StrictVersion.parse (join "." [gbp_major; gbp_minor; gbp_patch]) = Some base ->
  gbp_version_elements sys stack st
  = ((if StrictVersion.lt new base then
        warning (regression_message (version stack)
                   (join "." [gbp_major; gbp_minor; gbp_patch]))
      else ret tt) ;;
     (if StrictVersion.eq new base then
        verison <- lift (getattr stack "verison") ;;
        warning (staleness_message verison)
      else ret tt) ;;
     ret (gbp_major, gbp_minor, gbp_patch))%py
      {| st_world := st_world st;
         st_trace := st_trace st
                     ++ [EvCall "get_last_git_tag" []; EvPrint (tag_line sys last_tag)] |}.
Proof.
  intros Htag Hne Hvers Hnew Hbase.
  unfold gbp_version_elements.
  unfold bind at 1, call, bind at 1, emit, act. cbn [st_world st_trace].
  rewrite Htag. apply String.eqb_neq in Hne. rewrite Hne.
  unfold bind at 1, lift at 1. rewrite Hvers.
  unfold bind at 1, lift at 1. cbn [unpack3].
  unfold bind at 1, print, emit. cbn [st_world st_trace].
  unfold bind at 1, StrictVersion_new at 1. rewrite Hnew. unfold ret at 1.
  unfold bind at 1, StrictVersion_new at 1. rewrite Hbase. unfold ret at 1.
  by rewrite <- (assoc_L (++)).
Qed.

End Reconcile.

(** C2: when a prior release tag exists and the fetched version is strictly
    less than the version of the tag, the reconciliation emits the
    regression warning and nothing else (no staleness warning), and it
    returns normally, so the import goes on. *)
Theorem C2_regression_warning {Ext : Type} (sys : system Ext) (stack : stack)
    (st : state Ext) (last_tag gbp_major gbp_minor gbp_patch : string)
    (new base : StrictVersion.t) :
  get_last_git_tag sys (st_world st) = Return last_tag ->
  last_tag <> "" ->
  get_versions_from_upstream_tag sys last_tag
  = Return [gbp_major; gbp_minor; gbp_patch] ->
  StrictVersion.parse (version stack) = Some new ->
  StrictVersion.parse (join "." [gbp_major; gbp_minor; gbp_patch]) = Some base ->
  StrictVersion.lt new base = true ->
  gbp_version_elements sys stack st
  = (Return (gbp_major, gbp_minor, gbp_patch),
     {| st_world := st_world st;
        st_trace :=
          st_trace st
          ++ [EvCall "get_last_git_tag" [];
              EvPrint (tag_line sys last_tag);
              EvWarning (regression_message (version stack)
                           (join "." [gbp_major; gbp_minor; gbp_patch]))] |}).
Proof.
  intros Htag Hne Hvers Hnew Hbase Hlt.
  rewrite (gbp_version_elements_tagged sys stack st last_tag
             gbp_major gbp_minor gbp_patch new base) by done.
  rewrite Hlt, (StrictVersionFacts.lt_not_eq _ _ Hlt).
  unfold bind, warning, emit, ret. cbn [st_world st_trace].
  by rewrite <- (assoc_L (++)).
Qed.

Lemma C2_regression_warning_witness :
  gbp_version_elements Scenario.sys Scenario.foo_pkg
    (Scenario.start
       (Scenario.repo Scenario.release_branches (Scenario.fixture_with "upstream/2.0.0")))
  = (Return ("2", "0", "0"),
     {| st_world :=
          Scenario.repo Scenario.release_branches (Scenario.fixture_with "upstream/2.0.0");
        st_trace :=
          [EvCall "get_last_git_tag" [];
           EvPrint "The latest upstream tag in the release repo is upstream/2.0.0";
           EvWarning (regression_message "1.2.3" "2.0.0")] |}).
Proof.
  apply (C2_regression_warning Scenario.sys Scenario.foo_pkg
           (Scenario.start
              (Scenario.repo Scenario.release_branches
                 (Scenario.fixture_with "upstream/2.0.0")))
           "upstream/2.0.0" "2" "0" "0"
           (StrictVersion.Make (1, 2, 3)%N None)
           (StrictVersion.Make (2, 0, 0)%N None)).
  - reflexivity.
  - discriminate.
  - reflexivity.
  - reflexivity.
  - reflexivity.
  - reflexivity.
Defined.

(** The whole run of that case: the warning is printed, and the import
    command is run afterwards. *)
Example regression_run_imports :
  let out :=
    import_upstream Scenario.sys
      (Scenario.start
         (Scenario.repo Scenario.release_branches
            (Scenario.fixture_with "upstream/2.0.0"))) in
  out.1 = Return tt
  /\ warnings (st_trace out.2)
     = [EvWarning (regression_message "1.2.3" "2.0.0")]
  /\ last (st_trace out.2)
     = Some (EvShell "git import-orig /tmp/bloom/foo-pkg-1.2.3.tar.gz").
Proof. vm_compute. done. Qed.

(** When the two versions are equal the staleness warning is never given:
    the attribute [verison] that its text is formatted from does not exist. *)
Lemma gbp_version_elements_equal {Ext : Type} (sys : system Ext) (stack : stack)
    (st : state Ext) (last_tag gbp_major gbp_minor gbp_patch : string)
    (new base : StrictVersion.t) :
  get_last_git_tag sys (st_world st) = Return last_tag ->
  last_tag <> "" ->
  get_versions_from_upstream_tag sys last_tag
  = Return [gbp_major; gbp_minor; gbp_patch] ->
  StrictVersion.parse (version stack) = Some new ->
  StrictVersion.parse (join "." [gbp_major; gbp_minor; gbp_patch]) = Some base ->
  StrictVersion.eq new base = true ->
  gbp_version_elements sys stack st
  = (Raise (AttributeError "verison"),
     {| st_world := st_world st;
        st_trace :=
          st_trace st
          ++ [EvCall "get_last_git_tag" []; EvPrint (tag_line sys last_tag)] |}).
Proof.
  intros Htag Hne Hvers Hnew Hbase Heq.
  rewrite (gbp_version_elements_tagged sys stack st last_tag
             gbp_major gbp_minor gbp_patch new base) by done.
  by rewrite Heq, (StrictVersionFacts.eq_not_lt _ _ Heq).
Qed.

(** C1 fails on the code.  With the last tag [upstream/1.2.3] and the
    manifest version [1.2.3] the reconciliation raises [AttributeError]
    before any warning is given, and the run ends there: no warning in the
    trace, and the import command is never run. *)
Theorem C1_equal_version_raises :
  gbp_version_elements Scenario.sys Scenario.foo_pkg
    (Scenario.start
       (Scenario.repo Scenario.release_branches (Scenario.fixture_with "upstream/1.2.3")))
  = (Raise (AttributeError "verison"),
     {| st_world :=
          Scenario.repo Scenario.release_branches (Scenario.fixture_with "upstream/1.2.3");
        st_trace :=
          [EvCall "get_last_git_tag" [];
           EvPrint "The latest upstream tag in the release repo is upstream/1.2.3"] |})
  /\ (import_upstream Scenario.sys
        (Scenario.start
           (Scenario.repo Scenario.release_branches
              (Scenario.fixture_with "upstream/1.2.3")))).1
     = Raise (AttributeError "verison")
  /\ warnings
       (st_trace
          (import_upstream Scenario.sys
             (Scenario.start
                (Scenario.repo Scenario.release_branches
                   (Scenario.fixture_with "upstream/1.2.3")))).2) = []
  /\ ~ In (EvShell "git import-orig /tmp/bloom/foo-pkg-1.2.3.tar.gz")
         (st_trace
            (import_upstream Scenario.sys
               (Scenario.start
                  (Scenario.repo Scenario.release_branches
                     (Scenario.fixture_with "upstream/1.2.3")))).2).
Proof.
  split.
  - apply (gbp_version_elements_equal Scenario.sys Scenario.foo_pkg
             (Scenario.start
                (Scenario.repo Scenario.release_branches
                   (Scenario.fixture_with "upstream/1.2.3")))
             "upstream/1.2.3" "1" "2" "3"
             (StrictVersion.Make (1, 2, 3)%N None)
             (StrictVersion.Make (1, 2, 3)%N None)); done.
  - split; [vm_compute; reflexivity|]. split; [vm_compute; reflexivity|].
    vm_compute. intros H. repeat (destruct H as [H|H]; [discriminate H|]). exact H.
Qed.

(** C3, amended: when there is no prior release tag, the baseline triple
    is the segmentation of the manifest's own version string, and no
    comparison is made: the reconciliation gives no warning and leaves the
    repository as it is. *)
Theorem C3_bootstrap_baseline {Ext : Type} (sys : system Ext) (stack : stack)
    (st : state Ext) :
  get_last_git_tag sys (st_world st) = Return "" ->
  gbp_version_elements sys stack st
  = (match segment_version sys (version stack) with
     | Return l => unpack3 l
     | Raise e => Raise e
     end,
     {| st_world := st_world st;
        st_trace := st_trace st ++ [EvCall "get_last_git_tag" []] |})
  /\ warnings (st_trace (gbp_version_elements sys stack st).2)
     = warnings (st_trace st).
Proof.
  intros Htag. rewrite (gbp_version_elements_bootstrap sys stack st Htag).
  split; [done|]. cbn [snd st_trace]. unfold warnings.
  rewrite List.filter_app. cbn [List.filter is_warning]. by rewrite app_nil_r.
Qed.

Lemma C3_bootstrap_baseline_witness :
  gbp_version_elements Scenario.sys Scenario.foo_pkg
    (Scenario.start (Scenario.repo Scenario.fresh_branches (Scenario.fixture_with "")))
  = (Return ("1", "2", "3"),
     {| st_world := Scenario.repo Scenario.fresh_branches (Scenario.fixture_with "");
        st_trace := [EvCall "get_last_git_tag" []] |})
  /\ warnings
       (st_trace
          (gbp_version_elements Scenario.sys Scenario.foo_pkg
             (Scenario.start
                (Scenario.repo Scenario.fresh_branches (Scenario.fixture_with "")))).2)
     = [].
Proof.
  apply (C3_bootstrap_baseline Scenario.sys Scenario.foo_pkg
           (Scenario.start
              (Scenario.repo Scenario.fresh_branches (Scenario.fixture_with "")))).
  reflexivity.
Defined.

(** C3 as stated fails: in the scenario of the specification (no prior
    tag, manifest version [1.2.3]) no staleness warning is given, neither by
    the reconciliation nor anywhere in the run. *)
Lemma C3_no_staleness_counterexample :
  ~ (get_last_git_tag Scenario.sys
       (Scenario.repo Scenario.fresh_branches (Scenario.fixture_with "")) = Return "" ->
     In (EvWarning (staleness_message "1.2.3"))
       (st_trace
          (gbp_version_elements Scenario.sys Scenario.foo_pkg
             (Scenario.start
                (Scenario.repo Scenario.fresh_branches (Scenario.fixture_with "")))).2)
     \/ In (EvWarning (staleness_message "1.2.3"))
          (st_trace
             (import_upstream Scenario.sys
                (Scenario.start
                   (Scenario.repo Scenario.fresh_branches
                      (Scenario.fixture_with "")))).2)).
Proof.
  intros H. specialize (H eq_refl). vm_compute in H.
  destruct H as [H|H]; repeat (destruct H as [H|H]; [discriminate H|]); exact H.
Qed.

(** ** The configuration reader *)

(** The answer of the reader in terms of the three reads. *)
Lemma parse_bloom_conf_run {Ext : Type} (sys : system Ext) (cwd : option string)
    (st : state Ext) (c1 c2 c3 : Z) (o1 o2 o3 : string) (w1 w2 w3 : world Ext) :
  shell sys "git config -f bloom.conf bloom.upstream" (st_world st) = ((c1, o1), w1) ->
  shell sys "git config -f bloom.conf bloom.upstreamtype" w1 = ((c2, o2), w2) ->
  shell sys "git config -f bloom.conf bloom.upstreambranch" w2 = ((c3, o3), w3) ->
  (parse_bloom_conf sys cwd st).1
  = if (c1 =? 0)%Z then
      if (c2 =? 0)%Z then
        Return (strip o1, strip o2, if (c3 =? 0)%Z then strip o3 else "")
      else Raise (CalledProcessError c2 "git config -f bloom.conf bloom.upstreamtype")
    else Raise (CalledProcessError c1 "git config -f bloom.conf bloom.upstream").
Proof.
  intros H1 H2 H3.
  unfold parse_bloom_conf. unfold bind at 1. rewrite check_output_run, H1.
  cbn [fst snd].
  destruct (c1 =? 0)%Z; [|done].
  unfold bind at 1. rewrite check_output_run. cbn [st_world]. rewrite H2.
  cbn [fst snd].
  destruct (c2 =? 0)%Z; [|done].
  unfold bind at 1, try_except. unfold bind at 1.
  rewrite check_output_run. cbn [st_world]. rewrite H3. cbn [fst snd].
  by destruct (c3 =? 0)%Z.
Qed.

(** C5: the three values are read in order.  A failing read of
    [bloom.upstream] or of [bloom.upstreamtype] leaves [parse_bloom_conf]
    as the exception of that read; a failing read of [bloom.upstreambranch]
    is no error and gives the empty string for the branch; when all three
    reads succeed the answer is the triple of the three values (stripped of
    the surrounding white space). *)
Theorem C5_parse_bloom_conf {Ext : Type} (sys : system Ext) (cwd : option string)
    (st : state Ext) (c1 c2 c3 : Z) (o1 o2 o3 : string) (w1 w2 w3 : world Ext) :
  shell sys "git config -f bloom.conf bloom.upstream" (st_world st) = ((c1, o1), w1) ->
  shell sys "git config -f bloom.conf bloom.upstreamtype" w1 = ((c2, o2), w2) ->
  shell sys "git config -f bloom.conf bloom.upstreambranch" w2 = ((c3, o3), w3) ->
  (c1 <> 0%Z ->
   (parse_bloom_conf sys cwd st).1
   = Raise (CalledProcessError c1 "git config -f bloom.conf bloom.upstream"))
  /\ (c1 = 0%Z -> c2 <> 0%Z ->
      (parse_bloom_conf sys cwd st).1
      = Raise (CalledProcessError c2 "git config -f bloom.conf bloom.upstreamtype"))
  /\ (c1 = 0%Z -> c2 = 0%Z -> c3 <> 0%Z ->
      (parse_bloom_conf sys cwd st).1 = Return (strip o1, strip o2, ""))
  /\ (c1 = 0%Z -> c2 = 0%Z -> c3 = 0%Z ->
      (parse_bloom_conf sys cwd st).1 = Return (strip o1, strip o2, strip o3)).
Proof.
  intros H1 H2 H3.
  rewrite (parse_bloom_conf_run sys cwd st c1 c2 c3 o1 o2 o3 w1 w2 w3 H1 H2 H3).
  destruct (Z.eqb_spec c1 0) as [E1|E1]; [|by repeat split].
  destruct (Z.eqb_spec c2 0) as [E2|E2]; [|by repeat split].
  destruct (Z.eqb_spec c3 0) as [E3|E3]; by repeat split.
Qed.

Lemma C5_parse_bloom_conf_witness :
  (parse_bloom_conf Scenario.sys None
     (Scenario.start (Scenario.repo Scenario.release_branches (Scenario.fixture_with "")))).1
  = Return ("https://example/repo", "git", "").
Proof.
  refine (proj1 (proj2 (proj2
    (C5_parse_bloom_conf Scenario.sys None
       (Scenario.start
          (Scenario.repo Scenario.release_branches (Scenario.fixture_with "")))
       0 0 1
       ("https://example/repo" +:+ nl) ("git" +:+ nl) ""
       (Scenario.repo Scenario.release_branches (Scenario.fixture_with ""))
       (Scenario.repo Scenario.release_branches (Scenario.fixture_with ""))
       (Scenario.repo Scenario.release_branches (Scenario.fixture_with ""))
       _ _ _))) _ _ _).
  - reflexivity.
  - reflexivity.
  - reflexivity.
  - reflexivity.
  - reflexivity.
  - discriminate.
Defined.

(** A configuration without [bloom.upstream] is a fatal error. *)
Example parse_bloom_conf_unset :
  (parse_bloom_conf Scenario.sys None
     (Scenario.start
        (Scenario.repo Scenario.release_branches
           {| Scenario.last_tag := "";
              Scenario.manifest := Some Scenario.foo_pkg;
              Scenario.config := [("bloom.upstreamtype", "git")];
              Scenario.import_orig_installed := true |}))).1
  = Raise (CalledProcessError 1 "git config -f bloom.conf bloom.upstream").
Proof. reflexivity. Qed.

(** A configured branch is handed on as it is. *)
Example parse_bloom_conf_branch :
  (parse_bloom_conf Scenario.sys None
     (Scenario.start
        (Scenario.repo Scenario.release_branches
           {| Scenario.last_tag := "";
              Scenario.manifest := Some Scenario.foo_pkg;
              Scenario.config := Scenario.example_config
                                 ++ [("bloom.upstreambranch", "groovy-devel")];
              Scenario.import_orig_installed := true |}))).1
  = Return ("https://example/repo", "git", "groovy-devel").
Proof. reflexivity. Qed.

(** ** The events of a run *)

Section Traces.
Context {Ext : Type}.
Implicit Types st : state Ext.
Implicit Types P : event -> Prop.

Lemma emits_ret {A} P (a : A) : emits P (ret (Ext := Ext) a).
Proof. intros st. exists []. by rewrite app_nil_r. Qed.

Lemma emits_raise {A} P (e : exn) : emits P (raise (Ext := Ext) (A := A) e).
Proof. intros st. exists []. by rewrite app_nil_r. Qed.

Lemma emits_lift {A} P (r : result A) : emits P (lift (Ext := Ext) r).
Proof. intros st. exists []. by rewrite app_nil_r. Qed.

Lemma emits_ask {A} P (f : world Ext -> A) : emits P (ask f).
Proof. intros st. exists []. by rewrite app_nil_r. Qed.

Lemma emits_act {A} P (f : world Ext -> result A * world Ext) : emits P (act f).
Proof.
  intros st. exists []. unfold act. destruct (f (st_world st)).
  by rewrite app_nil_r.
Qed.

Lemma emits_emit P (e : event) : P e -> emits P (emit (Ext := Ext) e).
Proof. intros He st. exists [e]. split; [done|]. by constructor. Qed.

Lemma emits_bind {A B} P (m : M Ext A) (k : A -> M Ext B) :
  emits P m -> (forall a, emits P (k a)) -> emits P (bind m k).
Proof.
  intros Hm Hk st. unfold bind.
  destruct (Hm st) as (evs1 & E1 & F1).
  destruct (m st) as [[a|e] st1]; cbn [snd] in E1.
  - destruct (Hk a st1) as (evs2 & E2 & F2).
    exists (evs1 ++ evs2). rewrite E2, E1, (assoc_L (++)).
    split; [done|]. by apply Forall_app.
  - by exists evs1.
Qed.

Lemma emits_try_except {A} P (body : M Ext A) (handler : exn -> option (M Ext A)) :
  emits P body ->
  (forall e h, handler e = Some h -> emits P h) ->
  emits P (try_except body handler).
Proof.
  intros Hm Hh st. unfold try_except.
  destruct (Hm st) as (evs1 & E1 & F1).
  destruct (body st) as [[a|e] st1]; cbn [snd] in E1.
  - by exists evs1.
  - destruct (handler e) as [h|] eqn:Eh; [|by exists evs1].
    destruct (Hh e h Eh st1) as (evs2 & E2 & F2).
    exists (evs1 ++ evs2). rewrite E2, E1, (assoc_L (++)).
    split; [done|]. by apply Forall_app.
Qed.

Lemma emits_read_file P (path : string) : emits P (read_file (Ext := Ext) path).
Proof.
  intros st. exists []. unfold read_file. rewrite app_nil_r.
  destruct (in_worktree _ _); [|done]. by destruct (worktree _ !! _).
Qed.

Lemma not_checkout_print (line : string) : not_checkout (EvPrint line).
Proof. by intros args. Qed.

Lemma not_checkout_warning (msg : string) : not_checkout (EvWarning msg).
Proof. by intros args. Qed.

Lemma not_checkout_bailout (reason : string) : not_checkout (EvBailout reason).
Proof. by intros args. Qed.

Lemma not_checkout_shell (cmd : string) : not_checkout (EvShell cmd).
Proof. by intros args. Qed.

Lemma not_checkout_call (fn : string) (args : list string) :
  fn <> "VcsClient.checkout" -> not_checkout (EvCall fn args).
Proof. intros Hfn args' [= H _]. done. Qed.

Lemma passes_not_checkout : passes not_checkout.
Proof. by intros e. Qed.

End Traces.

Create HintDb emits discriminated.
#[export] Hint Resolve emits_ret emits_raise emits_lift emits_ask emits_act
  emits_read_file : emits.
#[export] Hint Resolve not_checkout_print not_checkout_warning not_checkout_bailout
  not_checkout_shell : emits.

(** The function at the head of an application. *)
Ltac head_of t :=
  lazymatch t with
  | ?f _ => head_of f
  | _ => t
  end.

(** The goal is a lemma of the context on the step at its head. *)
Ltac emits_known :=
  lazymatch goal with
  | |- emits _ ?m =>
      let f := head_of m in
      match goal with
      | H : context [f] |- _ => solve [apply H]
      end
  end.

(** The handler of a [try]: by cases on the exception. *)
Ltac emits_handler :=
  let e := fresh "e" in
  let h := fresh "h" in
  let Hh := fresh "Hh" in
  intros e h Hh; destruct e; try discriminate Hh;
  injection Hh as <-.

(** One step of the proof that a program emits only events of [P]: the
    monad's own operations by their lemmas, a branch by cases on what it
    tests, an event by [passes].  The step is chosen by the syntax of the
    program, which is never unfolded to find it. *)
Ltac emits_step HP :=
  lazymatch goal with
  | |- emits _ (bind _ _) => apply emits_bind; [|intros ?]
  | |- emits _ (try_except _ _) => apply emits_try_except; [|emits_handler]
  | |- emits _ (emit _) =>
      apply emits_emit;
      first [ solve [apply HP; auto with emits]
            | solve [apply HP; apply not_checkout_call; discriminate]
            | idtac ]
  | |- emits _ (ret _) => apply emits_ret
  | |- emits _ (raise _) => apply emits_raise
  | |- emits _ (lift _) => apply emits_lift
  | |- emits _ (ask _) => apply emits_ask
  | |- emits _ (act _) => apply emits_act
  | |- emits _ (read_file _) => apply emits_read_file
  | |- emits _ (call _ _ _) => unfold call
  | |- emits _ (if ?b then _ else _) => destruct b
  | |- emits _ (match ?x with _ => _ end) => destruct x
  | |- emits _ _ => emits_known
  end.

Ltac emits_run HP := repeat (emits_step HP).

Section ProgramTraces.
Context {Ext : Type}.
Variable sys : system Ext.
Variable P : event -> Prop.
Hypothesis HP : passes P.

Lemma emits_print (line : string) : emits P (print (Ext := Ext) line).
Proof. unfold print. emits_run HP. Qed.

Lemma emits_run_cmd (cmd : string) : emits P (run sys cmd).
Proof. unfold run. emits_run HP. Qed.

Lemma emits_check_output (cmd : string) (dir : option string) :
  emits P (check_output sys cmd dir).
Proof. unfold check_output. pose proof emits_run_cmd. emits_run HP. Qed.

Lemma emits_execute_command (cmd : string) (dir : option string) :
  emits P (execute_command sys cmd dir).
Proof. unfold execute_command. pose proof emits_run_cmd. emits_run HP. Qed.

Lemma emits_check_call (cmd : string) : emits P (check_call sys cmd).
Proof. unfold check_call. pose proof emits_run_cmd. emits_run HP. Qed.

Lemma emits_bailout {A} (reason : string) :
  emits P (bailout (Ext := Ext) (A := A) reason).
Proof. unfold bailout. emits_run HP. Qed.

Lemma emits_call {A} (fn : string) (args : list string)
    (f : world Ext -> result A * world Ext) :
  fn <> "VcsClient.checkout" -> emits P (call fn args f).
Proof.
  intros Hfn. unfold call. apply emits_bind; [|auto with emits].
  apply emits_emit, HP. by apply not_checkout_call.
Qed.

End ProgramTraces.

Ltac emits_prog HP :=
  repeat first
    [ lazymatch goal with
      | |- emits _ (print _) => solve [apply emits_print; assumption]
      | |- emits _ (check_output _ _ _) =>
          solve [apply emits_check_output; assumption]
      | |- emits _ (execute_command _ _ _) =>
          solve [apply emits_execute_command; assumption]
      | |- emits _ (check_call _ _) => solve [apply emits_check_call; assumption]
      | |- emits _ (bailout _) => solve [apply emits_bailout; assumption]
      | |- emits _ (call _ _ _) =>
          solve [apply emits_call; [assumption | discriminate]]
      end
    | emits_step HP ].

Section StepTraces.
Context {Ext : Type}.
Variable sys : system Ext.
Variable P : event -> Prop.
Hypothesis HP : passes P.

Lemma emits_write_file (path content : string) :
  emits P (write_file (Ext := Ext) path content).
Proof. unfold write_file. emits_prog HP. Qed.

Lemma emits_os_path_exists (path : string) : emits P (os_path_exists sys path).
Proof. unfold os_path_exists. emits_prog HP. Qed.

Lemma emits_bloom_repo_update (version : string) :
  emits P (bloom_repo_update (Ext := Ext) version).
Proof. unfold bloom_repo_update. emits_prog HP. Qed.

Lemma emits_convert_catkin_to_bloom (cwd : string) :
  emits P (convert_catkin_to_bloom sys cwd).
Proof.
  unfold convert_catkin_to_bloom.
  pose proof emits_write_file. pose proof emits_os_path_exists.
  emits_prog HP.
Qed.

Lemma emits_check_for_bloom (cwd : option string) :
  emits P (check_for_bloom sys cwd).
Proof.
  unfold check_for_bloom, not_a_bloom_release_repo.
  pose proof emits_convert_catkin_to_bloom. emits_prog HP.
Qed.

Lemma emits_ensure_bloom_repo : emits P (ensure_bloom_repo sys).
Proof.
  unfold ensure_bloom_repo, not_a_bloom_release_repo, os_getcwd.
  pose proof emits_check_for_bloom. pose proof emits_bloom_repo_update.
  pose proof emits_os_path_exists. emits_prog HP.
Qed.

Lemma emits_parse_bloom_conf (cwd : option string) :
  emits P (parse_bloom_conf sys cwd).
Proof. unfold parse_bloom_conf, except_CalledProcessError. emits_prog HP. Qed.

Lemma emits_summarize_repo_info (upstream_repo upstream_type upstream_branch : string) :
  emits P (summarize_repo_info sys upstream_repo upstream_type upstream_branch).
Proof. unfold summarize_repo_info. emits_prog HP. Qed.

Lemma emits_parse_the_stack_xml (upstream_dir : string) :
  emits P (parse_the_stack_xml sys upstream_dir).
Proof.
  unfold parse_the_stack_xml. pose proof emits_os_path_exists. emits_prog HP.
Qed.

Lemma emits_export_tarball (upstream_type upstream_dir tmp_dir : string) (stack : stack) :
  emits P (export_tarball sys upstream_type upstream_dir tmp_dir stack).
Proof. unfold export_tarball. emits_prog HP. Qed.

Lemma emits_gbp_version_elements (stack : stack) :
  emits P (gbp_version_elements sys stack).
Proof.
  unfold gbp_version_elements, StrictVersion_new, warning. emits_prog HP.
Qed.

Lemma emits_create_initial_upstream_branch (cwd : option string) :
  emits P (create_initial_upstream_branch sys cwd).
Proof. unfold create_initial_upstream_branch. emits_prog HP. Qed.

Lemma emits_look_for_upstream_branch : emits P (look_for_upstream_branch sys).
Proof.
  unfold look_for_upstream_branch.
  pose proof emits_create_initial_upstream_branch. emits_prog HP.
Qed.

Lemma emits_import_the_tarball (tarball_path : string) :
  emits P (import_the_tarball sys tarball_path).
Proof.
  unfold import_the_tarball, detect_git_import_orig, except_CalledProcessError.
  emits_prog HP.
Qed.

End StepTraces.

Section Checkout.
Context {Ext : Type}.
Variable sys : system Ext.

Lemma passes_hands_over (upstream_repo upstream_type upstream_branch : string) :
  passes (hands_over upstream_repo upstream_type upstream_branch).
Proof. intros e He args ->. by destruct (He args). Qed.

Lemma emits_checkout_upstream (upstream_repo upstream_type upstream_branch : string) :
  emits (hands_over upstream_repo upstream_type upstream_branch)
    (checkout_upstream sys upstream_repo upstream_type upstream_branch).
Proof.
  pose proof (passes_hands_over upstream_repo upstream_type upstream_branch) as HP.
  unfold checkout_upstream. emits_prog HP.
  intros args [= <-]. by eexists.
Qed.

(** The statements of [import_upstream] after the configuration is read. *)
Lemma emits_after_conf (upstream_repo upstream_type upstream_branch : string) :
  emits (hands_over upstream_repo upstream_type upstream_branch)
    (summarize_repo_info sys upstream_repo upstream_type upstream_branch ;;
     (if String.eqb upstream_type "git" then
        print "Verifying a couple of things about the upstream git repo" ;;
        call "assert_is_not_gbp_repo" [upstream_repo]
          (assert_is_not_gbp_repo sys upstream_repo)
      else ret tt) ;;
     dirs <- checkout_upstream sys upstream_repo upstream_type upstream_branch ;;
     let '(tmp_dir, upstream_dir) := dirs in
     stack <- parse_the_stack_xml sys upstream_dir ;;
     print ("Upstream's stack.xml has version " +:+ ansi sys "boldon"
            +:+ version stack +:+ ansi sys "reset") ;;
     print ("Upstream's name is " +:+ ansi sys "boldon" +:+ name stack
            +:+ ansi sys "reset") ;;
     tarball_path <- export_tarball sys upstream_type upstream_dir tmp_dir stack ;;
     gbp_version_elements sys stack ;;
     look_for_upstream_branch sys ;;
     bloom_repo_update "master" ;;
     import_the_tarball sys tarball_path)%py.
Proof.
  pose proof (passes_hands_over upstream_repo upstream_type upstream_branch) as HP.
  pose proof (emits_summarize_repo_info sys _ HP).
  pose proof (emits_checkout_upstream upstream_repo upstream_type upstream_branch).
  pose proof (emits_parse_the_stack_xml sys _ HP).
  pose proof (emits_export_tarball sys _ HP).
  pose proof (emits_gbp_version_elements sys _ HP).
  pose proof (emits_look_for_upstream_branch sys _ HP).
  pose proof (emits_bloom_repo_update (Ext := Ext) _ HP).
  pose proof (emits_import_the_tarball sys _ HP).
  emits_prog HP.
Qed.

(** Every checkout of a run is called with what the configuration reader
    answered in that run. *)
Lemma import_upstream_checkouts (st : state Ext) :
  exists evs,
    st_trace (import_upstream sys st).2 = st_trace st ++ evs
    /\ Forall
         (fun e =>
            forall args, e = checkout_call args ->
              exists st0 st1 upstream_repo upstream_type upstream_branch upstream_dir,
                ensure_bloom_repo sys st = (Return tt, st0)
                /\ parse_bloom_conf sys None st0
                   = (Return (upstream_repo, upstream_type, upstream_branch), st1)
                /\ args = [upstream_type; upstream_dir; upstream_repo;
                           if negb (String.eqb upstream_branch no_branch_set)
                           then upstream_branch else ""])
         evs.
Proof.
  destruct (emits_ensure_bloom_repo sys _ passes_not_checkout st) as (evs0 & E0 & F0).
  unfold import_upstream. unfold bind at 1.
  destruct (ensure_bloom_repo sys st) as [[[]|e] st0]; cbn [snd] in E0 |- *.
  2: { exists evs0. split; [done|].
       eapply Forall_impl; [exact F0|]. intros ev Hev args ->. by destruct (Hev args). }
  destruct (emits_parse_bloom_conf sys _ passes_not_checkout None st0)
    as (evs1 & E1 & F1).
  unfold bind at 1.
  destruct (parse_bloom_conf sys None st0)
    as [[[[upstream_repo upstream_type] upstream_branch]|e] st1] eqn:Hconf;
    cbn [snd] in E1 |- *.
  2: { exists (evs0 ++ evs1). rewrite E1, E0, (assoc_L (++)). split; [done|].
       apply Forall_app. split; (eapply Forall_impl; [eassumption|]);
         intros ev Hev args ->; by destruct (Hev args). }
  destruct (emits_after_conf upstream_repo upstream_type upstream_branch st1)
    as (evs2 & E2 & F2).
  exists (evs0 ++ evs1 ++ evs2). split.
  - rewrite E2, E1, E0. by rewrite !(assoc_L (++)).
  - repeat (apply Forall_app; split).
    + eapply Forall_impl; [exact F0|]. intros ev Hev args ->. by destruct (Hev args).
    + eapply Forall_impl; [exact F1|]. intros ev Hev args ->. by destruct (Hev args).
    + eapply Forall_impl; [exact F2|]. intros ev Hev args Hargs.
      destruct (Hev args Hargs) as (upstream_dir & ->).
      exists st0, st1, upstream_repo, upstream_type, upstream_branch, upstream_dir.
      split; [reflexivity|]. split; [exact Hconf | reflexivity].
Qed.

(** The summary only prints: the placeholder is a local of it. *)
Lemma summarize_repo_info_run (upstream_repo upstream_type upstream_branch : string)
    (st : state Ext) :
  summarize_repo_info sys upstream_repo upstream_type upstream_branch st
  = (Return tt,
     {| st_world := st_world st;
        st_trace :=
          st_trace st
          ++ [EvPrint ("upstream repo: " +:+ ansi sys "boldon" +:+ upstream_repo
                       +:+ ansi sys "reset");
              EvPrint ("upstream type: " +:+ ansi sys "boldon" +:+ upstream_type
                       +:+ ansi sys "reset");
              EvPrint ("upstream branch: " +:+ ansi sys "boldon"
                       +:+ (if truthy upstream_branch then upstream_branch
                            else no_branch_set)
                       +:+ ansi sys "reset")] |}).
Proof.
  unfold summarize_repo_info, bind, print, emit. cbn [st_world st_trace].
  by rewrite <- !(assoc_L (++)).
Qed.

End Checkout.

(** C10: a checkout that a run of the import makes is called with the
    branch that the configuration reader answered in that run, as it is,
    except that the text [(No branch set)] is replaced by the empty string;
    so for an empty configured value the branch handed over is empty, and
    the placeholder of the summary is never handed over. *)
Theorem C10_checkout_branch {Ext : Type} (sys : system Ext) (st : state Ext)
    (evs : list event) (args : list string) :
  st_trace (import_upstream sys st).2 = st_trace st ++ evs ->
  In (EvCall "VcsClient.checkout" args) evs ->
  exists st0 st1 upstream_repo upstream_type upstream_branch upstream_dir branch,
    ensure_bloom_repo sys st = (Return tt, st0)
    /\ parse_bloom_conf sys None st0
       = (Return (upstream_repo, upstream_type, upstream_branch), st1)
    /\ args = [upstream_type; upstream_dir; upstream_repo; branch]
    /\ branch = (if String.eqb upstream_branch "(No branch set)" then ""
                 else upstream_branch)
    /\ (upstream_branch = "" -> branch = "")
    /\ branch <> "(No branch set)".
Proof.
  intros Htr Hin.
  destruct (import_upstream_checkouts sys st) as (evs' & Htr' & Hall).
  rewrite Htr in Htr'. apply app_inv_head in Htr' as <-.
  rewrite Forall_forall in Hall. apply list_elem_of_In in Hin.
  destruct (Hall _ Hin args eq_refl)
    as (st0 & st1 & upstream_repo & upstream_type & upstream_branch & upstream_dir
        & Hens & Hconf & ->).
  exists st0, st1, upstream_repo, upstream_type, upstream_branch, upstream_dir.
  eexists. split; [done|]. split; [done|]. split; [reflexivity|].
  unfold no_branch_set.
  destruct (String.eqb_spec upstream_branch "(No branch set)") as [->|Hne];
    cbn [negb]; by repeat split.
Qed.

Lemma C10_checkout_branch_witness :
  exists st0 st1 upstream_repo upstream_type upstream_branch upstream_dir branch,
    ensure_bloom_repo Scenario.sys
      (Scenario.start (Scenario.repo Scenario.fresh_branches (Scenario.fixture_with "")))
    = (Return tt, st0)
    /\ parse_bloom_conf Scenario.sys None st0
       = (Return (upstream_repo, upstream_type, upstream_branch), st1)
    /\ ["git"; "/tmp/bloom/upstream"; "https://example/repo"; ""]
       = [upstream_type; upstream_dir; upstream_repo; branch]
    /\ branch = (if String.eqb upstream_branch "(No branch set)" then ""
                 else upstream_branch)
    /\ (upstream_branch = "" -> branch = "")
    /\ branch <> "(No branch set)".
Proof.
  apply (C10_checkout_branch Scenario.sys
           (Scenario.start
              (Scenario.repo Scenario.fresh_branches (Scenario.fixture_with "")))
           (st_trace
              (import_upstream Scenario.sys
                 (Scenario.start
                    (Scenario.repo Scenario.fresh_branches
                       (Scenario.fixture_with "")))).2)
           ["git"; "/tmp/bloom/upstream"; "https://example/repo"; ""]).
  - reflexivity.
  - vm_compute. repeat (first [left; reflexivity | right]).
Defined.

(** A configured branch reaches the checkout as it is. *)
Example checkout_of_configured_branch :
  In (EvCall "VcsClient.checkout"
        ["git"; "/tmp/bloom/upstream"; "https://example/repo"; "groovy-devel"])
    (st_trace
       (import_upstream Scenario.sys
          (Scenario.start
             (Scenario.repo Scenario.fresh_branches
                (Scenario.fixture_with_branch "groovy-devel")))).2).
Proof. vm_compute. repeat (first [left; reflexivity | right]). Qed.

(** A branch configured as the text of the placeholder reaches it as the
    empty string. *)
Example checkout_of_placeholder_text :
  In (EvCall "VcsClient.checkout"
        ["git"; "/tmp/bloom/upstream"; "https://example/repo"; ""])
    (st_trace
       (import_upstream Scenario.sys
          (Scenario.start
             (Scenario.repo Scenario.fresh_branches
                (Scenario.fixture_with_branch "(No branch set)")))).2).
Proof. vm_compute. repeat (first [left; reflexivity | right]). Qed.

(** The end-to-end scenario of the specification: no branch set, manifest
    [foo_pkg] at [1.2.3], no prior tag.  The run ends normally, gives no
    warning, creates the upstream branch and imports
    [foo-pkg-1.2.3.tar.gz]. *)
Example end_to_end_scenario :
  (import_upstream Scenario.sys
     (Scenario.start
        (Scenario.repo Scenario.fresh_branches (Scenario.fixture_with "")))).1
  = Return tt
  /\ warnings
       (st_trace
          (import_upstream Scenario.sys
             (Scenario.start
                (Scenario.repo Scenario.fresh_branches
                   (Scenario.fixture_with "")))).2) = []
  /\ last
       (st_trace
          (import_upstream Scenario.sys
             (Scenario.start
                (Scenario.repo Scenario.fresh_branches
                   (Scenario.fixture_with "")))).2)
     = Some (EvShell "git import-orig /tmp/bloom/foo-pkg-1.2.3.tar.gz").
Proof. vm_compute. done. Qed.

(** * Further properties of the program *)

(** ** The import tool *)

Section ImportTool.
Context {Ext : Type}.
Variable sys : system Ext.
Implicit Types st : state Ext.

Lemma check_call_run (cmd : string) st :
  check_call sys cmd st
  = (if ((shell sys cmd (st_world st)).1.1 =? 0)%Z then Return 0%Z
     else Raise (CalledProcessError (shell sys cmd (st_world st)).1.1 cmd),
     {| st_world := (shell sys cmd (st_world st)).2;
        st_trace := st_trace st ++ [EvShell cmd] |}).
Proof.
  unfold check_call, bind. rewrite run_shell. cbn [fst snd].
  by destruct (_ =? _)%Z.
Qed.

(** [detect_git_import_orig] never raises: its answer is whether
    [git-import-orig --help] ended with status 0. *)
Lemma detect_git_import_orig_run st :
  detect_git_import_orig sys st
  = (Return ((shell sys "git-import-orig --help" (st_world st)).1.1 =? 0)%Z,
     {| st_world := (shell sys "git-import-orig --help" (st_world st)).2;
        st_trace := st_trace st ++ [EvShell "git-import-orig --help"] |}).
Proof.
  unfold detect_git_import_orig, try_except, bind. rewrite check_call_run.
  by destruct (_ =? _)%Z.
Qed.

End ImportTool.

(** When [git-import-orig --help] fails, the import step bails out with the
    hint to install git-buildpackage, and the import command is not run. *)
Theorem import_tool_missing_bails_out {Ext : Type} (sys : system Ext)
    (tarball_path : string) (st : state Ext) (code : Z) (out : string)
    (w1 : world Ext) :
  shell sys "git-import-orig --help" (st_world st) = ((code, out), w1) ->
  code <> 0%Z ->
  import_the_tarball sys tarball_path st
  = (Raise (SystemExit 1),
     {| st_world := w1;
        st_trace :=
          st_trace st
          ++ [EvShell "git-import-orig --help";
              EvBailout ("git-import-orig not detected, did you install "
                         +:+ "git-buildpackage?")] |}).
Proof.
  intros Hhelp Hcode. unfold import_the_tarball. unfold bind at 1.
  rewrite detect_git_import_orig_run, Hhelp. cbn [fst snd].
  apply Z.eqb_neq in Hcode. rewrite Hcode. cbn [negb].
  unfold bind at 1, bailout, bind, emit, raise. cbn [st_world st_trace].
  by rewrite <- (assoc_L (++)).
Qed.

Lemma import_tool_missing_bails_out_witness :
  import_the_tarball Scenario.sys "/tmp/bloom/foo-pkg-1.2.3"
    (Scenario.start
       (Scenario.repo Scenario.release_branches
          {| Scenario.last_tag := "";
             Scenario.manifest := Some Scenario.foo_pkg;
             Scenario.config := Scenario.example_config;
             Scenario.import_orig_installed := false |}))
  = (Raise (SystemExit 1),
     {| st_world :=
          Scenario.repo Scenario.release_branches
            {| Scenario.last_tag := "";
               Scenario.manifest := Some Scenario.foo_pkg;
               Scenario.config := Scenario.example_config;
               Scenario.import_orig_installed := false |};
        st_trace :=
          [EvShell "git-import-orig --help";
           EvBailout "git-import-orig not detected, did you install git-buildpackage?"] |}).
Proof.
  apply (import_tool_missing_bails_out Scenario.sys "/tmp/bloom/foo-pkg-1.2.3"
           (Scenario.start
              (Scenario.repo Scenario.release_branches
                 {| Scenario.last_tag := "";
                    Scenario.manifest := Some Scenario.foo_pkg;
                    Scenario.config := Scenario.example_config;
                    Scenario.import_orig_installed := false |}))
           127 "").
  - reflexivity.
  - discriminate.
Defined.

(** When the tool is there, the import command (the tarball path with
    [.tar.gz]) is run exactly once: status 0 ends the step normally, any
    other status is a bail-out whose message quotes the command. *)
Theorem import_runs_once {Ext : Type} (sys : system Ext)
    (tarball_path : string) (st : state Ext) (out1 out2 : string) (code : Z)
    (w1 w2 : world Ext) :
  shell sys "git-import-orig --help" (st_world st) = ((0%Z, out1), w1) ->
  shell sys (import_orig_cmd tarball_path) w1 = ((code, out2), w2) ->
  import_the_tarball sys tarball_path st
  = if (code =? 0)%Z then
      (Return tt,
       {| st_world := w2;
          st_trace :=
            st_trace st
            ++ [EvShell "git-import-orig --help";
                EvShell (import_orig_cmd tarball_path)] |})
    else
      (Raise (SystemExit 1),
       {| st_world := w2;
          st_trace :=
            st_trace st
            ++ [EvShell "git-import-orig --help";
                EvShell (import_orig_cmd tarball_path);
                EvBailout ("git-import-orig failed '"
                           +:+ import_orig_cmd tarball_path +:+ "'")] |}).
Proof.
  intros Hhelp Himport. unfold import_the_tarball. unfold bind at 1.
  rewrite detect_git_import_orig_run, Hhelp. cbn [fst snd Z.eqb negb].
  unfold bind at 1, ret at 1. unfold try_except, bind at 1.
  rewrite check_call_run. cbn [st_world st_trace]. rewrite Himport. cbn [fst snd].
  destruct (code =? 0)%Z.
  - cbn [Z.eqb negb ret]. by rewrite <- (assoc_L (++)).
  - cbn [except_CalledProcessError]. unfold bailout, bind, emit, raise.
    cbn [st_world st_trace]. by rewrite <- !(assoc_L (++)).
Qed.

Lemma import_runs_once_witness :
  import_the_tarball Scenario.sys "/tmp/bloom/foo-pkg-1.2.3"
    (Scenario.start
       (Scenario.repo Scenario.release_branches (Scenario.fixture_with "")))
  = (Return tt,
     {| st_world := Scenario.repo Scenario.release_branches (Scenario.fixture_with "");
        st_trace :=
          [EvShell "git-import-orig --help";
           EvShell "git import-orig /tmp/bloom/foo-pkg-1.2.3.tar.gz"] |}).
Proof.
  apply (import_runs_once Scenario.sys "/tmp/bloom/foo-pkg-1.2.3"
           (Scenario.start
              (Scenario.repo Scenario.release_branches (Scenario.fixture_with "")))
           "" "" 0
           (Scenario.repo Scenario.release_branches (Scenario.fixture_with ""))
           (Scenario.repo Scenario.release_branches (Scenario.fixture_with ""))).
  - reflexivity.
  - reflexivity.
Defined.

(** ** The manifest *)

(** Without a [stack.xml] in the checked-out tree the step bails out, naming
    the directory, and the manifest parser is not called; with one, the
    answer is the parser's. *)
Theorem manifest_is_required {Ext : Type} (sys : system Ext)
    (upstream_dir : string) (st : state Ext) (present : bool) :
  os_path_exists sys (path_join upstream_dir "stack.xml") st = (Return present, st) ->
  parse_the_stack_xml sys upstream_dir st
  = if present then
      (parse_stack_xml sys (path_join upstream_dir "stack.xml") (st_world st),
       {| st_world := st_world st;
          st_trace :=
            st_trace st
            ++ [EvCall "parse_stack_xml" [path_join upstream_dir "stack.xml"]] |})
    else
      (Raise (SystemExit 1),
       {| st_world := st_world st;
          st_trace := st_trace st ++ [EvBailout ("No stack.xml at " +:+ upstream_dir)] |}).
Proof.
  intros Hex. unfold parse_the_stack_xml. unfold bind at 1. rewrite Hex.
  destruct present; reflexivity.
Qed.

Lemma manifest_is_required_witness :
  parse_the_stack_xml Scenario.sys "/tmp/bloom/upstream"
    (Scenario.start
       (Scenario.repo Scenario.release_branches
          {| Scenario.last_tag := "";
             Scenario.manifest := None;
             Scenario.config := Scenario.example_config;
             Scenario.import_orig_installed := true |}))
  = (Raise (SystemExit 1),
     {| st_world :=
          Scenario.repo Scenario.release_branches
            {| Scenario.last_tag := "";
               Scenario.manifest := None;
               Scenario.config := Scenario.example_config;
               Scenario.import_orig_installed := true |};
        st_trace := [EvBailout "No stack.xml at /tmp/bloom/upstream"] |}).
Proof.
  apply (manifest_is_required Scenario.sys "/tmp/bloom/upstream"
           (Scenario.start
              (Scenario.repo Scenario.release_branches
                 {| Scenario.last_tag := "";
                    Scenario.manifest := None;
                    Scenario.config := Scenario.example_config;
                    Scenario.import_orig_installed := true |}))
           false).
  reflexivity.
Defined.

(** ** The entry point *)

Section Main.
Context {Ext : Type}.
Variable sys : system Ext.
Implicit Types st : state Ext.

(** The [finally] block never raises and keeps the local branches; it
    calls the update only for a branch name that is not empty and occurs
    in the listing. *)
Lemma cleanup_run (current_branch : option string) st :
  exists st',
    (local_branches <- check_output sys "git branch" None ;;
     if truthy_opt current_branch
        && Py.contains (default "" current_branch) local_branches
     then bloom_repo_update (default "" current_branch) ;; ret tt
     else ret tt)%py st = (Return tt, st')
    /\ branches (st_world st') = branches (st_world st)
    /\ (truthy_opt current_branch = false ->
        st' = {| st_world := st_world st;
                 st_trace := st_trace st ++ [EvShell "git branch"] |}).
Proof.
  unfold bind. rewrite check_output_git_branch.
  destruct (truthy_opt current_branch); cbn [andb].
  2: { eexists. split; [reflexivity|]. by split. }
  destruct (contains _ _).
  2: { eexists. split; [reflexivity|]. by split. }
  pose proof (bloom_repo_update_world (default "" current_branch)
                {| st_world := st_world st;
                   st_trace := st_trace st ++ [EvShell "git branch"] |}) as [H1 _].
  destruct (bloom_repo_update _ _) as [[r|e] st1] eqn:Eu.
  - eexists. split; [reflexivity|]. by split.
  - exfalso. revert Eu. unfold bloom_repo_update, call, bind, emit, act.
    cbn [st_world st_trace]. by destruct (switch_to _ _).
Qed.

End Main.

(** Outside a git repository [main] answers 1 after printing the error and
    the usage; nothing else is run and the system is as it was. *)
Theorem main_outside_repository {Ext : Type} (sys : system Ext) (st : state Ext) :
  vcs_detect_presence sys (st_world st) = false ->
  main sys st
  = (Return (Some 1%Z),
     {| st_world := st_world st;
        st_trace :=
          st_trace st
          ++ [EvError ("Not in a git repository." +:+ nl);
              EvPrint ("usage: git bloom-import-upstream" +:+ nl +:+ nl
                       +:+ "Must be in a valid git bloom release repository."
                       +:+ nl)] |}).
Proof.
  intros H. unfold main. unfold bind at 1, ask at 1. rewrite H. cbn [negb].
  unfold bind, error, usage, print, emit, ret. cbn [st_world st_trace].
  by rewrite <- (assoc_L (++)).
Qed.

Lemma main_outside_repository_witness :
  main Scenario.outside
    (Scenario.start (Scenario.repo Scenario.release_branches (Scenario.fixture_with "")))
  = (Return (Some 1%Z),
     {| st_world := Scenario.repo Scenario.release_branches (Scenario.fixture_with "");
        st_trace :=
          [EvError ("Not in a git repository." +:+ nl);
           EvPrint ("usage: git bloom-import-upstream" +:+ nl +:+ nl
                    +:+ "Must be in a valid git bloom release repository."
                    +:+ nl)] |}).
Proof.
  apply (main_outside_repository Scenario.outside
           (Scenario.start
              (Scenario.repo Scenario.release_branches (Scenario.fixture_with "")))).
  reflexivity.
Defined.

(** Inside a git repository the outcome of [main] is the outcome of the
    import: [None] when the import ends normally, and the import's own
    exception otherwise; the [finally] block neither hides nor replaces it. *)
Theorem main_outcome_is_import_outcome {Ext : Type} (sys : system Ext)
    (st : state Ext) :
  vcs_detect_presence sys (st_world st) = true ->
  (main sys st).1
  = match (import_upstream sys st).1 with
    | Return _ => Return None
    | Raise e => Raise e
    end.
Proof.
  intros H.
  assert (forall out, out = main sys st ->
            out.1 = match (import_upstream sys st).1 with
                    | Return _ => Return None
                    | Raise e => Raise e
                    end) as Hmain; [|by apply Hmain].
  intros out Hout. unfold main in Hout. unfold bind at 1, ask at 1 in Hout.
  rewrite H in Hout. cbn [negb] in Hout.
  unfold bind at 1, get_current_git_branch at 1, ask at 1 in Hout.
  unfold bind at 1, try_finally in Hout.
  unfold bind at 1 in Hout.
  destruct (import_upstream sys st) as [[[]|e] st1]; cbn [fst].
  - unfold print at 1, emit at 1 in Hout.
    destruct (cleanup_run sys (current_branch_of (st_world st))
                {| st_world := st_world st1;
                   st_trace := st_trace st1 ++ [EvPrint "I'm happy.  You should be too."] |})
      as (st2 & Hrun & _).
    rewrite Hrun in Hout. by subst out.
  - destruct (cleanup_run sys (current_branch_of (st_world st)) st1)
      as (st2 & Hrun & _).
    rewrite Hrun in Hout. by subst out.
Qed.

Lemma main_outcome_is_import_outcome_witness :
  (main Scenario.sys
     (Scenario.start
        (Scenario.repo Scenario.plain_branches (Scenario.fixture_with "")))).1
  = Raise (SystemExit 1).
Proof.
  rewrite (main_outcome_is_import_outcome Scenario.sys
             (Scenario.start
                (Scenario.repo Scenario.plain_branches (Scenario.fixture_with "")))).
  - vm_compute. reflexivity.
  - reflexivity.
Defined.

(** When no branch is checked out at the start (a detached [HEAD]) the
    [finally] block restores nothing: it lists the branches and leaves the
    repository as the import left it. *)
Theorem main_detached_head_not_restored {Ext : Type} (sys : system Ext)
    (st : state Ext) :
  vcs_detect_presence sys (st_world st) = true ->
  current_branch_of (st_world st) = None ->
  (main sys st).2
  = {| st_world :=
         st_world ((import_upstream sys ;; print "I'm happy.  You should be too.")%py st).2;
       st_trace :=
         st_trace ((import_upstream sys ;; print "I'm happy.  You should be too.")%py st).2
         ++ [EvShell "git branch"] |}.
Proof.
  intros H Hcur.
  assert (forall out, out = main sys st ->
            out.2
            = {| st_world :=
                   st_world
                     ((import_upstream sys ;; print "I'm happy.  You should be too.")%py
                        st).2;
                 st_trace :=
                   st_trace
                     ((import_upstream sys ;; print "I'm happy.  You should be too.")%py
                        st).2
                   ++ [EvShell "git branch"] |}) as Hmain; [|by apply Hmain].
  intros out Hout. unfold main in Hout. unfold bind at 1, ask at 1 in Hout.
  rewrite H in Hout. cbn [negb] in Hout.
  unfold bind at 1, get_current_git_branch at 1, ask at 1 in Hout.
  rewrite Hcur in Hout.
  unfold bind at 1, try_finally in Hout.
  destruct ((import_upstream sys ;; print "I'm happy.  You should be too.")%py st)
    as [r st1].
  destruct (cleanup_run sys None st1) as (st2 & Hrun & _ & Hst2).
  rewrite Hrun in Hout. rewrite (Hst2 eq_refl) in Hout.
  subst out. by destruct r.
Qed.

Lemma main_detached_head_not_restored_witness :
  HEAD (st_world
          (main Scenario.sys
             (Scenario.start
                (Scenario.detached
                   (Scenario.repo Scenario.release_branches
                      (Scenario.fixture_with "upstream/1.0.0"))))).2)
  = OnBranch "master"
  /\ last (st_trace
             (main Scenario.sys
                (Scenario.start
                   (Scenario.detached
                      (Scenario.repo Scenario.release_branches
                         (Scenario.fixture_with "upstream/1.0.0"))))).2)
     = Some (EvShell "git branch").
Proof.
  rewrite (main_detached_head_not_restored Scenario.sys
             (Scenario.start
                (Scenario.detached
                   (Scenario.repo Scenario.release_branches
                      (Scenario.fixture_with "upstream/1.0.0"))))).
  - vm_compute. done.
  - reflexivity.
  - reflexivity.
Defined.

(** ** The order of the versions *)

Module StrictVersionOrder.
Import StrictVersion PyFacts.

Lemma cmp_then_opp (c d : comparison) :
  CompOpp (cmp_then c d) = cmp_then (CompOpp c) (CompOpp d).
Proof. by destruct c. Qed.

Lemma cmp_version_antisym (v w : N * N * N) :
  cmp_version w v = CompOpp (cmp_version v w).
Proof.
  destruct v as [[a1 b1] c1], w as [[a2 b2] c2]. unfold cmp_version.
  by rewrite !cmp_then_opp, <- !N.compare_antisym.
Qed.

Lemma cmp_prerelease_antisym (p q : ascii * N) :
  cmp_prerelease q p = CompOpp (cmp_prerelease p q).
Proof.
  unfold cmp_prerelease. by rewrite cmp_then_opp, <- !N.compare_antisym.
Qed.

(** [__cmp__] answers opposite ways for opposite arguments. *)
Lemma cmp_antisym (a b : t) : cmp b a = CompOpp (cmp a b).
Proof.
  unfold cmp. rewrite (cmp_version_antisym (version a) (version b)).
  destruct (cmp_version (version a) (version b)); cbn [CompOpp]; [|done|done].
  destruct (prerelease a), (prerelease b); cbn [CompOpp]; try done.
  apply cmp_prerelease_antisym.
Qed.

Lemma gt_not_lt_nor_eq (new base : t) :
  lt base new = true -> lt new base = false /\ eq new base = false.
Proof.
  unfold lt, eq. rewrite (cmp_antisym new base).
  by destruct (cmp new base).
Qed.

(** The digits of a number are all read, up to the first other character. *)
Lemma digits_number (d rest : string) :
  all_digits d = true ->
  match rest with
  | EmptyString => True
  | String c _ => is_digit c = false
  end ->
  digits (d +:+ rest) = (d, rest).
Proof.
  intros Hd Hrest. induction d as [|c d IH].
  - rewrite app_empty_l. destruct rest as [|c rest]; [done|].
    cbn [digits]. by rewrite Hrest.
  - cbn [all_digits] in Hd. apply andb_true_iff in Hd as [Hc Hd].
    rewrite app_cons. cbn [digits]. rewrite Hc. by rewrite (IH Hd).
Qed.

(** Three numbers joined by dots are read as the triple of their values,
    without a prerelease tag. *)
Lemma parse_triple (a b c : string) :
  number a = true -> number b = true -> number c = true ->
  parse (Py.join "." [a; b; c]) = Some (Make (atoi a, atoi b, atoi c) None).
Proof.
  intros Ha Hb Hc. cbn [Py.join]. unfold parse.
  change ("." +:+ b +:+ "." +:+ c) with (String "." (b +:+ String "." c)).
  rewrite (digits_number a) by (by destruct a).
  destruct a as [|a0 a]; [done|].
  rewrite (digits_number b) by (by destruct b).
  destruct b as [|b0 b]; [done|].
  cbn [patch_group].
  rewrite <- (app_empty_r c) at 1.
  rewrite (digits_number c "") by (by destruct c).
  by destruct c as [|c0 c].
Qed.

(** Two numbers joined by a dot are read with the patch level 0. *)
Lemma parse_pair (a b : string) :
  number a = true -> number b = true ->
  parse (a +:+ "." +:+ b) = Some (Make (atoi a, atoi b, 0%N) None).
Proof.
  intros Ha Hb. unfold parse.
  change ("." +:+ b) with (String "." b).
  rewrite (digits_number a) by (by destruct a).
  destruct a as [|a0 a]; [done|].
  rewrite <- (app_empty_r b) at 1.
  rewrite (digits_number b "") by (by destruct b).
  by destruct b as [|b0 b].
Qed.

End StrictVersionOrder.

(** When a prior release tag exists and the fetched version is strictly
    greater than the version of the tag, the reconciliation gives no
    warning: it prints the tag and answers the components of the tag. *)
Theorem newer_version_is_quiet {Ext : Type} (sys : system Ext) (stack : stack)
    (st : state Ext) (last_tag gbp_major gbp_minor gbp_patch : string)
    (new base : StrictVersion.t) :
  get_last_git_tag sys (st_world st) = Return last_tag ->
  last_tag <> "" ->
  get_versions_from_upstream_tag sys last_tag
  = Return [gbp_major; gbp_minor; gbp_patch] ->
  StrictVersion.parse (version stack) = Some new ->
  StrictVersion.parse (join "." [gbp_major; gbp_minor; gbp_patch]) = Some base ->
  StrictVersion.lt base new = true ->
  gbp_version_elements sys stack st
  = (Return (gbp_major, gbp_minor, gbp_patch),
     {| st_world := st_world st;
        st_trace :=
          st_trace st
          ++ [EvCall "get_last_git_tag" []; EvPrint (tag_line sys last_tag)] |}).
Proof.
  intros Htag Hne Hvers Hnew Hbase Hgt.
  rewrite (gbp_version_elements_tagged sys stack st last_tag
             gbp_major gbp_minor gbp_patch new base) by done.
  destruct (StrictVersionOrder.gt_not_lt_nor_eq new base Hgt) as [-> ->].
  reflexivity.
Qed.

Lemma newer_version_is_quiet_witness :
  gbp_version_elements Scenario.sys Scenario.foo_pkg
    (Scenario.start
       (Scenario.repo Scenario.release_branches (Scenario.fixture_with "upstream/1.2.2")))
  = (Return ("1", "2", "2"),
     {| st_world :=
          Scenario.repo Scenario.release_branches (Scenario.fixture_with "upstream/1.2.2");
        st_trace :=
          [EvCall "get_last_git_tag" [];
           EvPrint "The latest upstream tag in the release repo is upstream/1.2.2"] |}).
Proof.
  apply (newer_version_is_quiet Scenario.sys Scenario.foo_pkg
           (Scenario.start
              (Scenario.repo Scenario.release_branches
                 (Scenario.fixture_with "upstream/1.2.2")))
           "upstream/1.2.2" "1" "2" "2"
           (StrictVersion.Make (1, 2, 3)%N None)
           (StrictVersion.Make (1, 2, 2)%N None)).
  - reflexivity.
  - discriminate.
  - reflexivity.
  - reflexivity.
  - reflexivity.
  - reflexivity.
Defined.



(** The versions are compared as numbers, component by component: when the
    manifest version and the tag are three numbers each, the outcome of the
    reconciliation is decided by the order of the two triples of values
    (so [1.10.0] is newer than [1.9.0]). *)
Theorem versions_are_compared_as_numbers {Ext : Type} (sys : system Ext)
    (stack : stack) (st : state Ext) (last_tag : string)
    (major minor patch gbp_major gbp_minor gbp_patch : string) :
  get_last_git_tag sys (st_world st) = Return last_tag ->
  last_tag <> "" ->
  get_versions_from_upstream_tag sys last_tag
  = Return [gbp_major; gbp_minor; gbp_patch] ->
  version stack = join "." [major; minor; patch] ->
  StrictVersion.number major = true -> StrictVersion.number minor = true ->
  StrictVersion.number patch = true ->
  StrictVersion.number gbp_major = true -> StrictVersion.number gbp_minor = true ->
  StrictVersion.number gbp_patch = true ->
  gbp_version_elements sys stack st
  = (match StrictVersion.cmp_version
             (StrictVersion.atoi major, StrictVersion.atoi minor,
              StrictVersion.atoi patch)
             (StrictVersion.atoi gbp_major, StrictVersion.atoi gbp_minor,
              StrictVersion.atoi gbp_patch) with
     | Eq => Raise (AttributeError "verison")
     | _ => Return (gbp_major, gbp_minor, gbp_patch)
     end,
     {| st_world := st_world st;
        st_trace :=
          st_trace st
          ++ [EvCall "get_last_git_tag" []; EvPrint (tag_line sys last_tag)]
          ++ match StrictVersion.cmp_version
                     (StrictVersion.atoi major, StrictVersion.atoi minor,
                      StrictVersion.atoi patch)
                     (StrictVersion.atoi gbp_major, StrictVersion.atoi gbp_minor,
                      StrictVersion.atoi gbp_patch) with
             | Lt => [EvWarning
                        (regression_message (version stack)
                           (join "." [gbp_major; gbp_minor; gbp_patch]))]
             | _ => []
             end |}).
Proof.
  intros Htag Hne Hvers Hv Hx Hy Hz Ha Hb Hc.
  rewrite (gbp_version_elements_tagged sys stack st last_tag
             gbp_major gbp_minor gbp_patch
             (StrictVersion.Make
                (StrictVersion.atoi major, StrictVersion.atoi minor,
                 StrictVersion.atoi patch) None)
             (StrictVersion.Make
                (StrictVersion.atoi gbp_major, StrictVersion.atoi gbp_minor,
                 StrictVersion.atoi gbp_patch) None));
    [|done|done|done| |].
  2: { rewrite Hv. by apply StrictVersionOrder.parse_triple. }
  2: { by apply StrictVersionOrder.parse_triple. }
  unfold StrictVersion.lt, StrictVersion.eq, StrictVersion.cmp.
  cbn [StrictVersion.version StrictVersion.prerelease].
  destruct (StrictVersion.cmp_version _ _).
  - unfold bind, ret, lift. cbn [getattr String.eqb Ascii.eqb Bool.eqb].
    by rewrite app_nil_r.
  - unfold bind, warning, emit, ret. cbn [st_world st_trace].
    by rewrite <- (assoc_L (++)).
  - unfold bind, ret. by rewrite app_nil_r.
Qed.

Lemma versions_are_compared_as_numbers_witness :
  gbp_version_elements Scenario.sys {| name := "foo_pkg"; version := "1.10.0" |}
    (Scenario.start
       (Scenario.repo Scenario.release_branches (Scenario.fixture_with "upstream/1.9.0")))
  = (Return ("1", "9", "0"),
     {| st_world :=
          Scenario.repo Scenario.release_branches (Scenario.fixture_with "upstream/1.9.0");
        st_trace :=
          [EvCall "get_last_git_tag" [];
           EvPrint "The latest upstream tag in the release repo is upstream/1.9.0"] |}).
Proof.
  apply (versions_are_compared_as_numbers Scenario.sys
           {| name := "foo_pkg"; version := "1.10.0" |}
           (Scenario.start
              (Scenario.repo Scenario.release_branches
                 (Scenario.fixture_with "upstream/1.9.0")))
           "upstream/1.9.0" "1" "10" "0" "1" "9" "0");
    first [reflexivity | discriminate].
Defined.

(** ** The name of the tarball *)

Lemma has_char_occurs (c : ascii) (s : string) :
  occurs (String c "") s <-> has_char c s = true.
Proof.
  induction s as [|a s IH].
  - rewrite occurs_empty. by split.
  - rewrite occurs_cons, IH. cbn [startswith has_char].
    rewrite orb_true_iff, (Ascii.eqb_sym a c).
    destruct (Ascii.eqb c a); [|by intuition].
    replace (startswith "" s) with true by (by destruct s). by intuition.
Qed.

Lemma map_hyphen_no_underscore (s : string) :
  has_char "_" (Py.map (fun c => if Ascii.eqb c "_" then "-"%char else c) s) = false.
Proof.
  induction s as [|a s IH]; [done|]. cbn [Py.map has_char]. rewrite IH.
  destruct (Ascii.eqb a "_") eqn:E; [done|]. by rewrite E.
Qed.

Lemma map_hyphen_id (s : string) :
  has_char "_" s = false ->
  Py.map (fun c => if Ascii.eqb c "_" then "-"%char else c) s = s.
Proof.
  induction s as [|a s IH]; [done|]. cbn [Py.map has_char].
  intros [Ha Hs]%orb_false_iff. by rewrite Ha, IH.
Qed.

Lemma map_length (f : ascii -> ascii) (s : string) :
  String.length (Py.map f s) = String.length s.
Proof. induction s as [|a s IH]; [done|]. cbn. by rewrite IH. Qed.

(** The name part of the tarball name has the length of the package name
    and no underscore in it, and a package name without underscores is kept
    as it is; the version is appended unchanged. *)
Theorem tarball_name_has_no_underscore (pkg_name full_version : string) :
  exists prefix,
    get_tarball_name pkg_name full_version = prefix +:+ "-" +:+ full_version
    /\ String.length prefix = String.length pkg_name
    /\ Py.count "_" prefix = 0
    /\ (Py.count "_" pkg_name = 0 -> prefix = pkg_name).
Proof.
  exists (Py.map (fun c => if Ascii.eqb c "_" then "-"%char else c) pkg_name).
  split; [unfold get_tarball_name; by rewrite (replace_char "_" "-")|].
  split; [apply map_length|]. split.
  - apply count_zero. rewrite has_char_occurs. by rewrite map_hyphen_no_underscore.
  - intros H. apply map_hyphen_id. apply count_zero in H.
    rewrite has_char_occurs in H. by destruct (has_char "_" pkg_name).
Qed.

(** ** The validator and the initializer on the repository *)

(** The initializer touches no other branch.  In every state it leaves all
    branches but [upstream] as they were, puts an empty-tree commit on
    [upstream] (on top of the old one when the branch exists), and empties
    the index and the working directory, untracked files included. *)
Theorem initializer_frame {Ext : Type} (sys : system Ext) (dir : option string)
    (st : state Ext) (b : string) :
  b <> "upstream" ->
  (create_initial_upstream_branch sys dir st).1 = Return tt
  /\ branches (st_world (create_initial_upstream_branch sys dir st).2) !! b
     = branches (st_world st) !! b
  /\ branches (st_world (create_initial_upstream_branch sys dir st).2) !! "upstream"
     = Some (new_commit (branches (st_world st) !! "upstream") ∅
               "Initial upstream branch")
  /\ index (st_world (create_initial_upstream_branch sys dir st).2) = ∅
  /\ worktree (st_world (create_initial_upstream_branch sys dir st).2) = ∅
  /\ ext (st_world (create_initial_upstream_branch sys dir st).2) = ext (st_world st).
Proof.
  intros Hb. rewrite create_initial_upstream_branch_run.
  cbn [fst snd st_world branches index worktree ext].
  split; [done|]. split; [by rewrite lookup_insert_ne|].
  split; [by rewrite lookup_insert_eq|]. done.
Qed.

Lemma initializer_frame_witness :
  (create_initial_upstream_branch Scenario.sys None
     (Scenario.start
        (Scenario.repo Scenario.release_branches (Scenario.fixture_with "")))).1
  = Return tt
  /\ branches
       (st_world
          (create_initial_upstream_branch Scenario.sys None
             (Scenario.start
                (Scenario.repo Scenario.release_branches (Scenario.fixture_with "")))).2)
     !! "master" = Some Scenario.master_tip
  /\ branches
       (st_world
          (create_initial_upstream_branch Scenario.sys None
             (Scenario.start
                (Scenario.repo Scenario.release_branches (Scenario.fixture_with "")))).2)
     !! "upstream"
     = Some (ChildCommit (RootCommit ∅ "Initial upstream branch") ∅
               "Initial upstream branch").
Proof.
  destruct (initializer_frame Scenario.sys None
              (Scenario.start
                 (Scenario.repo Scenario.release_branches (Scenario.fixture_with "")))
              "master") as (H1 & H2 & H3 & _); [discriminate|].
  split; [exact H1|]. split; [rewrite H2; reflexivity | rewrite H3; reflexivity].
Defined.

Section Validator.
Context {Ext : Type}.
Variable sys : system Ext.
Implicit Types st : state Ext.
Implicit Types w : world Ext.

Lemma shell_branch_m_missing w :
  branches w !! "catkin" = None ->
  shell sys "git branch -m catkin bloom" w = failed 128 w.
Proof.
  intros H. change (shell sys "git branch -m catkin bloom" w)
    with (git_branch_m "catkin" "bloom" w).
  unfold git_branch_m. by rewrite H.
Qed.

End Validator.

(** When some branch has [catkin] in its name but no branch is named
    [catkin] (and none has [bloom] in its name), the validator starts the
    migration, whose first command fails: the run ends with the
    [CalledProcessError] of [git branch -m catkin bloom] and the repository
    is as it was. *)
Theorem migration_needs_catkin_branch {Ext : Type} (sys : system Ext)
    (cwd : string) (st : state Ext) :
  ~ occurs "bloom" (branch_listing (st_world st)) ->
  occurs "catkin" (branch_listing (st_world st)) ->
  branches (st_world st) !! "catkin" = None ->
  check_for_bloom sys (Some cwd) st
  = (Raise (CalledProcessError 128 "git branch -m catkin bloom"),
     {| st_world := st_world st;
        st_trace :=
          st_trace st
          ++ [EvShell "git branch"; EvShell "git branch";
              EvPrint "catkin branch detected, up converting to the bloom branch";
              EvShell "git branch -m catkin bloom"] |}).
Proof.
  intros Hb Hc Hnone. unfold check_for_bloom. unfold bind at 1.
  rewrite check_output_git_branch. cbn [st_world].
  rewrite count_absent by done.
  unfold bind at 1. rewrite check_output_git_branch. cbn [st_world st_trace].
  rewrite count_present by done.
  unfold bind at 1, print at 1, emit at 1. cbn [st_world st_trace default].
  unfold convert_catkin_to_bloom. unfold bind at 1.
  rewrite execute_command_run. cbn [st_world st_trace].
  rewrite shell_branch_m_missing by done. unfold failed. cbn [fst snd Z.eqb].
  by rewrite <- !(assoc_L (++)).
Qed.

Lemma migration_needs_catkin_branch_witness :
  check_for_bloom Scenario.sys (Some "/home/release/foo")
    (Scenario.start
       (Scenario.repo Scenario.catkin_old_branches (Scenario.fixture_with "")))
  = (Raise (CalledProcessError 128 "git branch -m catkin bloom"),
     {| st_world := Scenario.repo Scenario.catkin_old_branches (Scenario.fixture_with "");
        st_trace :=
          [EvShell "git branch"; EvShell "git branch";
           EvPrint "catkin branch detected, up converting to the bloom branch";
           EvShell "git branch -m catkin bloom"] |}).
Proof.
  apply (migration_needs_catkin_branch Scenario.sys "/home/release/foo"
           (Scenario.start
              (Scenario.repo Scenario.catkin_old_branches (Scenario.fixture_with "")))).
  - intros H%contains_spec. vm_compute in H. discriminate.
  - apply contains_spec. vm_compute. reflexivity.
  - reflexivity.
Defined.

(** ** The start of the import *)

(** A repository that the validator rejects is not imported into: when,
    after the branches are tracked, no local branch has [bloom] or [catkin]
    in its name, [import_upstream] ends with the bail-out of the validator,
    and nothing but the tracking and the two listings has run. *)
Theorem rejected_repository_is_not_imported {Ext : Type} (sys : system Ext)
    (st : state Ext) (w1 : world Ext) :
  track_all_git_branches sys ["bloom"; "upstream"] (st_world st) = (Return tt, w1) ->
  no_branch_contains "bloom" w1 ->
  no_branch_contains "catkin" w1 ->
  import_upstream sys st
  = (Raise (SystemExit 1),
     {| st_world := w1;
        st_trace :=
          st_trace st
          ++ [EvCall "track_all_git_branches" ["bloom"; "upstream"];
              EvShell "git branch"; EvShell "git branch";
              EvBailout not_a_bloom_message] |}).
Proof.
  intros Htrack Hb Hc. unfold import_upstream. unfold bind at 1.
  unfold ensure_bloom_repo. unfold bind at 1.
  unfold call, bind at 1, emit, act. cbn [st_world st_trace]. rewrite Htrack.
  unfold bind at 1, os_getcwd, ask. cbn [st_world].
  unfold bind at 1.
  rewrite check_for_bloom_neither;
    [|by apply no_branch_contains_listing; [apply word_bloom | |]
     |by apply no_branch_contains_listing; [apply word_catkin | |]].
  cbn [st_world st_trace]. by rewrite <- (assoc_L (++)).
Qed.

Lemma rejected_repository_is_not_imported_witness :
  import_upstream Scenario.sys
    (Scenario.start (Scenario.repo Scenario.plain_branches (Scenario.fixture_with "")))
  = (Raise (SystemExit 1),
     {| st_world := Scenario.repo Scenario.plain_branches (Scenario.fixture_with "");
        st_trace :=
          [EvCall "track_all_git_branches" ["bloom"; "upstream"];
           EvShell "git branch"; EvShell "git branch";
           EvBailout not_a_bloom_message] |}).
Proof.
  apply (rejected_repository_is_not_imported Scenario.sys
           (Scenario.start
              (Scenario.repo Scenario.plain_branches (Scenario.fixture_with "")))
           (Scenario.repo Scenario.plain_branches (Scenario.fixture_with ""))).
  - reflexivity.
  - apply no_branch_contains_check. vm_compute. reflexivity.
  - apply no_branch_contains_check. vm_compute. reflexivity.
Defined.

(** A [bloom] branch without configuration is rejected as well: when the
    branch [bloom] exists and neither its tree nor the untracked files hold
    a [bloom.conf], the import checks the branch out and bails out with the
    initialization hint before any configuration is read. *)
Theorem missing_bloom_conf_is_rejected {Ext : Type} (sys : system Ext)
    (st : state Ext) (w1 : world Ext) (c : commit) :
  track_all_git_branches sys ["bloom"; "upstream"] (st_world st) = (Return tt, w1) ->
  branches w1 !! "bloom" = Some c ->
  commit_tree c !! "bloom.conf" = None ->
  untracked w1 !! "bloom.conf" = None ->
  import_upstream sys st
  = (Raise (SystemExit 1),
     {| st_world :=
          {| cwd := cwd w1;
             branches := branches w1;
             HEAD := OnBranch "bloom";
             index := commit_tree c;
             worktree := commit_tree c ∪ untracked w1;
             ext := ext w1 |};
        st_trace :=
          st_trace st
          ++ [EvCall "track_all_git_branches" ["bloom"; "upstream"];
              EvShell "git branch";
              EvCall "VcsClient.update" ["bloom"];
              EvBailout not_a_bloom_message] |}).
Proof.
  intros Htrack Hbloom Htree Hun. unfold import_upstream. unfold bind at 1.
  unfold ensure_bloom_repo. unfold bind at 1.
  unfold call at 1, bind at 1, emit, act. cbn [st_world st_trace]. rewrite Htrack.
  unfold bind at 1, os_getcwd, ask. cbn [st_world].
  unfold bind at 1.
  rewrite check_for_bloom_found
    by (apply branch_listing_names; cbn [st_world]; by rewrite Hbloom).
  cbn [st_world st_trace].
  unfold bind at 1, bloom_repo_update, call, bind at 1, emit, act.
  cbn [st_world st_trace]. unfold switch_to. rewrite Hbloom.
  unfold bind at 1, os_path_exists, ask. cbn [st_world worktree].
  change (in_worktree _ "bloom.conf") with (Some "bloom.conf") at 1.
  cbn beta iota. rewrite lookup_union, Htree, Hun.
  rewrite bool_decide_eq_false_2 by (by intros []). cbn [negb].
  unfold not_a_bloom_release_repo, bailout, bind, emit, raise.
  cbn [st_world st_trace]. by rewrite <- !(assoc_L (++)).
Qed.

Lemma missing_bloom_conf_is_rejected_witness :
  (import_upstream Scenario.sys
     (Scenario.start
        (Scenario.repo Scenario.unconfigured_branches (Scenario.fixture_with "")))).1
  = Raise (SystemExit 1)
  /\ last (st_trace
             (import_upstream Scenario.sys
                (Scenario.start
                   (Scenario.repo Scenario.unconfigured_branches
                      (Scenario.fixture_with "")))).2)
     = Some (EvBailout not_a_bloom_message).
Proof.
  rewrite (missing_bloom_conf_is_rejected Scenario.sys
             (Scenario.start
                (Scenario.repo Scenario.unconfigured_branches (Scenario.fixture_with "")))
             (Scenario.repo Scenario.unconfigured_branches (Scenario.fixture_with ""))
             (RootCommit ∅ "empty")).
  - split; reflexivity.
  - reflexivity.
  - reflexivity.
  - reflexivity.
  - vm_compute. reflexivity.
Defined.

(** ** The migration of a legacy repository *)

Section Migration.
Context {Ext : Type}.
Variable sys : system Ext.
Implicit Types st : state Ext.
Implicit Types w : world Ext.

Lemma startswith_app (s t : string) : startswith s (s +:+ t) = true.
Proof. apply startswith_spec. by exists t. Qed.

Lemma drop_app (s t : string) : Py.drop (String.length s) (s +:+ t) = t.
Proof. induction s as [|a s IH]; [by destruct t|]. by rewrite app_cons. Qed.

Lemma path_join_relative (a f : string) :
  startswith "/" f = false -> path_join a f = path_join a "" +:+ f.
Proof.
  intros Hf. unfold path_join. rewrite Hf. cbn [startswith].
  destruct (negb (truthy a) || endswith_char "/" a).
  - by rewrite app_empty_r.
  - by rewrite !app_assoc.
Qed.

Lemma startswith_slash_app (a t : string) :
  startswith "/" a = true -> startswith "/" (a +:+ t) = true.
Proof.
  destruct a as [|c a]; [done|]. rewrite app_cons. cbn [startswith].
  by destruct (Ascii.eqb "/" c).
Qed.

(** A file named relative to the working directory is a file of it. *)
Lemma in_worktree_join w (dir f : string) :
  cwd w = dir -> startswith "/" dir = true -> startswith "/" f = false ->
  in_worktree w (path_join dir f) = Some f.
Proof.
  intros <- Hcwd Hf. unfold in_worktree. rewrite (path_join_relative _ _ Hf).
  assert (startswith "/" (path_join (cwd w) "") = true) as Hroot.
  { unfold path_join. cbn [startswith].
    destruct (negb _ || _); by apply startswith_slash_app. }
  rewrite (startswith_slash_app _ _ Hroot), startswith_app. by rewrite drop_app.
Qed.

Lemma shell_branch_m_ok w (c : commit) :
  branches w !! "catkin" = Some c -> branches w !! "bloom" = None ->
  shell sys "git branch -m catkin bloom" w
  = ok (set_HEAD (set_branches w (<["bloom" := c]> (delete "catkin" (branches w))))
          (if on_branch (HEAD w) "catkin" then OnBranch "bloom" else HEAD w)).
Proof.
  intros Hc Hb. change (shell sys "git branch -m catkin bloom" w)
    with (git_branch_m "catkin" "bloom" w).
  unfold git_branch_m. by rewrite Hc, Hb.
Qed.

Lemma shell_checkout_bloom w (c : commit) :
  branches w !! "bloom" = Some c ->
  shell sys "git checkout bloom" w
  = ok {| cwd := cwd w; branches := branches w; HEAD := OnBranch "bloom";
          index := commit_tree c; worktree := commit_tree c ∪ untracked w;
          ext := ext w |}.
Proof.
  intros Hc. change (shell sys "git checkout bloom" w) with (git_checkout "bloom" w).
  unfold git_checkout, switch_to. by rewrite Hc.
Qed.

Lemma shell_mv_conf w (x y : string) :
  index w !! "catkin.conf" = Some x -> worktree w !! "catkin.conf" = Some y ->
  worktree w !! "bloom.conf" = None ->
  shell sys "git mv catkin.conf bloom.conf" w
  = ok (set_worktree
          (set_index w (<["bloom.conf" := x]> (delete "catkin.conf" (index w))))
          (<["bloom.conf" := y]> (delete "catkin.conf" (worktree w)))).
Proof.
  intros Hx Hy Hn. change (shell sys "git mv catkin.conf bloom.conf" w)
    with (git_mv "catkin.conf" "bloom.conf" w).
  unfold git_mv. by rewrite Hx, Hy, Hn.
Qed.

Lemma shell_add_conf w (x : string) :
  worktree w !! "bloom.conf" = Some x ->
  shell sys "git add bloom.conf" w
  = ok (set_index w (<["bloom.conf" := x]> (index w))).
Proof.
  intros Hx. change (shell sys "git add bloom.conf" w) with (git_add "bloom.conf" w).
  unfold git_add. by rewrite Hx.
Qed.

Lemma shell_commit_rename w (b : string) (c : commit) :
  HEAD w = OnBranch b -> branches w !! b = Some c -> commit_tree c <> index w ->
  shell sys cmd_commit_rename w
  = ok (set_branches w
          (<[b := ChildCommit c (index w) "rename catkin.conf to bloom.conf"]>
             (branches w))).
Proof.
  intros Hh Hb Hne. change (shell sys cmd_commit_rename w)
    with (git_commit false "rename catkin.conf to bloom.conf" w).
  unfold git_commit. rewrite Hh, Hb. cbn [negb andb].
  by rewrite bool_decide_eq_false_2.
Qed.

End Migration.

(** A legacy repository is migrated.  When no branch has [bloom] in its
    name, the branch [catkin] exists with a [catkin.conf] and without a
    [bloom.conf], and no untracked [bloom.conf] lies in the working
    directory, the validator returns normally and leaves the repository
    [migrated]: the branch renamed to [bloom] and checked out, the file
    renamed to [bloom.conf] with [[catkin]] replaced by [[bloom]], and that
    change committed on top of the old commit. *)
Theorem legacy_repository_is_migrated {Ext : Type} (sys : system Ext)
    (st : state Ext) (c : commit) (conf : string) :
  startswith "/" (cwd (st_world st)) = true ->
  no_branch_contains "bloom" (st_world st) ->
  branches (st_world st) !! "catkin" = Some c ->
  commit_tree c !! "catkin.conf" = Some conf ->
  commit_tree c !! "bloom.conf" = None ->
  untracked (st_world st) !! "bloom.conf" = None ->
  check_for_bloom sys (Some (cwd (st_world st))) st
  = (Return tt,
     {| st_world := migrated (st_world st) c conf;
        st_trace :=
          st_trace st
          ++ [EvShell "git branch"; EvShell "git branch"] ++ migration_commands |}).
Proof.
  intros Hcwd Hno Hcat Hconf Hnob Hun.
  assert (branches (st_world st) !! "bloom" = None) as Hbloom.
  { destruct (branches (st_world st) !! "bloom") eqn:E; [|done].
    destruct (Hno "bloom"); [by rewrite E | apply occurs_refl]. }
  unfold check_for_bloom. unfold bind at 1.
  rewrite check_output_git_branch. cbn [st_world].
  rewrite count_absent
    by (by apply no_branch_contains_listing; [apply word_bloom | |]).
  unfold bind at 1. rewrite check_output_git_branch. cbn [st_world st_trace].
  rewrite count_present by (apply branch_listing_names; by rewrite Hcat).
  unfold bind at 1, print at 1, emit at 1. cbn [st_world st_trace].
  change (default "" (Some (cwd (st_world st)))) with (cwd (st_world st)).
  unfold convert_catkin_to_bloom.
  (* git branch -m catkin bloom *)
  unfold bind at 1.
  erewrite execute_command_ok by (by apply shell_branch_m_ok).
  (* git checkout bloom *)
  unfold bind at 1.
  erewrite execute_command_ok
    by (apply (shell_checkout_bloom sys _ c); cbn [set_HEAD set_branches branches];
        apply lookup_insert_eq).
  (* the legacy file is there *)
  unfold bind at 1, os_path_exists at 1, ask at 1. cbn [st_world].
  rewrite (in_worktree_join _ (cwd (st_world st))) by done. cbn [worktree].
  rewrite (lookup_union_Some_l _ _ _ _ Hconf).
  rewrite bool_decide_eq_true_2 by (by eexists).
  (* git mv catkin.conf bloom.conf *)
  unfold bind at 1.
  erewrite execute_command_ok
    by (apply (shell_mv_conf sys _ conf conf); cbn [index worktree];
        [done | by apply lookup_union_Some_l
         | by apply lookup_union_None]).
  (* bloom.conf is there *)
  unfold bind at 1, os_path_exists at 1, ask at 1. cbn [st_world].
  rewrite (in_worktree_join _ (cwd (st_world st))) by done.
  cbn [worktree set_worktree set_index].
  rewrite lookup_insert_eq.
  rewrite bool_decide_eq_true_2 by (by eexists).
  (* read, replace, write *)
  unfold bind at 1, read_file at 1. cbn [st_world].
  rewrite (in_worktree_join _ (cwd (st_world st))) by done.
  cbn [worktree set_worktree set_index]. rewrite lookup_insert_eq.
  unfold bind at 1, write_file at 1, act at 1. cbn [st_world st_trace].
  rewrite (in_worktree_join _ (cwd (st_world st))) by done.
  (* git add bloom.conf *)
  unfold bind at 1.
  erewrite execute_command_ok
    by (apply (shell_add_conf sys _ (Py.replace "[catkin]" "[bloom]" conf));
        cbn [worktree set_worktree set_index]; apply lookup_insert_eq).
  (* git commit *)
  erewrite execute_command_ok.
  2: { apply (shell_commit_rename sys _ "bloom" c).
       - reflexivity.
       - cbn [st_world branches set_branches set_index set_worktree set_HEAD].
         apply lookup_insert_eq.
       - cbn [st_world index set_branches set_index set_worktree set_HEAD].
         intros Heq.
         apply (f_equal (fun m => m !! "catkin.conf")) in Heq.
         rewrite Hconf in Heq.
         rewrite !lookup_insert_ne, lookup_delete_eq in Heq by done. done. }
  f_equal. unfold migrated, migration_commands.
  cbn [st_world st_trace set_branches set_index set_worktree set_HEAD
       cwd branches HEAD index worktree ext].
  rewrite !insert_insert_eq. unfold untracked at 1.
  cbn [index worktree]. fold (untracked (st_world st)).
  by rewrite <- !(assoc_L (++)).
Qed.

Lemma legacy_repository_is_migrated_witness :
  check_for_bloom Scenario.sys (Some "/home/release/foo")
    (Scenario.start (Scenario.repo Scenario.legacy_branches (Scenario.fixture_with "")))
  = (Return tt,
     {| st_world :=
          migrated (Scenario.repo Scenario.legacy_branches (Scenario.fixture_with ""))
            Scenario.catkin_tip Scenario.catkin_conf;
        st_trace := [EvShell "git branch"; EvShell "git branch"] ++ migration_commands |}).
Proof.
  apply (legacy_repository_is_migrated Scenario.sys
           (Scenario.start
              (Scenario.repo Scenario.legacy_branches (Scenario.fixture_with "")))
           Scenario.catkin_tip Scenario.catkin_conf).
  - reflexivity.
  - apply no_branch_contains_check. vm_compute. reflexivity.
  - reflexivity.
  - reflexivity.
  - reflexivity.
  - vm_compute. reflexivity.
Defined.

(** The migrated configuration of that repository: the section is
    [[bloom]], and the branch [catkin] is gone. *)
Example migrated_configuration :
  worktree
    (migrated (Scenario.repo Scenario.legacy_branches (Scenario.fixture_with ""))
       Scenario.catkin_tip Scenario.catkin_conf) !! "bloom.conf"
  = Some Scenario.bloom_conf
  /\ branches
       (migrated (Scenario.repo Scenario.legacy_branches (Scenario.fixture_with ""))
          Scenario.catkin_tip Scenario.catkin_conf) !! "catkin" = None.
Proof. split; vm_compute; reflexivity. Qed.

(** ** The validator run twice *)

Section Idempotence.
Context {Ext : Type}.
Variable sys : system Ext.
Implicit Types st : state Ext.
Implicit Types w : world Ext.
Implicit Types I : world Ext -> Prop.

Lemma keeps_ret {A} I (a : A) : keeps I (ret (Ext := Ext) a).
Proof. by intros st. Qed.

Lemma keeps_bind {A B} I (m : M Ext A) (k : A -> M Ext B) :
  keeps I m -> (forall a, keeps I (k a)) -> keeps I (bind m k).
Proof.
  intros Hm Hk st HI. unfold bind. specialize (Hm st HI).
  destruct (m st) as [[a|e] st1]; [by apply Hk | done].
Qed.

Lemma keeps_execute_command I (cmd : string) (dir : option string) :
  (forall w, I w -> I (shell sys cmd w).2) ->
  keeps I (execute_command sys cmd dir).
Proof. intros H st HI. rewrite execute_command_run. by apply H. Qed.

Lemma keeps_os_path_exists I (path : string) : keeps I (os_path_exists sys path).
Proof. by intros st. Qed.

Lemma keeps_read_file I (path : string) : keeps I (read_file (Ext := Ext) path).
Proof.
  intros st HI. unfold read_file.
  destruct (in_worktree _ _); [|done]. by destruct (worktree _ !! _).
Qed.

Lemma has_bloom_write_file (path content : string) :
  keeps has_bloom (write_file (Ext := Ext) path content).
Proof.
  intros st HI. unfold write_file, act. by destruct (in_worktree _ _).
Qed.

Lemma has_bloom_checkout w :
  has_bloom w -> has_bloom (shell sys "git checkout bloom" w).2.
Proof.
  intros H. change (shell sys "git checkout bloom" w) with (git_checkout "bloom" w).
  unfold git_checkout, switch_to. by destruct (branches w !! "bloom").
Qed.

Lemma has_bloom_mv w :
  has_bloom w -> has_bloom (shell sys "git mv catkin.conf bloom.conf" w).2.
Proof.
  intros H. change (shell sys "git mv catkin.conf bloom.conf" w)
    with (git_mv "catkin.conf" "bloom.conf" w).
  unfold git_mv.
  by destruct (index w !! "catkin.conf"), (worktree w !! "catkin.conf"),
       (worktree w !! "bloom.conf").
Qed.

Lemma has_bloom_add w :
  has_bloom w -> has_bloom (shell sys "git add bloom.conf" w).2.
Proof.
  intros H. change (shell sys "git add bloom.conf" w) with (git_add "bloom.conf" w).
  unfold git_add. by destruct (worktree w !! "bloom.conf").
Qed.

Lemma has_bloom_commit w :
  has_bloom w -> has_bloom (shell sys cmd_commit_rename w).2.
Proof.
  intros H. change (shell sys cmd_commit_rename w)
    with (git_commit false "rename catkin.conf to bloom.conf" w).
  unfold git_commit. destruct (negb false && _); [done|].
  destruct (HEAD w) as [b|]; [|done].
  unfold has_bloom. cbn [snd ok set_branches branches].
  destruct (decide (b = "bloom")) as [->|Hne].
  - rewrite lookup_insert_eq. by eexists.
  - by rewrite lookup_insert_ne.
Qed.

Lemma has_bloom_branch_m w :
  (shell sys "git branch -m catkin bloom" w).1.1 = 0%Z ->
  has_bloom (shell sys "git branch -m catkin bloom" w).2.
Proof.
  change (shell sys "git branch -m catkin bloom" w)
    with (git_branch_m "catkin" "bloom" w).
  unfold git_branch_m.
  destruct (branches w !! "catkin") as [c|]; [|done].
  destruct (branches w !! "bloom"); [done|]. intros _.
  unfold has_bloom. cbn [snd ok set_HEAD set_branches branches].
  rewrite lookup_insert_eq. by eexists.
Qed.

(** A migration that ends normally leaves a branch [bloom]. *)
Lemma convert_catkin_to_bloom_has_bloom (cwd : string) st st' :
  convert_catkin_to_bloom sys cwd st = (Return tt, st') -> has_bloom (st_world st').
Proof.
  unfold convert_catkin_to_bloom. unfold bind at 1.
  rewrite execute_command_run.
  destruct ((shell sys "git branch -m catkin bloom" (st_world st)).1.1 =? 0)%Z eqn:E;
    [|done].
  apply Z.eqb_eq, has_bloom_branch_m in E.
  match goal with
  | |- ?rest ?st1 = _ -> _ =>
      assert (keeps has_bloom rest) as Hkeeps; [|intros Hrun]
  end.
  { repeat first
      [ apply keeps_ret
      | apply keeps_os_path_exists
      | apply keeps_read_file
      | apply has_bloom_write_file
      | apply keeps_execute_command;
          first [ apply has_bloom_checkout | apply has_bloom_mv
                | apply has_bloom_add | apply has_bloom_commit ]
      | apply keeps_bind; [|intros ?]
      | match goal with |- keeps _ (if ?b then _ else _) => destruct b end ]. }
  specialize (Hkeeps
                {| st_world := (shell sys "git branch -m catkin bloom" (st_world st)).2;
                   st_trace := st_trace st ++ [EvShell "git branch -m catkin bloom"] |}
                E).
  by rewrite Hrun in Hkeeps.
Qed.

Lemma occurs_dec (sub s : string) : occurs sub s \/ ~ occurs sub s.
Proof.
  destruct (contains sub s) eqn:E.
  - left. by apply contains_spec.
  - right. intros H%contains_spec. congruence.
Qed.

End Idempotence.

(** The validator is idempotent: whenever it returns normally, with or
    without a migration, a second run right after it only lists the
    branches and leaves the repository as it is. *)
Theorem validator_is_idempotent {Ext : Type} (sys : system Ext)
    (cwd cwd' : option string) (st st' : state Ext) :
  check_for_bloom sys cwd st = (Return tt, st') ->
  check_for_bloom sys cwd' st'
  = (Return tt,
     {| st_world := st_world st';
        st_trace := st_trace st' ++ [EvShell "git branch"] |}).
Proof.
  intros Hrun. apply check_for_bloom_found.
  revert Hrun. unfold check_for_bloom. unfold bind at 1.
  rewrite check_output_git_branch. cbn [st_world].
  destruct (occurs_dec "bloom" (branch_listing (st_world st))) as [Hb|Hb].
  - rewrite count_present by done. by intros [= <-].
  - rewrite count_absent by done.
    unfold bind at 1. rewrite check_output_git_branch. cbn [st_world st_trace].
    destruct (occurs_dec "catkin" (branch_listing (st_world st))) as [Hc|Hc].
    + rewrite count_present by done.
      unfold bind at 1, print at 1, emit at 1. cbn [st_world st_trace].
      intros Hconv%convert_catkin_to_bloom_has_bloom.
      by apply branch_listing_names.
    + rewrite count_absent by done.
      unfold not_a_bloom_release_repo, bailout, bind, emit, raise. done.
Qed.

Lemma validator_is_idempotent_witness :
  check_for_bloom Scenario.sys (Some "/home/release/foo")
    {| st_world :=
         migrated (Scenario.repo Scenario.legacy_branches (Scenario.fixture_with ""))
           Scenario.catkin_tip Scenario.catkin_conf;
       st_trace := [EvShell "git branch"; EvShell "git branch"] ++ migration_commands |}
  = (Return tt,
     {| st_world :=
          migrated (Scenario.repo Scenario.legacy_branches (Scenario.fixture_with ""))
            Scenario.catkin_tip Scenario.catkin_conf;
        st_trace :=
          ([EvShell "git branch"; EvShell "git branch"] ++ migration_commands)
          ++ [EvShell "git branch"] |}).
Proof.
  apply (validator_is_idempotent Scenario.sys
           (Some "/home/release/foo") (Some "/home/release/foo")
           (Scenario.start
              (Scenario.repo Scenario.legacy_branches (Scenario.fixture_with "")))).
  vm_compute. reflexivity.
Defined.

(** ** The values of the configuration *)

Lemma lstrip_head (s : string) :
  match lstrip s with
  | String c _ => isspace c = false
  | EmptyString => True
  end.
Proof.
  induction s as [|c s IH]; [done|]. cbn [lstrip].
  by destruct (isspace c) eqn:E.
Qed.

Lemma rstrip_head (c : ascii) (s : string) :
  isspace c = false -> exists r, rstrip (String c s) = String c r.
Proof.
  intros Hc. cbn [rstrip]. destruct (rstrip s); [|by eexists].
  rewrite Hc. by eexists.
Qed.

Lemma rstrip_last (s : string) :
  match last_char (rstrip s) with
  | Some c => isspace c = false
  | None => True
  end.
Proof.
  induction s as [|c s IH]; [done|]. cbn [rstrip].
  destruct (rstrip s) as [|a r]; [by destruct (isspace c) eqn:E|].
  exact IH.
Qed.

(** [strip] leaves no white space at either end. *)
Lemma strip_stripped (s : string) : stripped (strip s).
Proof.
  unfold stripped, strip. split; [|apply rstrip_last].
  pose proof (lstrip_head s) as H. destruct (lstrip s) as [|c t]; [done|].
  destruct (rstrip_head c t H) as [r ->]. done.
Qed.

(** The values that the configuration reader answers have no white space
    at either end (so none keeps the newline that ends the output of
    [git config]); the branch may be empty. *)
Theorem configuration_values_are_stripped {Ext : Type} (sys : system Ext)
    (cwd : option string) (st st' : state Ext)
    (upstream_repo upstream_type upstream_branch : string) :
  parse_bloom_conf sys cwd st
  = (Return (upstream_repo, upstream_type, upstream_branch), st') ->
  stripped upstream_repo /\ stripped upstream_type /\ stripped upstream_branch.
Proof.
  intros Hrun. apply (f_equal fst) in Hrun. cbn [fst] in Hrun.
  destruct (shell sys "git config -f bloom.conf bloom.upstream" (st_world st))
    as [[c1 o1] w1] eqn:H1.
  destruct (shell sys "git config -f bloom.conf bloom.upstreamtype" w1)
    as [[c2 o2] w2] eqn:H2.
  destruct (shell sys "git config -f bloom.conf bloom.upstreambranch" w2)
    as [[c3 o3] w3] eqn:H3.
  rewrite (parse_bloom_conf_run sys cwd st c1 c2 c3 o1 o2 o3 w1 w2 w3 H1 H2 H3)
    in Hrun.
  destruct (c1 =? 0)%Z; [|done]. destruct (c2 =? 0)%Z; [|done].
  injection Hrun as <- <- <-.
  split; [apply strip_stripped|]. split; [apply strip_stripped|].
  destruct (c3 =? 0)%Z; [apply strip_stripped | done].
Qed.

Lemma configuration_values_are_stripped_witness :
  stripped "https://example/repo" /\ stripped "git" /\ stripped "".
Proof.
  apply (configuration_values_are_stripped Scenario.sys None
           (Scenario.start
              (Scenario.repo Scenario.release_branches (Scenario.fixture_with "")))
           (parse_bloom_conf Scenario.sys None
              (Scenario.start
                 (Scenario.repo Scenario.release_branches
                    (Scenario.fixture_with "")))).2).
  vm_compute. reflexivity.
Defined.

(** ** The archive that is imported *)

Lemma app_inv_tail_string (s t u : string) : s +:+ u = t +:+ u -> s = t.
Proof.
  revert t. induction s as [|a s IH]; intros [|b t] H.
  - done.
  - apply (f_equal String.length) in H. rewrite app_empty_l, app_length in H.
    cbn in H. lia.
  - apply (f_equal String.length) in H. rewrite app_empty_l, app_length in H.
    cbn in H. lia.
  - rewrite !app_cons in H. injection H as -> H. by rewrite (IH t H).
Qed.

Lemma import_orig_cmd_inj (p q : string) :
  import_orig_cmd p = import_orig_cmd q -> p = q.
Proof.
  unfold import_orig_cmd. intros H.
  assert (p +:+ ".tar.gz" = q +:+ ".tar.gz") as H'.
  { revert H. generalize (p +:+ ".tar.gz") (q +:+ ".tar.gz"). intros x y H.
    cbv [String.append] in H. by injection H. }
  by apply app_inv_tail_string in H'.
Qed.

(** A command that is not an import: it differs from every import command
    within the first characters. *)
Ltac literal_not_import :=
  let p := fresh "p" in
  let H := fresh "H" in
  intros p H;
  first [ discriminate H
        | injection H as H; vm_compute in H; discriminate H ].

Ltac import_step HP :=
  lazymatch goal with
  | |- emits _ (bind _ _) => apply emits_bind; [|intros ?]
  | |- emits _ (try_except _ _) => apply emits_try_except; [|emits_handler]
  | |- emits _ (emit _) => apply emits_emit; apply HP; literal_not_import
  | |- emits _ (ret _) => apply emits_ret
  | |- emits _ (raise _) => apply emits_raise
  | |- emits _ (lift _) => apply emits_lift
  | |- emits _ (ask _) => apply emits_ask
  | |- emits _ (act _) => apply emits_act
  | |- emits _ (read_file _) => apply emits_read_file
  | |- emits _ (if ?b then _ else _) => destruct b
  | |- emits _ (match ?x with _ => _ end) => destruct x
  | |- emits _ _ => emits_known
  end.

Section ImportTraces.
Context {Ext : Type}.
Variable sys : system Ext.
Variable P : event -> Prop.
Hypothesis HP : passes_import P.

Lemma quiet_run (cmd : string) :
  (forall p, EvShell cmd <> EvShell (import_orig_cmd p)) -> emits P (run sys cmd).
Proof.
  intros Hcmd. unfold run. apply emits_bind; [|auto with emits].
  by apply emits_emit, HP.
Qed.

Lemma quiet_check_output (cmd : string) (dir : option string) :
  (forall p, EvShell cmd <> EvShell (import_orig_cmd p)) ->
  emits P (check_output sys cmd dir).
Proof.
  intros Hcmd. unfold check_output. pose proof (quiet_run cmd Hcmd).
  repeat import_step HP.
Qed.

Lemma quiet_execute_command (cmd : string) (dir : option string) :
  (forall p, EvShell cmd <> EvShell (import_orig_cmd p)) ->
  emits P (execute_command sys cmd dir).
Proof.
  intros Hcmd. unfold execute_command. pose proof (quiet_run cmd Hcmd).
  repeat import_step HP.
Qed.

Lemma quiet_check_call (cmd : string) :
  (forall p, EvShell cmd <> EvShell (import_orig_cmd p)) ->
  emits P (check_call sys cmd).
Proof.
  intros Hcmd. unfold check_call. pose proof (quiet_run cmd Hcmd).
  repeat import_step HP.
Qed.

Lemma quiet_call {A} (fn : string) (args : list string)
    (f : world Ext -> result A * world Ext) :
  emits P (call fn args f).
Proof. unfold call. repeat import_step HP. Qed.

End ImportTraces.

Ltac import_prog HP :=
  repeat first
    [ lazymatch goal with
      | |- emits _ (check_output _ _ _) =>
          solve [apply quiet_check_output; [assumption | literal_not_import]]
      | |- emits _ (execute_command _ _ _) =>
          solve [apply quiet_execute_command; [assumption | literal_not_import]]
      | |- emits _ (check_call _ _) =>
          solve [apply quiet_check_call; [assumption | literal_not_import]]
      | |- emits _ (call _ _ _) => solve [apply quiet_call; assumption]
      end
    | import_step HP ].

Section ImportStepTraces.
Context {Ext : Type}.
Variable sys : system Ext.
Variable P : event -> Prop.
Hypothesis HP : passes_import P.

Lemma quiet_os_path_exists (path : string) : emits P (os_path_exists sys path).
Proof. unfold os_path_exists. import_prog HP. Qed.

Lemma quiet_bloom_repo_update (version : string) :
  emits P (bloom_repo_update (Ext := Ext) version).
Proof. unfold bloom_repo_update. import_prog HP. Qed.

Lemma quiet_convert_catkin_to_bloom (cwd : string) :
  emits P (convert_catkin_to_bloom sys cwd).
Proof.
  unfold convert_catkin_to_bloom, write_file, print.
  pose proof quiet_os_path_exists. import_prog HP.
Qed.

Lemma quiet_check_for_bloom (cwd : option string) :
  emits P (check_for_bloom sys cwd).
Proof.
  unfold check_for_bloom, not_a_bloom_release_repo, bailout, print.
  pose proof quiet_convert_catkin_to_bloom. import_prog HP.
Qed.

Lemma quiet_ensure_bloom_repo : emits P (ensure_bloom_repo sys).
Proof.
  unfold ensure_bloom_repo, not_a_bloom_release_repo, bailout, os_getcwd.
  pose proof quiet_check_for_bloom. pose proof quiet_bloom_repo_update.
  pose proof quiet_os_path_exists. import_prog HP.
Qed.

Lemma quiet_parse_bloom_conf (cwd : option string) :
  emits P (parse_bloom_conf sys cwd).
Proof. unfold parse_bloom_conf, except_CalledProcessError. import_prog HP. Qed.

Lemma quiet_summarize_repo_info (upstream_repo upstream_type upstream_branch : string) :
  emits P (summarize_repo_info sys upstream_repo upstream_type upstream_branch).
Proof. unfold summarize_repo_info, print. import_prog HP. Qed.

Lemma quiet_checkout_upstream (upstream_repo upstream_type upstream_branch : string) :
  emits P (checkout_upstream sys upstream_repo upstream_type upstream_branch).
Proof. unfold checkout_upstream. import_prog HP. Qed.

Lemma quiet_parse_the_stack_xml (upstream_dir : string) :
  emits P (parse_the_stack_xml sys upstream_dir).
Proof.
  unfold parse_the_stack_xml, bailout. pose proof quiet_os_path_exists.
  import_prog HP.
Qed.

Lemma quiet_gbp_version_elements (stack : stack) :
  emits P (gbp_version_elements sys stack).
Proof.
  unfold gbp_version_elements, StrictVersion_new, warning, print. import_prog HP.
Qed.

Lemma quiet_look_for_upstream_branch : emits P (look_for_upstream_branch sys).
Proof.
  unfold look_for_upstream_branch, create_initial_upstream_branch, print.
  import_prog HP.
Qed.

End ImportStepTraces.

Section ImportedArchive.
Context {Ext : Type}.
Variable sys : system Ext.
Implicit Types st : state Ext.

Lemma passes_import_not_import : passes_import not_import.
Proof. by intros e. Qed.

Lemma passes_imports_exactly (tarball_path : string) :
  passes_import (imports_exactly tarball_path).
Proof. intros e He p ->. by destruct (He p). Qed.

(** The import step imports the archive it is given, and no other. *)
Lemma import_the_tarball_imports_exactly (tarball_path : string) :
  emits (imports_exactly tarball_path) (import_the_tarball sys tarball_path).
Proof.
  pose proof (passes_imports_exactly tarball_path) as HP.
  unfold import_the_tarball, detect_git_import_orig, except_CalledProcessError, bailout.
  import_prog HP.
  unfold check_call, run. import_prog HP.
  apply emits_emit. intros p H.
  assert (import_orig_cmd tarball_path = import_orig_cmd p) as H' by congruence.
  symmetry. by apply import_orig_cmd_inj.
Qed.

(** The statements of [import_upstream] after the export. *)
Lemma after_export_imports_exactly (stack : stack) (tarball_path : string) :
  emits (imports_exactly tarball_path)
    (gbp_version_elements sys stack ;;
     look_for_upstream_branch sys ;;
     bloom_repo_update "master" ;;
     import_the_tarball sys tarball_path)%py.
Proof.
  pose proof (passes_imports_exactly tarball_path) as HP.
  pose proof (quiet_gbp_version_elements sys _ HP).
  pose proof (quiet_look_for_upstream_branch sys _ HP).
  pose proof (quiet_bloom_repo_update (Ext := Ext) _ HP).
  pose proof (import_the_tarball_imports_exactly tarball_path).
  import_prog HP.
Qed.

(** The export prints one line and calls the client once, with the path it
    answers. *)
Lemma export_tarball_run (upstream_type upstream_dir tmp_dir : string) (stack : stack)
    st :
  let tarball_path :=
    path_join tmp_dir (get_tarball_name (name stack) (version stack)) in
  let r :=
    vcs_export_repository sys upstream_type upstream_dir (version stack)
      tarball_path (st_world st) in
  export_tarball sys upstream_type upstream_dir tmp_dir stack st
  = (match r.1 with
     | Return _ => Return tarball_path
     | Raise e => Raise e
     end,
     {| st_world := r.2;
        st_trace :=
          st_trace st
          ++ [EvPrint ("Exporting version " +:+ version stack);
              export_call upstream_type upstream_dir (version stack) tarball_path] |}).
Proof.
  intros tarball_path r. subst r.
  unfold export_tarball, call, bind, print, emit, act, ret, export_call.
  cbn [st_world st_trace fst snd]. fold tarball_path.
  destruct (vcs_export_repository _ _ _ _ _ _) as [[b|e] w]; cbn [fst snd];
    by rewrite <- (assoc_L (++)).
Qed.

Lemma imports_what_it_exported_bind {A B} (m : M Ext A) (k : A -> M Ext B) :
  emits not_import m ->
  (forall a, imports_what_it_exported (k a)) ->
  imports_what_it_exported (bind m k).
Proof.
  intros Hm Hk st. unfold bind.
  destruct (Hm st) as (evs1 & E1 & F1).
  destruct (m st) as [[a|e] st1]; cbn [snd] in E1.
  - destruct (Hk a st1) as (evs2 & E2 & H2).
    exists (evs1 ++ evs2). rewrite E2, E1, (assoc_L (++)). split; [done|].
    intros p Hin. apply in_app_or in Hin as [Hin|Hin].
    + apply list_elem_of_In in Hin.
      by destruct (proj1 (Forall_forall _ _) F1 _ Hin p).
    + destruct (H2 p Hin) as (t & d & tmp & s & before & after & -> & -> & Hb).
      exists t, d, tmp, s, (evs1 ++ before), after.
      split; [done|]. split; [by rewrite (assoc_L (++))|].
      by apply Forall_app.
  - exists evs1. split; [done|]. intros p Hin.
    apply list_elem_of_In in Hin.
    by destruct (proj1 (Forall_forall _ _) F1 _ Hin p).
Qed.

Lemma imports_what_it_exported_export {B}
    (upstream_type upstream_dir tmp_dir : string) (stack : stack)
    (k : string -> M Ext B) :
  (forall p, emits (imports_exactly p) (k p)) ->
  imports_what_it_exported
    (bind (export_tarball sys upstream_type upstream_dir tmp_dir stack) k).
Proof.
  intros Hk st. unfold bind. rewrite export_tarball_run. cbv zeta.
  set (tarball_path :=
         path_join tmp_dir (get_tarball_name (name stack) (version stack))).
  destruct (vcs_export_repository _ _ _ _ _ _) as [[b|e] w]; cbn [fst snd].
  - match goal with
    | |- context [k tarball_path ?s] =>
        destruct (Hk tarball_path s) as (evs2 & E2 & F2)
    end.
    cbn [st_trace] in E2.
    exists ([EvPrint ("Exporting version " +:+ version stack);
             export_call upstream_type upstream_dir (version stack) tarball_path]
            ++ evs2).
    rewrite E2, (assoc_L (++)). split; [done|].
    intros p Hin. cbn [app] in Hin.
    destruct Hin as [Hin|[Hin|Hin]]; [discriminate Hin | discriminate Hin |].
    apply list_elem_of_In in Hin.
    pose proof (proj1 (Forall_forall _ _) F2 _ Hin p eq_refl) as ->.
    exists upstream_type, upstream_dir, tmp_dir, stack,
      [EvPrint ("Exporting version " +:+ version stack)], evs2.
    split; [done|]. split; [done|].
    constructor; [|constructor]. by intros q.
  - exists [EvPrint ("Exporting version " +:+ version stack);
            export_call upstream_type upstream_dir (version stack) tarball_path].
    cbn [st_trace]. split; [done|].
    intros p Hin.
    destruct Hin as [Hin|[Hin|[]]]; discriminate Hin.
Qed.

Lemma import_upstream_imports_what_it_exported :
  imports_what_it_exported (import_upstream sys).
Proof.
  pose proof passes_import_not_import as HP.
  unfold import_upstream.
  apply imports_what_it_exported_bind;
    [apply (quiet_ensure_bloom_repo sys _ HP) | intros _].
  apply imports_what_it_exported_bind;
    [apply (quiet_parse_bloom_conf sys _ HP)
    | intros [[upstream_repo upstream_type] upstream_branch]].
  apply imports_what_it_exported_bind;
    [apply (quiet_summarize_repo_info sys _ HP) | intros _].
  apply imports_what_it_exported_bind; [unfold print; import_prog HP | intros _].
  apply imports_what_it_exported_bind;
    [apply (quiet_checkout_upstream sys _ HP) | intros [tmp_dir upstream_dir]].
  apply imports_what_it_exported_bind;
    [apply (quiet_parse_the_stack_xml sys _ HP) | intros stack].
  apply imports_what_it_exported_bind; [unfold print; import_prog HP | intros _].
  apply imports_what_it_exported_bind; [unfold print; import_prog HP | intros _].
  apply imports_what_it_exported_export. intros p.
  apply after_export_imports_exactly.
Qed.

End ImportedArchive.

(** Every archive that a run of [import_upstream] hands to
    [git import-orig] is the one that the same run exported: its path is the
    temporary directory joined with the tarball name of the manifest, the
    export of the manifest's version to that path is in the trace, and no
    import comes before that export. *)
Theorem imported_archive_was_exported {Ext : Type} (sys : system Ext)
    (st : state Ext) (evs : list event) (p : string) :
  st_trace (import_upstream sys st).2 = st_trace st ++ evs ->
  In (EvShell (import_orig_cmd p)) evs ->
  exists upstream_type upstream_dir tmp_dir stack before after,
    p = path_join tmp_dir (get_tarball_name (name stack) (version stack))
    /\ evs = before
             ++ export_call upstream_type upstream_dir (version stack) p :: after
    /\ Forall not_import before.
Proof.
  intros Htrace Hin.
  destruct (import_upstream_imports_what_it_exported sys st) as (evs' & E & H).
  rewrite E in Htrace. apply app_inv_head in Htrace. subst evs'.
  by apply H.
Qed.

Lemma imported_archive_was_exported_witness :
  exists upstream_type upstream_dir tmp_dir stack before after,
    "/tmp/bloom/foo-pkg-1.2.3"
    = path_join tmp_dir (get_tarball_name (name stack) (version stack))
    /\ st_trace
         (import_upstream Scenario.sys
            (Scenario.start
               (Scenario.repo Scenario.fresh_branches
                  (Scenario.fixture_with "")))).2
       = before
         ++ export_call upstream_type upstream_dir (version stack)
              "/tmp/bloom/foo-pkg-1.2.3"
         :: after
    /\ Forall not_import before.
Proof.
  apply (imported_archive_was_exported Scenario.sys
           (Scenario.start
              (Scenario.repo Scenario.fresh_branches (Scenario.fixture_with "")))).
  - reflexivity.
  - vm_compute. repeat (first [left; reflexivity | right]).
Defined.
